(** * aircraft-tracker: the record type and the two flat-file stores

    A shallow embedding of [src/models/aircraft.py],
    [src/utils/validators.py], [src/storage/json_storage.py] and
    [src/storage/csv_storage.py], of [process_aircraft_data] of
    [src/api/aircraft_api.py] and of the list functions of
    [src/interfaces/cli.py], and the properties of the persistent
    record store proved (or refuted) on it.

    Conventions of the embedding:
    - a Python value is a [pyval]; a Python [float] is a binary64 number
      of [SpecFloat] (sign, 53-bit mantissa, exponent), so that [-0.0],
      the infinities and NaN are all there;
    - a Python [str] is a [string] whose characters are read as code
      points below 256;
    - a Python [dict] with string keys is a [gmap string pyval]; the
      order of the keys (the column order of a CSV header) is not
      represented;
    - code that can raise returns a [result]; a method of a store is a
      function from the state of its backing file to a [result] and the
      new state of the file;
    - the text layer of the [json] and [csv] modules is not modelled: the
      backing file holds what [json.load] or [csv.DictReader] would make
      of it. *)

From Stdlib Require Import ZArith NArith List String Ascii Bool Lia.
From Stdlib Require Import SpecFloat DecimalString Sorted.
From stdpp Require Import base option list gmap strings.

Open Scope string_scope.

(** ** Exceptions and results *)

Inductive exn : Type :=
| TypeError
| ValueError
| KeyError
| OverflowError
| AttributeError
| IndexError
| PermissionError
| UnicodeDecodeError.

Inductive result (A : Type) : Type :=
| Ok (a : A)
| Raise (e : exn).
Arguments Ok {A} a.
Arguments Raise {A} e.

Definition rbind {A B} (r : result A) (k : A -> result B) : result B :=
  match r with
  | Ok a => k a
  | Raise e => Raise e
  end.

Notation "'let!' x ':=' r 'in' k" := (rbind r (fun x => k))
  (at level 10, x pattern, r at level 100, k at level 200).

(** [[f(x) for x in l]]: the first exception ends the comprehension. *)
Fixpoint rmap {A B} (f : A -> result B) (l : list A) : result (list B) :=
  match l with
  | [] => Ok []
  | x :: l' =>
      let! y := f x in
      let! ys := rmap f l' in
      Ok (y :: ys)
  end.

(** ** Strings *)

Fixpoint dropwhile_b {A} (p : A -> bool) (l : list A) : list A :=
  match l with
  | [] => []
  | c :: l' => if p c then dropwhile_b p l' else l
  end.

Module PyStr.

(** [str.isspace] on the code points below 256. *)
Definition isspace (c : ascii) : bool :=
  let n := nat_of_ascii c in
  (((9 <=? n) && (n <=? 13)) || ((28 <=? n) && (n <=? 32))
   || (n =? 133) || (n =? 160))%nat.

Definition lstrip_list (l : list ascii) : list ascii :=
  dropwhile_b isspace l.

Definition rstrip_list (l : list ascii) : list ascii :=
  rev (dropwhile_b isspace (rev l)).

Definition strip_list (l : list ascii) : list ascii :=
  rstrip_list (lstrip_list l).

(** [s.strip()] *)
Definition strip (s : string) : string :=
  string_of_list_ascii (strip_list (list_ascii_of_string s)).

(** [str.lower] on the code points below 256: A-Z and the upper-case
    letters of Latin-1. *)
Definition lower_char (c : ascii) : ascii :=
  let n := nat_of_ascii c in
  if (((65 <=? n) && (n <=? 90))
      || ((192 <=? n) && (n <=? 222) && negb (n =? 215)))%nat
  then ascii_of_nat (n + 32) else c.

Fixpoint lower (s : string) : string :=
  match s with
  | EmptyString => EmptyString
  | String c s' => String (lower_char c) (lower s')
  end.

Definition eqb (a b : string) : bool := bool_decide (a = b).

(** [str.isdigit] on the code points below 256: 0-9 and the superscript
    digits. *)
Definition isdigit_char (c : ascii) : bool :=
  let n := nat_of_ascii c in
  (((48 <=? n) && (n <=? 57)) || (n =? 178) || (n =? 179) || (n =? 185))%nat.

Definition isdigit (s : string) : bool :=
  match list_ascii_of_string s with
  | [] => false
  | l => forallb isdigit_char l
  end.

(** [s.split(sep)] for a separator of one character. *)
Fixpoint split_list (sep : ascii) (l : list ascii) : list (list ascii) :=
  match l with
  | [] => [[]]
  | c :: l' =>
      if Ascii.eqb c sep then [] :: split_list sep l'
      else match split_list sep l' with
           | p :: ps => (c :: p) :: ps
           | [] => [[c]]
           end
  end.

Definition split (sep : ascii) (s : string) : list string :=
  string_of_list_ascii <$> split_list sep (list_ascii_of_string s).

(** [sub in s] *)
Fixpoint startswith_list (sub l : list ascii) : bool :=
  match sub, l with
  | [], _ => true
  | c :: sub', d :: l' => Ascii.eqb c d && startswith_list sub' l'
  | _ :: _, [] => false
  end.

Fixpoint contains_list (sub l : list ascii) : bool :=
  startswith_list sub l
  || match l with
     | [] => false
     | _ :: l' => contains_list sub l'
     end.

Definition contains (sub s : string) : bool :=
  contains_list (list_ascii_of_string sub) (list_ascii_of_string s).

End PyStr.

(** ** Floats

    Python's [float] is IEEE 754 binary64.  The operations below are the
    ones the program uses: comparison, [max], conversion from [int],
    [float(text)] and the fixed-point format [f"{x:.nf}"]. *)

Module PyFloat.

Definition float : Type := spec_float.

Definition prec : Z := 53.
Definition emax : Z := 1024.

Definition pos_zero : float := S754_zero false.

(** [float(z)] for an [int] that fits; rounds to nearest, ties to even.
    An infinite result stands for Python's [OverflowError]. *)
Definition of_Z (z : Z) : float := binary_normalize prec emax z 0 false.

Definition ltb (a b : float) : bool := SFltb a b.
Definition leb (a b : float) : bool := SFleb a b.
Definition eqb (a b : float) : bool := SFeqb a b.

(** [max(a, b)]: the first argument unless the second is strictly
    greater. *)
Definition max (a b : float) : float := if ltb a b then b else a.

(** The integer a float is equal to, if any. *)
Definition to_Z_exact (x : float) : option Z :=
  match x with
  | S754_zero _ => Some 0%Z
  | S754_finite s m e =>
      let sg (v : Z) := if s then Z.opp v else v in
      match e with
      | Zneg p =>
          if (Zpos m mod 2 ^ Zpos p =? 0)%Z
          then Some (sg (Zpos m / 2 ^ Zpos p)%Z) else None
      | _ => Some (sg (Zpos m * 2 ^ e)%Z)
      end
  | _ => None
  end.

(** *** Fixed-point formatting *)

Definition digits_of_N (n : N) : string :=
  NilZero.string_of_uint (N.to_uint n).

Fixpoint zeros (n : nat) : string :=
  match n with
  | O => ""
  | S n' => String "0" (zeros n')
  end.

Definition pad_left (n : nat) (s : string) : string :=
  zeros (n - String.length s) ++ s.

(** [m * 2^e * 10^nd] rounded to an integer, ties to even. *)
Definition scaled_round (nd : nat) (m : positive) (e : Z) : Z :=
  let p10 := (10 ^ Z.of_nat nd)%Z in
  match e with
  | Zneg p =>
      let num := (Zpos m * p10)%Z in
      let den := (2 ^ Zpos p)%Z in
      let q := (num / den)%Z in
      let r := (num mod den)%Z in
      match (2 * r ?= den)%Z with
      | Lt => q
      | Gt => (q + 1)%Z
      | Eq => if Z.even q then q else (q + 1)%Z
      end
  | _ => (Zpos m * 2 ^ e * p10)%Z
  end.

Definition fixed_digits (nd : nat) (n : Z) : string :=
  let p10 := (10 ^ Z.of_nat nd)%Z in
  digits_of_N (Z.to_N (n / p10))
  ++ match nd with
     | O => ""
     | _ => "." ++ pad_left nd (digits_of_N (Z.to_N (n mod p10)))
     end.

Definition sign_text (s : bool) : string := if s then "-" else "".

(** [f"{x:.{nd}f}"] *)
Definition format_fixed (nd : nat) (x : float) : string :=
  match x with
  | S754_nan => "nan"
  | S754_infinity s => sign_text s ++ "inf"
  | S754_zero s => sign_text s ++ fixed_digits nd 0
  | S754_finite s m e => sign_text s ++ fixed_digits nd (scaled_round nd m e)
  end.

(** *** Parsing *)

Definition is_digit (c : ascii) : bool :=
  let n := nat_of_ascii c in ((48 <=? n) && (n <=? 57))%nat.

Definition digit_val (c : ascii) : Z := Z.of_nat (nat_of_ascii c - 48).

(** A run [digit (["_"] digit)*]: its digits and what follows it. *)
Fixpoint read_digits (l : list ascii) : list ascii * list ascii :=
  match l with
  | c :: l' =>
      if is_digit c then
        let '(ds, r) :=
          match l' with
          | u :: ((c2 :: _) as l'') =>
              if Ascii.eqb u "_" && is_digit c2
              then read_digits l''
              else read_digits l'
          | _ => read_digits l'
          end in
        (c :: ds, r)
      else ([], l)
  | [] => ([], [])
  end.

Definition Z_of_digits (ds : list ascii) : Z :=
  fold_left (fun acc c => (10 * acc + digit_val c)%Z) ds 0%Z.

Definition read_sign (l : list ascii) : bool * list ascii :=
  match l with
  | "-"%char :: l' => (true, l')
  | "+"%char :: l' => (false, l')
  | _ => (false, l)
  end.

(** The float nearest to [(-1)^neg * m * 10^e10], ties to even. *)
Definition of_decimal (neg : bool) (m : Z) (e10 : Z) : float :=
  match m with
  | Zpos pm =>
      match e10 with
      | Zneg pe =>
          SFdiv prec emax (S754_finite neg pm 0)
                (S754_finite false (10 ^ pe)%positive 0)
      | _ =>
          binary_normalize prec emax
            ((if neg then Z.opp m else m) * 10 ^ e10)%Z 0 false
      end
  | _ => S754_zero neg
  end.

Definition parse_decimal (neg : bool) (l : list ascii) : option float :=
  let '(ip, r1) := read_digits l in
  let '(fp, r2) :=
    match r1 with
    | "."%char :: r => read_digits r
    | _ => ([], r1)
    end in
  match (ip ++ fp)%list with
  | [] => None
  | ds =>
      let ex :=
        match r2 with
        | [] => Some 0%Z
        | c :: r =>
            if (Ascii.eqb c "e" || Ascii.eqb c "E")%bool then
              let '(eneg, r') := read_sign r in
              match read_digits r' with
              | ((_ :: _) as ed, []) =>
                  Some (if eneg then Z.opp (Z_of_digits ed) else Z_of_digits ed)
              | _ => None
              end
            else None
        end in
      match ex with
      | Some e => Some (of_decimal neg (Z_of_digits ds) (e - Z.of_nat (List.length fp)))
      | None => None
      end
  end.

(** The blanks [float] skips at both ends of its argument: unlike
    [str.strip] it keeps the separators 28 to 31. *)
Definition isspace (c : ascii) : bool :=
  let n := nat_of_ascii c in
  (((9 <=? n) && (n <=? 13)) || (n =? 32) || (n =? 133) || (n =? 160))%nat.

Definition skip_blanks (l : list ascii) : list ascii :=
  rev (dropwhile_b isspace (rev (dropwhile_b isspace l))).

(** [float(s)] for a string; [None] stands for [ValueError]. *)
Definition of_string (s : string) : option float :=
  let l := skip_blanks (list_ascii_of_string s) in
  let '(neg, body) := read_sign l in
  let name := PyStr.lower (string_of_list_ascii body) in
  if PyStr.eqb name "inf" || PyStr.eqb name "infinity"
  then Some (S754_infinity neg)
  else if PyStr.eqb name "nan" then Some S754_nan
  else parse_decimal neg body.

Definition sub (a b : float) : float := SFsub prec emax a b.
Definition abs (a : float) : float := SFabs a.

(** The literals [0.1] and [1.0]. *)
Definition tenth : float := S754_finite false 7205759403792794 (-56).
Definition one : float := S754_finite false 4503599627370496 (-52).

(** The sign bit. *)
Definition signbit (x : float) : bool :=
  match x with
  | S754_zero s | S754_infinity s | S754_finite s _ _ => s
  | S754_nan => false
  end.

Definition is_nan (x : float) : bool :=
  match x with
  | S754_nan => true
  | _ => false
  end.

End PyFloat.


(** ** Python values *)

Inductive pyval : Type :=
| VNone
| VBool (b : bool)
| VInt (z : Z)
| VFloat (x : PyFloat.float)
| VStr (s : string).

(** A [dict] with string keys. *)
Abbreviation dict := (gmap string pyval).

Module Py.

(** [bool(v)] *)
Definition truthy (v : pyval) : bool :=
  match v with
  | VNone => false
  | VBool b => b
  | VInt z => negb (z =? 0)%Z
  | VFloat x => negb (PyFloat.eqb x PyFloat.pos_zero)
  | VStr s => negb (PyStr.eqb s "")
  end.

Definition isinstance_str (v : pyval) : bool :=
  match v with
  | VStr _ => true
  | _ => false
  end.

Definition is_infinite (x : PyFloat.float) : bool :=
  match x with
  | S754_infinity _ => true
  | _ => false
  end.

Definition float_of_int (z : Z) : result PyFloat.float :=
  let x := PyFloat.of_Z z in
  if is_infinite x then Raise OverflowError else Ok x.

(** [float(v)] *)
Definition float (v : pyval) : result PyFloat.float :=
  match v with
  | VNone => Raise TypeError
  | VBool b => float_of_int (if b then 1 else 0)%Z
  | VInt z => float_of_int z
  | VFloat x => Ok x
  | VStr s =>
      match PyFloat.of_string s with
      | Some x => Ok x
      | None => Raise ValueError
      end
  end.

(** The number an [int], [bool] or [float] stands for in a comparison
    with another type of number. *)
Definition as_int (v : pyval) : option Z :=
  match v with
  | VBool b => Some (if b then 1 else 0)%Z
  | VInt z => Some z
  | _ => None
  end.

(** [a == b] *)
Definition eq (a b : pyval) : bool :=
  match a, b with
  | VNone, VNone => true
  | VStr s, VStr t => PyStr.eqb s t
  | VFloat x, VFloat y => PyFloat.eqb x y
  | VFloat x, (VInt _ | VBool _) =>
      bool_decide (PyFloat.to_Z_exact x = as_int b)
  | (VInt _ | VBool _), VFloat y =>
      bool_decide (as_int a = PyFloat.to_Z_exact y)
  | (VInt _ | VBool _), (VInt _ | VBool _) =>
      bool_decide (as_int a = as_int b)
  | _, _ => false
  end.

(** [a != b] *)
Definition ne (a b : pyval) : bool := negb (eq a b).

(** [f"{v:.{nd}f}"] *)
Definition format_f (nd : nat) (v : pyval) : result string :=
  match v with
  | VNone => Raise TypeError
  | VStr _ => Raise ValueError
  | VFloat x => Ok (PyFloat.format_fixed nd x)
  | VInt _ | VBool _ =>
      let! x := float v in Ok (PyFloat.format_fixed nd x)
  end.

Definition str_of_int (z : Z) : string :=
  match z with
  | Zneg p => "-" ++ PyFloat.digits_of_N (Npos p)
  | _ => PyFloat.digits_of_N (Z.to_N z)
  end.

Section Str.

(** [repr] of a float, the shortest text that reads back as the same
    float, is taken as given. *)
Variable float_repr : PyFloat.float -> string.

(** [str(v)] *)
Definition str (v : pyval) : string :=
  match v with
  | VNone => "None"
  | VBool b => if b then "True" else "False"
  | VInt z => str_of_int z
  | VFloat x => float_repr x
  | VStr s => s
  end.

End Str.

(** [d.get(k)] and [d.get(k, default)] *)
Definition get (d : dict) (k : string) : pyval := default VNone (d !! k).
Definition get_or (d : dict) (k : string) (dflt : pyval) : pyval :=
  default dflt (d !! k).

(** [d[k]] *)
Definition item (d : dict) (k : string) : result pyval :=
  match d !! k with
  | Some v => Ok v
  | None => Raise KeyError
  end.

(** [l[:n]] *)
Definition slice_to {A} (n : Z) (l : list A) : list A :=
  if (n <? 0)%Z then take (List.length l - Z.to_nat (- n)) l
  else take (Z.to_nat n) l.

(** [sorted(l, key=key, reverse=reverse)] for float keys.  The sort
    compares keys with [<] only and is stable; with [reverse] the list is
    reversed before and after, which keeps records of equal keys in their
    order.  Where no key is NaN the outcome is that of any stable sort,
    here insertion from the right. *)
Section Sorted.

Context {A : Type} (key : A -> PyFloat.float).

Fixpoint insert_sorted (x : A) (l : list A) : list A :=
  match l with
  | [] => [x]
  | y :: l' =>
      if PyFloat.ltb (key y) (key x) then y :: insert_sorted x l'
      else x :: y :: l'
  end.

Definition sort_stable (l : list A) : list A :=
  fold_right insert_sorted [] l.

Definition sorted (reverse : bool) (l : list A) : list A :=
  if reverse then rev (sort_stable (rev l)) else sort_stable l.

End Sorted.

End Py.

(** ** [src/utils/validators.py] *)

Module validators.

(** The [except (TypeError, ValueError)] clauses of this program. *)
Definition caught (e : exn) : bool :=
  match e with
  | TypeError | ValueError => true
  | _ => false
  end.

Definition validate_altitude (altitude : pyval) : result bool :=
  match Py.float altitude with
  | Ok alt =>
      Ok (PyFloat.leb (PyFloat.of_Z (-1000)) alt
          && PyFloat.leb alt (PyFloat.of_Z 50000))
  | Raise e => if caught e then Ok false else Raise e
  end.

Definition validate_velocity (velocity : pyval) : result bool :=
  match Py.float velocity with
  | Ok vel =>
      Ok (PyFloat.leb (PyFloat.of_Z 0) vel
          && PyFloat.leb vel (PyFloat.of_Z 1000))
  | Raise e => if caught e then Ok false else Raise e
  end.

Definition validate_country (country : pyval) : bool :=
  if negb (Py.truthy country) || negb (Py.isinstance_str country) then false
  else
    match country with
    | VStr s =>
        let country := PyStr.strip s in
        (0 <? String.length country)%nat && negb (PyStr.isdigit country)
    | _ => false
    end.

Definition validate_coordinates (lat lon : pyval) : result bool :=
  match (let! lat := Py.float lat in
         let! lon := Py.float lon in
         Ok (lat, lon)) with
  | Ok (lat, lon) =>
      Ok (PyFloat.leb (PyFloat.of_Z (-90)) lat
          && PyFloat.leb lat (PyFloat.of_Z 90)
          && PyFloat.leb (PyFloat.of_Z (-180)) lon
          && PyFloat.leb lon (PyFloat.of_Z 180))
  | Raise e => if caught e then Ok false else Raise e
  end.

(** The range [(0.0, 50000.0)]. *)
Definition default_range : PyFloat.float * PyFloat.float :=
  (PyFloat.pos_zero, PyFloat.of_Z 50000).

(** A value that is not a [str] has no [split]: the [AttributeError] is
    caught. *)
Definition parse_altitude_range (range_str : pyval)
  : PyFloat.float * PyFloat.float :=
  match range_str with
  | VStr s =>
      match PyStr.split "-" s with
      | [p0; p1] =>
          match PyFloat.of_string (PyStr.strip p0) with
          | Some min_alt =>
              match PyFloat.of_string (PyStr.strip p1) with
              | Some max_alt => (min_alt, max_alt)
              | None => default_range
              end
          | None => default_range
          end
      | _ => default_range
      end
  | _ => default_range
  end.

End validators.

(** ** [src/models/aircraft.py] *)

Module Aircraft.

Record t : Type := mk {
  _callsign : string;
  _origin_country : string;
  _velocity : PyFloat.float;
  _altitude : PyFloat.float;
  _icao24 : pyval;
  _longitude : pyval;
  _latitude : pyval;
  _on_ground : pyval;
  _vertical_rate : pyval
}.

Definition callsign (self : t) : string := _callsign self.
Definition origin_country (self : t) : string := _origin_country self.
Definition velocity (self : t) : PyFloat.float := _velocity self.
Definition altitude (self : t) : PyFloat.float := _altitude self.
Definition icao24 (self : t) : pyval := _icao24 self.

(** [value.strip()] for a value known to be a [str]. *)
Definition strip_str (value : pyval) : string :=
  match value with
  | VStr s => PyStr.strip s
  | _ => "Unknown"
  end.

Definition _validate_callsign (value : pyval) : string :=
  if negb (Py.truthy value) || negb (Py.isinstance_str value)
  then "Unknown"
  else strip_str value.

Definition _validate_country (value : pyval) : string :=
  if negb (Py.truthy value) || negb (Py.isinstance_str value)
  then "Unknown"
  else strip_str value.

Definition _validate_velocity (value : pyval) : result PyFloat.float :=
  match Py.float value with
  | Ok val => Ok (PyFloat.max PyFloat.pos_zero val)
  | Raise e => if validators.caught e then Ok PyFloat.pos_zero else Raise e
  end.

Definition _validate_altitude (value : pyval) : result PyFloat.float :=
  match Py.float value with
  | Ok val => Ok (PyFloat.max (PyFloat.of_Z (-1000)) val)
  | Raise e => if validators.caught e then Ok PyFloat.pos_zero else Raise e
  end.

(** [Aircraft(callsign, origin_country, velocity, altitude, **kwargs)] *)
Definition __init__ (callsign origin_country velocity altitude : pyval)
    (kwargs : dict) : result t :=
  let cs := _validate_callsign callsign in
  let oc := _validate_country origin_country in
  let! v := _validate_velocity velocity in
  let! a := _validate_altitude altitude in
  Ok {| _callsign := cs;
        _origin_country := oc;
        _velocity := v;
        _altitude := a;
        _icao24 := Py.get_or kwargs "icao24" (VStr "Unknown");
        _longitude := Py.get_or kwargs "longitude" (VFloat PyFloat.pos_zero);
        _latitude := Py.get_or kwargs "latitude" (VFloat PyFloat.pos_zero);
        _on_ground := Py.get_or kwargs "on_ground" (VBool true);
        _vertical_rate :=
          Py.get_or kwargs "vertical_rate" (VFloat PyFloat.pos_zero) |}.

Definition from_dict (data : dict) : result t :=
  __init__
    (Py.get_or data "callsign" (VStr "Unknown"))
    (Py.get_or data "origin_country" (VStr "Unknown"))
    (Py.get_or data "velocity" (VFloat PyFloat.pos_zero))
    (Py.get_or data "altitude" (VFloat PyFloat.pos_zero))
    (<["icao24" := Py.get_or data "icao24" (VStr "Unknown")]>
     (<["longitude" := Py.get_or data "longitude" (VFloat PyFloat.pos_zero)]>
      (<["latitude" := Py.get_or data "latitude" (VFloat PyFloat.pos_zero)]>
       (<["on_ground" := Py.get_or data "on_ground" (VBool true)]>
        (<["vertical_rate" :=
             Py.get_or data "vertical_rate" (VFloat PyFloat.pos_zero)]>
         ∅))))).

Definition cast_to_object_list (data_list : list dict) : result (list t) :=
  rmap from_dict data_list.

Definition to_dict (self : t) : dict :=
  <["callsign" := VStr (callsign self)]>
  (<["origin_country" := VStr (origin_country self)]>
   (<["velocity" := VFloat (velocity self)]>
    (<["altitude" := VFloat (altitude self)]>
     (<["icao24" := _icao24 self]>
      (<["longitude" := _longitude self]>
       (<["latitude" := _latitude self]>
        (<["on_ground" := _on_ground self]>
         (<["vertical_rate" := _vertical_rate self]> ∅)))))))).

(** [self.velocity = value] and [self.altitude = value] *)
Definition velocity_setter (self : t) (value : pyval) : result t :=
  let! v := _validate_velocity value in
  Ok {| _callsign := _callsign self;
        _origin_country := _origin_country self;
        _velocity := v;
        _altitude := _altitude self;
        _icao24 := _icao24 self;
        _longitude := _longitude self;
        _latitude := _latitude self;
        _on_ground := _on_ground self;
        _vertical_rate := _vertical_rate self |}.

Definition altitude_setter (self : t) (value : pyval) : result t :=
  let! a := _validate_altitude value in
  Ok {| _callsign := _callsign self;
        _origin_country := _origin_country self;
        _velocity := _velocity self;
        _altitude := a;
        _icao24 := _icao24 self;
        _longitude := _longitude self;
        _latitude := _latitude self;
        _on_ground := _on_ground self;
        _vertical_rate := _vertical_rate self |}.

Definition position (self : t) : pyval * pyval :=
  (_longitude self, _latitude self).

(** The right operand of a comparison: a record, or a value that is not
    one. *)
Inductive operand : Type :=
| IsAircraft (other : t)
| NotAircraft (other : pyval).

(** The comparison methods; [None] stands for [NotImplemented]. *)
Definition __lt__ (self : t) (other : operand) : option bool :=
  match other with
  | NotAircraft _ => None
  | IsAircraft o => Some (PyFloat.ltb (velocity self) (velocity o))
  end.

Definition __le__ (self : t) (other : operand) : option bool :=
  match other with
  | NotAircraft _ => None
  | IsAircraft o => Some (PyFloat.leb (velocity self) (velocity o))
  end.

Definition __gt__ (self : t) (other : operand) : option bool :=
  match other with
  | NotAircraft _ => None
  | IsAircraft o => Some (PyFloat.ltb (velocity o) (velocity self))
  end.

Definition __ge__ (self : t) (other : operand) : option bool :=
  match other with
  | NotAircraft _ => None
  | IsAircraft o => Some (PyFloat.leb (velocity o) (velocity self))
  end.

Definition __eq__ (self : t) (other : operand) : bool :=
  match other with
  | NotAircraft _ => false
  | IsAircraft o =>
      PyStr.eqb (callsign self) (callsign o)
      && PyStr.eqb (origin_country self) (origin_country o)
      && PyFloat.ltb (PyFloat.abs (PyFloat.sub (velocity self) (velocity o)))
           PyFloat.tenth
      && PyFloat.ltb (PyFloat.abs (PyFloat.sub (altitude self) (altitude o)))
           PyFloat.one
  end.

Definition higher_than (self : t) (other : operand) : option bool :=
  match other with
  | NotAircraft _ => None
  | IsAircraft o => Some (PyFloat.ltb (altitude o) (altitude self))
  end.

Definition faster_than (self : t) (other : operand) : option bool :=
  match other with
  | NotAircraft _ => None
  | IsAircraft o => Some (PyFloat.ltb (velocity o) (velocity self))
  end.

End Aircraft.


(** ** [src/storage/json_storage.py] *)

Module JSONStorage.

(** What is at [self._file_path].  [Parsed data] is a file whose text is
    a JSON array of flat objects, the layout the store writes. *)
Inductive file : Type :=
| Absent
| Denied
| NotUtf8
| Garbled
| Parsed (data : list dict).

(** The file and whether it can be opened for writing. *)
Record disk : Type := mkdisk { file_of : file; writable : bool }.

(** A method of the store: its result and the file it leaves. *)
Definition method (A : Type) : Type := disk -> result A * disk.

Definition _load_data (d : disk) : result (list dict) :=
  match file_of d with
  | Parsed data => Ok data
  | Absent | Garbled => Ok []
  | Denied => Raise PermissionError
  | NotUtf8 => Raise UnicodeDecodeError
  end.

Definition _save_data (data : list dict) (d : disk) : bool * disk :=
  if writable d
  then (true, {| file_of := Parsed data; writable := writable d |})
  else (false, d).

Definition _ensure_file_exists (d : disk) : disk :=
  match file_of d with
  | Absent => snd (_save_data [] d)
  | _ => d
  end.

Definition __init__ (d : disk) : disk := _ensure_file_exists d.

(** The scan of [add_aircraft]: the data with the first record of that
    callsign updated, if there is one. *)
Fixpoint update_existing (callsign : string) (aircraft_dict : dict)
    (data : list dict) : option (list dict) :=
  match data with
  | [] => None
  | existing :: rest =>
      if Py.eq (Py.get existing "callsign") (VStr callsign)
      then Some ((aircraft_dict ∪ existing) :: rest)
      else cons existing <$> update_existing callsign aircraft_dict rest
  end.

Definition add_aircraft (aircraft : Aircraft.t) : method bool :=
  fun d =>
    match _load_data d with
    | Raise e => (Raise e, d)
    | Ok data =>
        let aircraft_dict := Aircraft.to_dict aircraft in
        match update_existing (Aircraft.callsign aircraft) aircraft_dict data with
        | Some data' =>
            let '(ok, d') := _save_data data' d in (Ok ok, d')
        | None =>
            let '(ok, d') := _save_data (data ++ [aircraft_dict]) d in
            (Ok ok, d')
        end
    end.

(** The outer loop of [add_multiple_aircraft]. *)
Fixpoint add_each (aircraft_list : list Aircraft.t) (data : list dict)
    (added_count : nat) : list dict * nat :=
  match aircraft_list with
  | [] => (data, added_count)
  | aircraft :: rest =>
      let aircraft_dict := Aircraft.to_dict aircraft in
      match update_existing (Aircraft.callsign aircraft) aircraft_dict data with
      | Some data' => add_each rest data' (added_count + 1)
      | None => add_each rest (data ++ [aircraft_dict]) (added_count + 1)
      end
  end.

Definition add_multiple_aircraft (aircraft_list : list Aircraft.t)
  : method nat :=
  fun d =>
    match _load_data d with
    | Raise e => (Raise e, d)
    | Ok data =>
        let '(data', added_count) := add_each aircraft_list data 0 in
        let '(_, d') := _save_data data' d in
        (Ok added_count, d')
    end.

(** The inner loop of [get_aircraft]: every criterion is looked at until
    one fails. *)
Fixpoint item_matches (item : dict) (criteria : list (string * pyval))
  : bool :=
  match criteria with
  | [] => true
  | (key, value) :: rest =>
      match item !! key with
      | None => false
      | Some v => if Py.ne v value then false else item_matches item rest
      end
  end.

Fixpoint filter_items (data : list dict) (criteria : list (string * pyval))
  : list dict :=
  match data with
  | [] => []
  | item :: rest =>
      if item_matches item criteria
      then item :: filter_items rest criteria
      else filter_items rest criteria
  end.

Definition get_aircraft (criteria : option (list (string * pyval)))
  : method (list Aircraft.t) :=
  fun d =>
    match _load_data d with
    | Raise e => (Raise e, d)
    | Ok data =>
        match criteria with
        | None | Some [] => (Aircraft.cast_to_object_list data, d)
        | Some cs =>
            (Aircraft.cast_to_object_list (filter_items data cs), d)
        end
    end.

Definition delete_aircraft (callsign : string) : method bool :=
  fun d =>
    match _load_data d with
    | Raise e => (Raise e, d)
    | Ok data =>
        let new_data :=
          List.filter
            (fun item => Py.ne (Py.get item "callsign") (VStr callsign))
            data in
        if (List.length new_data <? List.length data)%nat
        then let '(ok, d') := _save_data new_data d in (Ok ok, d')
        else (Ok false, d)
    end.

Definition get_all : method (list Aircraft.t) :=
  fun d =>
    match _load_data d with
    | Raise e => (Raise e, d)
    | Ok data => (Aircraft.cast_to_object_list data, d)
    end.

Definition clear : method bool :=
  fun d => let '(ok, d') := _save_data [] d in (Ok ok, d').

Definition count : method nat :=
  fun d =>
    match _load_data d with
    | Raise e => (Raise e, d)
    | Ok data => (Ok (List.length data), d)
    end.

Definition get_aircraft_by_country (country : pyval)
  : method (list Aircraft.t) :=
  get_aircraft (Some [("origin_country", country)]).

Definition get_top_by_altitude (n : Z) : method (list Aircraft.t) :=
  fun d =>
    match get_all d with
    | (Ok aircraft_list, d') =>
        let sorted_aircraft := Py.sorted Aircraft.altitude true aircraft_list in
        (Ok (Py.slice_to n sorted_aircraft), d')
    | (Raise e, d') => (Raise e, d')
    end.

End JSONStorage.

(** ** [src/storage/csv_storage.py] *)

Module CSVStorage.

(** A row as [csv.DictReader] yields it: the cells under the names of
    the header, [None] where the line is shorter than the header.  (A
    line longer than the header is not represented.) *)
Abbreviation cells := (gmap string (option string)).

(** What is at [self._file_path].  [Parsed rows] is a file the [csv]
    module reads to the end, [rows] being the lines after the header (a
    file of zero bytes is [Parsed []]); [Garbled before] is a file on
    which it raises [csv.Error] after the lines [before]. *)
Inductive file : Type :=
| Absent
| Denied
| NotUtf8
| Garbled (before : list cells)
| Parsed (rows : list cells).

Record disk : Type := mkdisk { file_of : file; writable : bool }.

Definition method (A : Type) : Type := disk -> result A * disk.

Definition header : list string :=
  ["callsign"; "origin_country"; "velocity"; "altitude"; "icao24";
   "longitude"; "latitude"; "on_ground"; "vertical_rate"].

Definition _ensure_file_exists : method unit :=
  fun d =>
    match file_of d with
    | Absent =>
        if writable d
        then (Ok tt, {| file_of := Parsed []; writable := writable d |})
        else (Raise PermissionError, d)
    | _ => (Ok tt, d)
    end.

Definition __init__ : method unit := _ensure_file_exists.

Definition _row_to_aircraft (row : dict) : result Aircraft.t :=
  let! callsign := Py.item row "callsign" in
  let! origin_country := Py.item row "origin_country" in
  let! velocity := (let! v := Py.item row "velocity" in Py.float v) in
  let! altitude := (let! v := Py.item row "altitude" in Py.float v) in
  let! icao24 := Py.item row "icao24" in
  let! longitude := (let! v := Py.item row "longitude" in Py.float v) in
  let! latitude := (let! v := Py.item row "latitude" in Py.float v) in
  let! on_ground :=
    (let! v := Py.item row "on_ground" in
     match v with
     | VStr s => Ok (PyStr.eqb (PyStr.lower s) "true")
     | _ => Raise AttributeError
     end) in
  let! vertical_rate :=
    (let! v := Py.item row "vertical_rate" in Py.float v) in
  Aircraft.__init__ callsign origin_country (VFloat velocity)
    (VFloat altitude)
    (<["icao24" := icao24]>
     (<["longitude" := VFloat longitude]>
      (<["latitude" := VFloat latitude]>
       (<["on_ground" := VBool on_ground]>
        (<["vertical_rate" := VFloat vertical_rate]> ∅))))).

Definition cell_value (c : option string) : pyval :=
  match c with
  | Some s => VStr s
  | None => VNone
  end.

(** [any(row.values())] *)
Definition any_value (row : dict) : bool :=
  existsb Py.truthy (map_to_list row).*2.

(** The loop of [_load_data] over the rows of the reader. *)
Fixpoint read_rows (rows : list cells) : list dict :=
  match rows with
  | [] => []
  | r :: rest =>
      let row := cell_value <$> r in
      if any_value row then row :: read_rows rest else read_rows rest
  end.

Definition _load_data (d : disk) : result (list dict) :=
  match file_of d with
  | Parsed rows => Ok (read_rows rows)
  | Garbled before => Ok (read_rows before)
  | Absent => Ok []
  | Denied => Raise PermissionError
  | NotUtf8 => Raise UnicodeDecodeError
  end.

(** The scan of [add_aircraft] with [enumerate]. *)
Fixpoint find_existing (callsign : string) (data : list dict) (i : nat)
  : option nat :=
  match data with
  | [] => None
  | existing :: rest =>
      if Py.eq (Py.get existing "callsign") (VStr callsign)
      then Some i
      else find_existing callsign rest (S i)
  end.

(** [existing_dict] of [add_multiple_aircraft]: a dictionary from the
    callsign cells to positions. *)
Definition index : Type := list (pyval * nat).

Fixpoint index_get (k : pyval) (ix : index) : option nat :=
  match ix with
  | [] => None
  | (k', i) :: rest => if Py.eq k' k then Some i else index_get k rest
  end.

Fixpoint index_set (k : pyval) (i : nat) (ix : index) : index :=
  match ix with
  | [] => [(k, i)]
  | (k', i') :: rest =>
      if Py.eq k' k then (k', i) :: rest else (k', i') :: index_set k i rest
  end.

(** [{row['callsign']: i for i, row in enumerate(data)}] *)
Fixpoint index_rows (data : list dict) (i : nat) (ix : index)
  : result index :=
  match data with
  | [] => Ok ix
  | row :: rest =>
      let! k := Py.item row "callsign" in
      index_rows rest (S i) (index_set k i ix)
  end.

(** [data[i] = new_row] *)
Definition set_row (data : list dict) (i : nat) (new_row : dict)
  : result (list dict) :=
  if (i <? List.length data)%nat then Ok (<[i := new_row]> data)
  else Raise IndexError.

Definition numeric_keys : list string :=
  ["velocity"; "altitude"; "longitude"; "latitude"; "vertical_rate"].

(** The value of a row that [get_aircraft] compares with the value of a
    criterion. *)
Definition coerce (key : string) (row_value : pyval) : result pyval :=
  if bool_decide (key ∈ numeric_keys) then
    match (if Py.truthy row_value then Py.float row_value
           else Ok PyFloat.pos_zero) with
    | Ok x => Ok (VFloat x)
    | Raise e =>
        if validators.caught e then Ok (VFloat PyFloat.pos_zero)
        else Raise e
    end
  else if bool_decide (key = "on_ground") then
    if Py.truthy row_value then
      match row_value with
      | VStr s => Ok (VBool (PyStr.eqb (PyStr.lower s) "true"))
      | _ => Raise AttributeError
      end
    else Ok (VBool false)
  else Ok row_value.

Fixpoint row_matches (row : dict) (criteria : list (string * pyval))
  : result bool :=
  match criteria with
  | [] => Ok true
  | (key, value) :: rest =>
      let! row_value := coerce key (Py.get row key) in
      if Py.ne row_value value then Ok false else row_matches row rest
  end.

Fixpoint select_rows (data : list dict) (criteria : list (string * pyval))
  : result (list Aircraft.t) :=
  match data with
  | [] => Ok []
  | row :: rest =>
      let! m := row_matches row criteria in
      if m : bool then
        let! a := _row_to_aircraft row in
        let! l := select_rows rest criteria in
        Ok (a :: l)
      else select_rows rest criteria
  end.

Definition get_aircraft (criteria : option (list (string * pyval)))
  : method (list Aircraft.t) :=
  fun d =>
    match _load_data d with
    | Raise e => (Raise e, d)
    | Ok data =>
        match criteria with
        | None | Some [] => (rmap _row_to_aircraft data, d)
        | Some cs => (select_rows data cs, d)
        end
    end.

Definition get_all : method (list Aircraft.t) := get_aircraft None.

Definition count : method nat :=
  fun d =>
    match _load_data d with
    | Raise e => (Raise e, d)
    | Ok data => (Ok (List.length data), d)
    end.

Definition get_aircraft_by_country (country : pyval)
  : method (list Aircraft.t) :=
  get_aircraft (Some [("origin_country", country)]).

Definition get_top_by_altitude (n : Z) : method (list Aircraft.t) :=
  fun d =>
    match get_all d with
    | (Ok aircraft_list, d') =>
        let sorted_aircraft := Py.sorted Aircraft.altitude true aircraft_list in
        (Ok (Py.slice_to n sorted_aircraft), d')
    | (Raise e, d') => (Raise e, d')
    end.

Section Writing.

Variable float_repr : PyFloat.float -> string.

Definition _aircraft_to_row (aircraft : Aircraft.t) : result dict :=
  let velocity := VStr (PyFloat.format_fixed 2 (Aircraft.velocity aircraft)) in
  let altitude := VStr (PyFloat.format_fixed 2 (Aircraft.altitude aircraft)) in
  let! longitude := Py.format_f 6 (Aircraft._longitude aircraft) in
  let! latitude := Py.format_f 6 (Aircraft._latitude aircraft) in
  let on_ground := Py.str float_repr (Aircraft._on_ground aircraft) in
  let! vertical_rate := Py.format_f 2 (Aircraft._vertical_rate aircraft) in
  Ok (<["callsign" := VStr (Aircraft.callsign aircraft)]>
      (<["origin_country" := VStr (Aircraft.origin_country aircraft)]>
       (<["velocity" := velocity]>
        (<["altitude" := altitude]>
         (<["icao24" := Aircraft._icao24 aircraft]>
          (<["longitude" := VStr longitude]>
           (<["latitude" := VStr latitude]>
            (<["on_ground" := VStr on_ground]>
             (<["vertical_rate" := VStr vertical_rate]> ∅))))))))).

(** The text the [csv] writer puts in a cell. *)
Definition csv_text (v : pyval) : string :=
  match v with
  | VNone => ""
  | _ => Py.str float_repr v
  end.

(** [DictWriter.writerow]: the cells of a row under [fieldnames], an
    absent one empty. *)
Definition write_row (fieldnames : gset string) (row : dict) : cells :=
  map_imap (fun key _ => Some (Some (csv_text (Py.get_or row key (VStr "")))))
           (gset_to_gmap tt fieldnames).

(** [DictWriter.writerows]: a row with a key outside [fieldnames] raises
    [ValueError] after the rows before it are written. *)
Fixpoint write_rows (fieldnames : gset string) (rows : list dict)
  : list cells * option exn :=
  match rows with
  | [] => ([], None)
  | row :: rest =>
      if bool_decide (dom row ⊆ fieldnames)
      then let '(w, e) := write_rows fieldnames rest in
           (write_row fieldnames row :: w, e)
      else ([], Some ValueError)
  end.

Definition _save_data (data : list dict) : method bool :=
  fun d =>
    if writable d then
      match data with
      | [] => (Ok true, {| file_of := Parsed []; writable := true |})
      | first :: _ =>
          let '(w, e) := write_rows (dom first) data in
          (match e with
           | None => Ok true
           | Some ex => Raise ex
           end,
           {| file_of := Parsed w; writable := true |})
      end
    else (Ok false, d).

Definition add_aircraft (aircraft : Aircraft.t) : method bool :=
  fun d =>
    match _load_data d with
    | Raise e => (Raise e, d)
    | Ok data =>
        match _aircraft_to_row aircraft with
        | Raise e => (Raise e, d)
        | Ok new_row =>
            match find_existing (Aircraft.callsign aircraft) data 0 with
            | Some i => _save_data (<[i := new_row]> data) d
            | None => _save_data (data ++ [new_row]) d
            end
        end
    end.

(** The loop of [add_multiple_aircraft]. *)
Fixpoint add_each (aircraft_list : list Aircraft.t) (data : list dict)
    (existing_dict : index) (added_count : nat)
  : result (list dict * nat) :=
  match aircraft_list with
  | [] => Ok (data, added_count)
  | aircraft :: rest =>
      let! new_row := _aircraft_to_row aircraft in
      let key := VStr (Aircraft.callsign aircraft) in
      match index_get key existing_dict with
      | Some i =>
          let! data' := set_row data i new_row in
          add_each rest data' existing_dict (added_count + 1)
      | None =>
          let data' := (data ++ [new_row])%list in
          add_each rest data'
            (index_set key (List.length data' - 1) existing_dict)
            (added_count + 1)
      end
  end.

Definition add_multiple_aircraft (aircraft_list : list Aircraft.t)
  : method nat :=
  fun d =>
    match aircraft_list with
    | [] => (Ok 0%nat, d)
    | _ =>
        match _load_data d with
        | Raise e => (Raise e, d)
        | Ok data =>
            match (let! existing_dict := index_rows data 0 [] in
                   add_each aircraft_list data existing_dict 0) with
            | Raise e => (Raise e, d)
            | Ok (data', added_count) =>
                let '(r, d') := _save_data data' d in
                (let! _ := r in Ok added_count, d')
            end
        end
    end.

Definition delete_aircraft (callsign : string) : method bool :=
  fun d =>
    match _load_data d with
    | Raise e => (Raise e, d)
    | Ok data =>
        let new_data :=
          List.filter
            (fun row => Py.ne (Py.get row "callsign") (VStr callsign))
            data in
        if (List.length new_data <? List.length data)%nat
        then let '(r, d') := _save_data new_data d in
             (let! _ := r in Ok true, d')
        else (Ok false, d)
    end.

Definition clear : method bool := _save_data [].

End Writing.

End CSVStorage.

(** ** [src/api/aircraft_api.py] *)

Module AircraftAPI.

(** A state vector of the service is a list of values; the code reads
    its length and ten of its entries. *)
Definition state_item (state : list pyval) (i : nat) : pyval :=
  nth i state VNone.

(** [x if x is not None else 0.0] *)
Definition or_zero (x : pyval) : pyval :=
  match x with
  | VNone => VFloat PyFloat.pos_zero
  | _ => x
  end.

(** [x if x else "Unknown"] *)
Definition or_unknown (x : pyval) : pyval :=
  if Py.truthy x then x else VStr "Unknown".

(** [x.strip() if x else "Unknown"] *)
Definition strip_or_unknown (x : pyval) : result pyval :=
  if Py.truthy x then
    match x with
    | VStr s => Ok (VStr (PyStr.strip s))
    | _ => Raise AttributeError
    end
  else Ok (VStr "Unknown").

(** The body of the loop: the dictionary made of a state. *)
Definition process_state (state : list pyval) : result dict :=
  let! callsign := strip_or_unknown (state_item state 1) in
  Ok (<["icao24" := state_item state 0]>
      (<["callsign" := callsign]>
       (<["origin_country" := or_unknown (state_item state 2)]>
        (<["longitude" := state_item state 5]>
         (<["latitude" := state_item state 6]>
          (<["altitude" := or_zero (state_item state 7)]>
           (<["on_ground" := state_item state 8]>
            (<["velocity" := or_zero (state_item state 9)]>
             (<["true_track" := state_item state 10]>
              (<["vertical_rate" := or_zero (state_item state 11)]>
               (<["geo_altitude" := or_zero (state_item state 13)]>
                ∅))))))))))).

Fixpoint process_aircraft_data (raw_data : list (list pyval))
  : result (list dict) :=
  match raw_data with
  | [] => Ok []
  | state :: rest =>
      if (14 <=? List.length state)%nat then
        let! aircraft := process_state state in
        let! processed := process_aircraft_data rest in
        Ok (aircraft :: processed)
      else process_aircraft_data rest
  end.

End AircraftAPI.

(** ** [src/interfaces/cli.py] *)

Module cli.

Definition get_top_by_altitude (aircraft_list : list Aircraft.t) (n : Z)
  : list Aircraft.t :=
  let sorted_aircraft := Py.sorted Aircraft.altitude true aircraft_list in
  Py.slice_to n sorted_aircraft.

(** The inner loop of [filter_by_country], left at the first country
    that matches. *)
Fixpoint scan_countries (aircraft : Aircraft.t) (countries : list string)
    (filtered : list Aircraft.t) : list Aircraft.t :=
  match countries with
  | [] => filtered
  | country :: rest =>
      if PyStr.contains (PyStr.lower country)
           (PyStr.lower (Aircraft.origin_country aircraft))
      then (filtered ++ [aircraft])%list
      else scan_countries aircraft rest filtered
  end.

Definition filter_by_country (aircraft_list : list Aircraft.t)
    (countries : list string) : list Aircraft.t :=
  fold_left (fun filtered aircraft => scan_countries aircraft countries filtered)
    aircraft_list [].

Definition filter_by_altitude_range (aircraft_list : list Aircraft.t)
    (min_alt max_alt : PyFloat.float) : list Aircraft.t :=
  List.filter
    (fun a => PyFloat.leb min_alt (Aircraft.altitude a)
              && PyFloat.leb (Aircraft.altitude a) max_alt)
    aircraft_list.

Definition sort_by_velocity (aircraft_list : list Aircraft.t) (reverse : bool)
  : list Aircraft.t :=
  Py.sorted Aircraft.velocity reverse aircraft_list.

End cli.

(** * Notions used in the statements *)

(** The float a decimal literal denotes. *)
Definition flt (s : string) : PyFloat.float :=
  default S754_nan (PyFloat.of_string s).

(** A value [float] refuses with [TypeError] or [ValueError]: [None], or
    a string that is not the text of a number. *)
Definition non_numeric (v : pyval) : Prop :=
  match v with
  | VNone => True
  | VStr s => PyFloat.of_string s = None
  | _ => False
  end.

(** A float whose text with [nd] decimals reads back as the same float. *)
Definition reads_back (nd : nat) (v : pyval) : Prop :=
  exists x,
    v = VFloat x /\ PyFloat.of_string (PyFloat.format_fixed nd x) = Some x.

(** The float read back from the text of [x] with [nd] decimals. *)
Definition reread (nd : nat) (x : PyFloat.float) : PyFloat.float :=
  default S754_nan (PyFloat.of_string (PyFloat.format_fixed nd x)).

(** A record the CSV formats do not change: its five numbers read back
    from their fixed-point texts and [on_ground] is a [bool]. *)
Definition text_stable (r : Aircraft.t) : Prop :=
  reads_back 2 (VFloat (Aircraft.velocity r))
  /\ reads_back 2 (VFloat (Aircraft.altitude r))
  /\ reads_back 6 (Aircraft._longitude r)
  /\ reads_back 6 (Aircraft._latitude r)
  /\ reads_back 2 (Aircraft._vertical_rate r)
  /\ exists b, Aircraft._on_ground r = VBool b.

(** The keyword arguments of the fixtures of the test suite. *)
Definition kwargs_of (icao24 longitude latitude on_ground vertical_rate : pyval)
  : dict :=
  <["icao24" := icao24]>
  (<["longitude" := longitude]>
   (<["latitude" := latitude]>
    (<["on_ground" := on_ground]>
     (<["vertical_rate" := vertical_rate]> ∅)))).

(** [Aircraft("AFL101", "Russia", 280.5, 11000.0, icao24="abc123",
    longitude=37.5, latitude=55.75, on_ground=False, vertical_rate=10.5)] *)
Definition AFL101 : Aircraft.t :=
  {| Aircraft._callsign := "AFL101";
     Aircraft._origin_country := "Russia";
     Aircraft._velocity := flt "280.5";
     Aircraft._altitude := flt "11000.0";
     Aircraft._icao24 := VStr "abc123";
     Aircraft._longitude := VFloat (flt "37.5");
     Aircraft._latitude := VFloat (flt "55.75");
     Aircraft._on_ground := VBool false;
     Aircraft._vertical_rate := VFloat (flt "10.5") |}.

(** The same aircraft flying at 0.0625 m/s. *)
Definition AFL101_slow : Aircraft.t :=
  {| Aircraft._callsign := "AFL101";
     Aircraft._origin_country := "Russia";
     Aircraft._velocity := flt "0.0625";
     Aircraft._altitude := flt "11000.0";
     Aircraft._icao24 := VStr "abc123";
     Aircraft._longitude := VFloat (flt "37.5");
     Aircraft._latitude := VFloat (flt "55.75");
     Aircraft._on_ground := VBool false;
     Aircraft._vertical_rate := VFloat (flt "10.5") |}.

(** A stand-in for [repr] on floats where no float is printed. *)
Definition no_repr (x : PyFloat.float) : string := "".

(** The record whose callsign cell is [c]. *)
Definition callsign_is (c : string) (item : dict) : bool :=
  Py.eq (Py.get item "callsign") (VStr c).

(** Some stored record has the callsign [c]. *)
Definition present (c : string) (data : list dict) : Prop :=
  exists item, item ∈ data /\ callsign_is c item = true.

(** [i] is the position of the first stored record with callsign [c]. *)
Definition first_match (c : string) (data : list dict) (i : nat) : Prop :=
  (exists item, data !! i = Some item /\ callsign_is c item = true)
  /\ forall j item,
       (j < i)%nat -> data !! j = Some item -> callsign_is c item = false.

(** The position of the first stored record with callsign [c]. *)
Fixpoint position (c : string) (data : list dict) : option nat :=
  match data with
  | [] => None
  | item :: rest =>
      if callsign_is c item then Some 0%nat else S <$> position c rest
  end.

(** Upsert, the insert-or-update keyed by callsign: the first record
    with callsign [c] becomes [f] of itself, and when there is none
    [new] is added at the end. *)
Fixpoint upsert_with (f : dict -> dict) (c : string) (new : dict)
    (data : list dict) : list dict :=
  match data with
  | [] => [new]
  | item :: rest =>
      if callsign_is c item then f item :: rest
      else item :: upsert_with f c new rest
  end.

(** The upsert of a record into the JSON data. *)
Definition json_upsert (data : list dict) (aircraft : Aircraft.t)
  : list dict :=
  upsert_with (union (Aircraft.to_dict aircraft)) (Aircraft.callsign aircraft)
    (Aircraft.to_dict aircraft) data.

(** The upsert of a row into the CSV data. *)
Definition csv_upsert (c : string) (new_row : dict) (data : list dict)
  : list dict :=
  upsert_with (fun _ => new_row) c new_row data.

(** The stored records without those of callsign [c]. *)
Definition without (c : string) (data : list dict) : list dict :=
  List.filter (fun item => negb (callsign_is c item)) data.

(** The callsign cells of the stored records, in order. *)
Definition callsigns (data : list dict) : list pyval :=
  (fun item => Py.get item "callsign") <$> data.

(** Callsign is a key: no two stored records have the same one. *)
Definition unique_callsigns (data : list dict) : Prop :=
  NoDup (callsigns data).

(** The nine columns. *)
Definition header_set : gset string := list_to_set CSVStorage.header.

(** A row of a CSV file in the layout of the store: a cell, possibly
    empty, under each of the nine names and nothing else. *)
Definition stored_cells (r : CSVStorage.cells) : Prop :=
  dom r = header_set /\ map_Forall (fun _ c => is_Some c) r.

(** A CSV file in the layout of the store. *)
Definition csv_layout (d : CSVStorage.disk) (rows : list CSVStorage.cells)
  : Prop :=
  CSVStorage.file_of d = CSVStorage.Parsed rows /\ Forall stored_cells rows.

(** A JSON file in the layout of the store. *)
Definition json_layout (d : JSONStorage.disk) (data : list dict) : Prop :=
  JSONStorage.file_of d = JSONStorage.Parsed data.

(** The row read back from the file after [row] was written to it:
    every value as the text of its cell. *)
Definition as_text (float_repr : PyFloat.float -> string) (row : dict)
  : dict :=
  (fun v => VStr (CSVStorage.csv_text float_repr v)) <$> row.

(** A row in the layout of the store, as the store reads it. *)
Definition loaded (row : dict) : Prop :=
  dom row = header_set
  /\ map_Forall (fun _ v => exists s, v = VStr s) row
  /\ CSVStorage.any_value row = true.

(** A row that can be written and is then read back. *)
Definition writable_row (float_repr : PyFloat.float -> string) (row : dict)
  : Prop :=
  dom row = header_set
  /\ CSVStorage.any_value (as_text float_repr row) = true.

(** A row made of nine texts. *)
Definition cells_of
    (callsign origin_country velocity altitude icao24 longitude latitude
       on_ground vertical_rate : string) : CSVStorage.cells :=
  <["callsign" := Some callsign]>
  (<["origin_country" := Some origin_country]>
   (<["velocity" := Some velocity]>
    (<["altitude" := Some altitude]>
     (<["icao24" := Some icao24]>
      (<["longitude" := Some longitude]>
       (<["latitude" := Some latitude]>
        (<["on_ground" := Some on_ground]>
         (<["vertical_rate" := Some vertical_rate]> ∅)))))))).

(** A CSV file whose only row has the text "abc" for the velocity. *)
Definition csv_with_bad_velocity : CSVStorage.disk :=
  {| CSVStorage.file_of :=
       CSVStorage.Parsed
         [cells_of "AFL101" "Russia" "abc" "11000.00" "abc123" "37.500000"
            "55.750000" "False" "10.50"];
     CSVStorage.writable := true |}.

(** A JSON file with one record, [AFL101] at 0.0625 m/s. *)
Definition json_one_record : JSONStorage.disk :=
  {| JSONStorage.file_of := JSONStorage.Parsed [Aircraft.to_dict AFL101_slow];
     JSONStorage.writable := true |}.

(** A CSV file with one row, for the same aircraft. *)
Definition one_row : list CSVStorage.cells :=
  [cells_of "AFL101" "Russia" "0.06" "11000.00" "abc123" "37.500000"
     "55.750000" "False" "10.50"].

Definition csv_one_row : CSVStorage.disk :=
  {| CSVStorage.file_of := CSVStorage.Parsed one_row;
     CSVStorage.writable := true |}.

(** The files of stores just created. *)
Definition json_empty : JSONStorage.disk :=
  {| JSONStorage.file_of := JSONStorage.Parsed [];
     JSONStorage.writable := true |}.

Definition csv_empty : CSVStorage.disk :=
  {| CSVStorage.file_of := CSVStorage.Parsed [];
     CSVStorage.writable := true |}.

(** A JSON file in which two records have the callsign "AFL101". *)
Definition json_twice : JSONStorage.disk :=
  {| JSONStorage.file_of :=
       JSONStorage.Parsed [Aircraft.to_dict AFL101_slow; Aircraft.to_dict AFL101];
     JSONStorage.writable := true |}.

(** [existing_dict] maps each callsign to the position of its row. *)
Definition index_ok (ix : CSVStorage.index) (data : list dict) : Prop :=
  forall c, CSVStorage.index_get (VStr c) ix = position c data.

(** The positions in [existing_dict] are positions of [data]. *)
Definition index_bounded (ix : CSVStorage.index) (n : nat) : Prop :=
  Forall (fun e => (snd e < n)%nat) ix.

(** A row whose callsign cell is a text. *)
Definition keyed (row : dict) : Prop :=
  exists c, Py.get row "callsign" = VStr c.

(** The operations of the store that write. *)
Inductive op : Type :=
| OpAdd (aircraft : Aircraft.t)
| OpAddMany (aircraft_list : list Aircraft.t)
| OpDelete (callsign : string)
| OpClear.

(** An operation run on the file of a JSON store. *)
Definition json_apply (o : op) (d : JSONStorage.disk) : JSONStorage.disk :=
  match o with
  | OpAdd aircraft => snd (JSONStorage.add_aircraft aircraft d)
  | OpAddMany aircraft_list =>
      snd (JSONStorage.add_multiple_aircraft aircraft_list d)
  | OpDelete callsign => snd (JSONStorage.delete_aircraft callsign d)
  | OpClear => snd (JSONStorage.clear d)
  end.

(** A step of a session: an operation, and whether the file can be
    written when it runs. *)
Definition json_step (d : JSONStorage.disk) (s : op * bool)
  : JSONStorage.disk :=
  json_apply (fst s)
    {| JSONStorage.file_of := JSONStorage.file_of d;
       JSONStorage.writable := snd s |}.

Definition json_run (steps : list (op * bool)) (d : JSONStorage.disk)
  : JSONStorage.disk :=
  fold_left json_step steps d.

Definition csv_apply (float_repr : PyFloat.float -> string) (o : op)
    (d : CSVStorage.disk) : CSVStorage.disk :=
  match o with
  | OpAdd aircraft => snd (CSVStorage.add_aircraft float_repr aircraft d)
  | OpAddMany aircraft_list =>
      snd (CSVStorage.add_multiple_aircraft float_repr aircraft_list d)
  | OpDelete callsign =>
      snd (CSVStorage.delete_aircraft float_repr callsign d)
  | OpClear => snd (CSVStorage.clear float_repr d)
  end.

Definition csv_step (float_repr : PyFloat.float -> string)
    (d : CSVStorage.disk) (s : op * bool) : CSVStorage.disk :=
  csv_apply float_repr (fst s)
    {| CSVStorage.file_of := CSVStorage.file_of d;
       CSVStorage.writable := snd s |}.

Definition csv_run (float_repr : PyFloat.float -> string)
    (steps : list (op * bool)) (d : CSVStorage.disk) : CSVStorage.disk :=
  fold_left (csv_step float_repr) steps d.

(** The file of a JSON store holds records with distinct callsigns. *)
Definition json_keyed_store (d : JSONStorage.disk) : Prop :=
  exists data, JSONStorage._load_data d = Ok data /\ unique_callsigns data.

(** The file of a CSV store is in the layout of the store and holds rows
    with distinct callsigns. *)
Definition csv_keyed_store (d : CSVStorage.disk) : Prop :=
  exists rows,
    csv_layout d rows /\ unique_callsigns (CSVStorage.read_rows rows).

(** No file at the path, in a place where one can be created. *)
Definition json_nothing : JSONStorage.disk :=
  {| JSONStorage.file_of := JSONStorage.Absent;
     JSONStorage.writable := true |}.

Definition csv_nothing : CSVStorage.disk :=
  {| CSVStorage.file_of := CSVStorage.Absent;
     CSVStorage.writable := true |}.

(** A record matches the criteria of the JSON store: it has every key
    of the criteria, with an equal value. *)
Definition json_matches (criteria : list (string * pyval)) (item : dict)
  : bool :=
  forallb
    (fun kv => match item !! fst kv with
               | Some v => Py.eq v (snd kv)
               | None => false
               end)
    criteria.

(** What the CSV store compares with the value of a criterion: for a
    number, the float the text of the cell reads as, 0.0 when the cell
    is empty or its text is not that of a number; for [on_ground],
    whether the text is "true" in any case; the cell itself for the
    other keys. *)
Definition csv_compared (key : string) (cell : pyval) : pyval :=
  if bool_decide (key ∈ CSVStorage.numeric_keys) then
    VFloat match cell with
           | VStr s => default PyFloat.pos_zero (PyFloat.of_string s)
           | _ => PyFloat.pos_zero
           end
  else if bool_decide (key = "on_ground") then
    VBool match cell with
          | VStr s => PyStr.eqb (PyStr.lower s) "true"
          | _ => false
          end
  else cell.

(** A row matches the criteria of the CSV store. *)
Definition csv_matches (criteria : list (string * pyval)) (row : dict)
  : bool :=
  forallb
    (fun kv => Py.eq (csv_compared (fst kv) (Py.get row (fst kv))) (snd kv))
    criteria.

(** A row read from a file: its cells are texts or [None]. *)
Definition cells_row (row : dict) : Prop :=
  forall k, Py.get row k = VNone \/ exists s, Py.get row k = VStr s.

(** A file nobody may read. *)
Definition json_denied : JSONStorage.disk :=
  {| JSONStorage.file_of := JSONStorage.Denied;
     JSONStorage.writable := true |}.

(** * Notions used in the further properties *)

(** A float that is a number: neither NaN nor an infinity. *)
Definition is_finite (x : PyFloat.float) : bool :=
  match x with
  | S754_zero _ | S754_finite _ _ _ => true
  | _ => false
  end.

(** The bounds the constructor and the setters put on the two numbers
    of a record: a velocity from 0.0 up, never [-0.0], and an altitude
    from -1000.0 up; neither is NaN. *)
Definition in_bounds (r : Aircraft.t) : Prop :=
  PyFloat.leb PyFloat.pos_zero (Aircraft.velocity r) = true
  /\ PyFloat.signbit (Aircraft.velocity r) = false
  /\ PyFloat.leb (PyFloat.of_Z (-1000)) (Aircraft.altitude r) = true.

(** An [int] too large for a float: [float] raises [OverflowError]. *)
Definition too_big (v : pyval) : Prop :=
  exists z, v = VInt z /\ Py.is_infinite (PyFloat.of_Z z) = true.

(** The number of hyphens in a text. *)
Definition hyphens (s : string) : nat :=
  count_occ ascii_dec (list_ascii_of_string s) "-"%char.

(** No key of the records is NaN. *)
Definition nan_free {A} (key : A -> PyFloat.float) (l : list A) : Prop :=
  Forall (fun a => PyFloat.is_nan (key a) = false) l.

(** The records are in ascending, or descending, order of their keys. *)
Definition ascending {A} (key : A -> PyFloat.float) (l : list A) : Prop :=
  StronglySorted (fun a b => PyFloat.leb (key a) (key b) = true) l.

Definition descending {A} (key : A -> PyFloat.float) (l : list A) : Prop :=
  StronglySorted (fun a b => PyFloat.leb (key b) (key a) = true) l.

(** The records whose key is equal to [k], in their order. *)
Definition with_key {A} (key : A -> PyFloat.float) (k : PyFloat.float)
    (l : list A) : list A :=
  List.filter (fun a => PyFloat.eqb (key a) k) l.

(** The origin country of the record contains one of the countries,
    letter case apart. *)
Definition country_matches (countries : list string) (a : Aircraft.t) : bool :=
  existsb
    (fun country =>
       PyStr.contains (PyStr.lower country)
         (PyStr.lower (Aircraft.origin_country a)))
    countries.

(** A state vector long enough for [process_aircraft_data] to keep. *)
Definition long_state (state : list pyval) : bool :=
  (14 <=? List.length state)%nat.

(** A record the CSV store cannot turn into a row. *)
Definition unformattable (float_repr : PyFloat.float -> string)
    (a : Aircraft.t) : Prop :=
  exists e, CSVStorage._aircraft_to_row float_repr a = Raise e.

(** A state of an aircraft whose callsign is blank and whose position,
    altitude and velocity are unknown, and the record made of it. *)
Definition state_without_position : list pyval :=
  [VStr "abc123"; VStr "   "; VStr "Russia"; VNone; VNone; VNone; VNone;
   VNone; VBool false; VNone; VNone; VNone; VNone; VNone].

Definition record_without_position : Aircraft.t :=
  {| Aircraft._callsign := "Unknown";
     Aircraft._origin_country := "Russia";
     Aircraft._velocity := PyFloat.pos_zero;
     Aircraft._altitude := PyFloat.pos_zero;
     Aircraft._icao24 := VStr "abc123";
     Aircraft._longitude := VNone;
     Aircraft._latitude := VNone;
     Aircraft._on_ground := VBool false;
     Aircraft._vertical_rate := VFloat PyFloat.pos_zero |}.

(** What [process_aircraft_data] makes of that state. *)
Definition processed_without_position : dict :=
  <["icao24" := VStr "abc123"]>
  (<["callsign" := VStr ""]>
   (<["origin_country" := VStr "Russia"]>
    (<["longitude" := VNone]>
     (<["latitude" := VNone]>
      (<["altitude" := VFloat PyFloat.pos_zero]>
       (<["on_ground" := VBool false]>
        (<["velocity" := VFloat PyFloat.pos_zero]>
         (<["true_track" := VNone]>
          (<["vertical_rate" := VFloat PyFloat.pos_zero]>
           (<["geo_altitude" := VFloat PyFloat.pos_zero]> ∅)))))))))).

(** There is no file at the path of the CSV store. *)
Definition csv_absent (d : CSVStorage.disk) : bool :=
  match CSVStorage.file_of d with
  | CSVStorage.Absent => true
  | _ => false
  end.

(** A stored record, or row, of which the store makes a record. *)
Definition json_readable (item : dict) : Prop :=
  exists r, Aircraft.from_dict item = Ok r.

Definition csv_readable (row : dict) : Prop :=
  exists r, CSVStorage._row_to_aircraft row = Ok r.

(** The file of a JSON store holds records that can all be read. *)
Definition json_sound_store (d : JSONStorage.disk) : Prop :=
  exists data, JSONStorage._load_data d = Ok data /\ Forall json_readable data.

(** The file of a CSV store holds rows that can all be read. *)
Definition csv_sound_store (d : CSVStorage.disk) : Prop :=
  exists data, CSVStorage._load_data d = Ok data /\ Forall csv_readable data.

(** The CSV file with one row, where it cannot be written. *)
Definition csv_read_only : CSVStorage.disk :=
  {| CSVStorage.file_of := CSVStorage.Parsed one_row;
     CSVStorage.writable := false |}.

(** A CSV file made elsewhere, without the column of the vertical rate:
    two rows, the second for "AFL101". *)
Definition rows_without_a_column : list CSVStorage.cells :=
  [delete "vertical_rate"
     (cells_of "UAL202" "United States" "250.00" "10000.00" "def456"
        "-74.000000" "40.700000" "False" "");
   delete "vertical_rate"
     (cells_of "AFL101" "Russia" "0.06" "11000.00" "abc123" "37.500000"
        "55.750000" "False" "")].

Definition csv_without_a_column : CSVStorage.disk :=
  {| CSVStorage.file_of := CSVStorage.Parsed rows_without_a_column;
     CSVStorage.writable := true |}.

(** The eight columns of that file. *)
Definition eight_columns : gset string := header_set ∖ {["vertical_rate"]}.

(** A record the CSV store can turn into a row, and that row (the empty
    row where there is none). *)
Definition formattable (float_repr : PyFloat.float -> string)
    (a : Aircraft.t) : Prop :=
  exists row, CSVStorage._aircraft_to_row float_repr a = Ok row.

Definition row_of (float_repr : PyFloat.float -> string) (a : Aircraft.t)
  : dict :=
  match CSVStorage._aircraft_to_row float_repr a with
  | Ok row => row
  | Raise _ => ∅
  end.

(** The JSON file with one record, where it cannot be written. *)
Definition json_read_only : JSONStorage.disk :=
  {| JSONStorage.file_of := JSONStorage.Parsed [Aircraft.to_dict AFL101_slow];
     JSONStorage.writable := false |}.

(** * Properties *)

Open Scope list_scope.

(** ** Strings and floats *)

Section DropWhile.

Context {A : Type} (p : A -> bool).

Lemma dropwhile_b_idem (l : list A) :
  dropwhile_b p (dropwhile_b p l) = dropwhile_b p l.
Proof.
  induction l as [|c l IH]; simpl; [reflexivity|].
  destruct (p c) eqn:Hc; [exact IH|].
  simpl. now rewrite Hc.
Qed.

Lemma dropwhile_b_head (l : list A) c t :
  dropwhile_b p l = c :: t -> p c = false.
Proof.
  induction l as [|x l IH]; simpl; [discriminate|].
  destruct (p x) eqn:Hx; [exact IH|].
  intros [= -> _]. exact Hx.
Qed.

Lemma dropwhile_b_fix (l : list A) c t :
  l = c :: t -> p c = false -> dropwhile_b p l = l.
Proof. intros -> Hc. simpl. now rewrite Hc. Qed.

(** Dropping from the front of a list that ends with a kept element
    leaves a list that still ends with it. *)
Lemma dropwhile_b_snoc (l : list A) c :
  p c = false -> exists u, dropwhile_b p (l ++ [c]) = u ++ [c].
Proof.
  intros Hc. induction l as [|x l [u IH]]; simpl.
  - rewrite Hc. now exists [].
  - destruct (p x).
    + now exists u.
    + now exists (x :: l).
Qed.

End DropWhile.

Lemma strip_list_idem (l : list ascii) :
  PyStr.strip_list (PyStr.strip_list l) = PyStr.strip_list l.
Proof.
  unfold PyStr.strip_list, PyStr.rstrip_list, PyStr.lstrip_list.
  destruct (dropwhile_b PyStr.isspace l) as [|c t] eqn:Hl; [reflexivity|].
  pose proof (dropwhile_b_head _ _ _ _ Hl) as Hc.
  destruct (dropwhile_b_snoc PyStr.isspace (rev t) c Hc) as [u Hu].
  assert (Hd : dropwhile_b PyStr.isspace (u ++ [c]) = u ++ [c]).
  { rewrite <- Hu. apply dropwhile_b_idem. }
  simpl rev. rewrite Hu, rev_app_distr. simpl.
  rewrite Hc. simpl. rewrite rev_involutive, Hd, rev_app_distr.
  reflexivity.
Qed.

Lemma strip_idem (s : string) : PyStr.strip (PyStr.strip s) = PyStr.strip s.
Proof.
  unfold PyStr.strip.
  now rewrite list_ascii_of_string_of_list_ascii, strip_list_idem.
Qed.

Lemma max_idem (a x : PyFloat.float) :
  PyFloat.max a (PyFloat.max a x) = PyFloat.max a x.
Proof.
  unfold PyFloat.max.
  destruct (PyFloat.ltb a x) eqn:Hx.
  - now rewrite Hx.
  - destruct (PyFloat.ltb a a); reflexivity.
Qed.

(** ** The record type *)

Lemma to_dict_lookup (r : Aircraft.t) :
  Aircraft.to_dict r !! "callsign" = Some (VStr (Aircraft.callsign r))
  /\ Aircraft.to_dict r !! "origin_country"
     = Some (VStr (Aircraft.origin_country r))
  /\ Aircraft.to_dict r !! "velocity" = Some (VFloat (Aircraft.velocity r))
  /\ Aircraft.to_dict r !! "altitude" = Some (VFloat (Aircraft.altitude r))
  /\ Aircraft.to_dict r !! "icao24" = Some (Aircraft._icao24 r)
  /\ Aircraft.to_dict r !! "longitude" = Some (Aircraft._longitude r)
  /\ Aircraft.to_dict r !! "latitude" = Some (Aircraft._latitude r)
  /\ Aircraft.to_dict r !! "on_ground" = Some (Aircraft._on_ground r)
  /\ Aircraft.to_dict r !! "vertical_rate" = Some (Aircraft._vertical_rate r).
Proof. repeat split; reflexivity. Qed.

Lemma init_fields cs oc v a kw r :
  Aircraft.__init__ cs oc v a kw = Ok r ->
  Aircraft.callsign r = Aircraft._validate_callsign cs
  /\ Aircraft.origin_country r = Aircraft._validate_country oc
  /\ Aircraft._validate_velocity v = Ok (Aircraft.velocity r)
  /\ Aircraft._validate_altitude a = Ok (Aircraft.altitude r).
Proof.
  unfold Aircraft.__init__, rbind.
  destruct (Aircraft._validate_velocity v) as [x|]; [|discriminate].
  destruct (Aircraft._validate_altitude a) as [y|]; [|discriminate].
  intros [= <-]. repeat split.
Qed.

Lemma strip_Unknown : PyStr.strip "Unknown" = "Unknown".
Proof. reflexivity. Qed.

Lemma truthy_str (s : string) : s <> "" -> Py.truthy (VStr s) = true.
Proof.
  intros Hs. unfold Py.truthy, PyStr.eqb.
  now rewrite bool_decide_eq_false_2.
Qed.

(** A callsign the validator produced, if it is not empty, is one the
    validator leaves as it is. *)
Lemma validate_callsign_fix (value : pyval) :
  Aircraft._validate_callsign value <> "" ->
  Aircraft._validate_callsign (VStr (Aircraft._validate_callsign value))
  = Aircraft._validate_callsign value.
Proof.
  intros Hne.
  unfold Aircraft._validate_callsign at 1.
  rewrite (truthy_str _ Hne). simpl.
  unfold Aircraft._validate_callsign in *.
  destruct (negb (Py.truthy value) || negb (Py.isinstance_str value));
    [apply strip_Unknown|].
  destruct value; simpl; try apply strip_Unknown.
  apply strip_idem.
Qed.

Lemma validate_country_fix (value : pyval) :
  Aircraft._validate_country value <> "" ->
  Aircraft._validate_country (VStr (Aircraft._validate_country value))
  = Aircraft._validate_country value.
Proof. exact (validate_callsign_fix value). Qed.

Lemma validate_velocity_fix (value : pyval) x :
  Aircraft._validate_velocity value = Ok x ->
  Aircraft._validate_velocity (VFloat x) = Ok x.
Proof.
  unfold Aircraft._validate_velocity. simpl.
  destruct (Py.float value) as [val|e].
  - intros [= <-]. now rewrite max_idem.
  - destruct (validators.caught e); [|discriminate].
    intros [= <-]. reflexivity.
Qed.

Lemma validate_altitude_fix (value : pyval) x :
  Aircraft._validate_altitude value = Ok x ->
  Aircraft._validate_altitude (VFloat x) = Ok x.
Proof.
  unfold Aircraft._validate_altitude. simpl.
  destruct (Py.float value) as [val|e].
  - intros [= <-]. now rewrite max_idem.
  - destruct (validators.caught e); [|discriminate].
    intros [= <-]. reflexivity.
Qed.

(** The constructor applied to the two validated strings of a record it
    built gives these strings back. *)
Lemma init_strings cs oc v a kw r v' a' kw' :
  Aircraft.__init__ cs oc v a kw = Ok r ->
  Aircraft.callsign r <> "" ->
  Aircraft.origin_country r <> "" ->
  Aircraft.__init__ (VStr (Aircraft.callsign r))
    (VStr (Aircraft.origin_country r)) (VFloat v') (VFloat a') kw'
  = Ok {| Aircraft._callsign := Aircraft.callsign r;
          Aircraft._origin_country := Aircraft.origin_country r;
          Aircraft._velocity := PyFloat.max PyFloat.pos_zero v';
          Aircraft._altitude := PyFloat.max (PyFloat.of_Z (-1000)) a';
          Aircraft._icao24 := Py.get_or kw' "icao24" (VStr "Unknown");
          Aircraft._longitude :=
            Py.get_or kw' "longitude" (VFloat PyFloat.pos_zero);
          Aircraft._latitude :=
            Py.get_or kw' "latitude" (VFloat PyFloat.pos_zero);
          Aircraft._on_ground := Py.get_or kw' "on_ground" (VBool true);
          Aircraft._vertical_rate :=
            Py.get_or kw' "vertical_rate" (VFloat PyFloat.pos_zero) |}.
Proof.
  intros Hr Hc Ho.
  destruct (init_fields _ _ _ _ _ _ Hr) as (Ecs & Eoc & _ & _).
  unfold Aircraft.__init__. cbn [Aircraft._validate_velocity
    Aircraft._validate_altitude Py.float rbind].
  rewrite Ecs in Hc |- *. rewrite Eoc in Ho |- *.
  now rewrite (validate_callsign_fix _ Hc), (validate_country_fix _ Ho).
Qed.

(** The two validated numbers of a record the constructor built are
    numbers the validators leave as they are. *)
Lemma init_numbers cs oc v a kw r :
  Aircraft.__init__ cs oc v a kw = Ok r ->
  PyFloat.max PyFloat.pos_zero (Aircraft.velocity r) = Aircraft.velocity r
  /\ PyFloat.max (PyFloat.of_Z (-1000)) (Aircraft.altitude r)
     = Aircraft.altitude r.
Proof.
  intros Hr. destruct (init_fields _ _ _ _ _ _ Hr) as (_ & _ & Ev & Ea).
  apply validate_velocity_fix in Ev. apply validate_altitude_fix in Ea.
  unfold Aircraft._validate_velocity in Ev.
  unfold Aircraft._validate_altitude in Ea.
  cbn [Py.float] in Ev, Ea.
  injection Ev as Ev. injection Ea as Ea. now split.
Qed.

(** ** Rows of the CSV file *)

Lemma any_value_lookup (row : dict) k v :
  row !! k = Some v -> Py.truthy v = true -> CSVStorage.any_value row = true.
Proof.
  intros Hk Hv. unfold CSVStorage.any_value.
  apply existsb_exists. exists v. split; [|exact Hv].
  apply list_elem_of_In, list_elem_of_fmap. exists (k, v). split; [reflexivity|].
  now apply elem_of_map_to_list.
Qed.

Lemma read_rows_loaded (rows : list CSVStorage.cells) :
  Forall stored_cells rows -> Forall loaded (CSVStorage.read_rows rows).
Proof.
  induction 1 as [|r rows [Hd Hc] _ IH]; simpl; [constructor|].
  destruct (CSVStorage.any_value (CSVStorage.cell_value <$> r)) eqn:Ha;
    [|exact IH].
  constructor; [|exact IH].
  split; [now rewrite dom_fmap_L|]. split; [|exact Ha].
  intros k v Hk. rewrite lookup_fmap in Hk.
  destruct (r !! k) as [c|] eqn:Hr; [|discriminate].
  destruct (Hc k c Hr) as [s ->]. injection Hk as <-. now exists s.
Qed.

Section Writing.

Variable float_repr : PyFloat.float -> string.

Lemma as_text_loaded (row : dict) :
  map_Forall (fun _ v => exists s, v = VStr s) row ->
  as_text float_repr row = row.
Proof.
  intros Hrow. apply map_eq. intros k. unfold as_text.
  rewrite lookup_fmap. destruct (row !! k) as [v|] eqn:Hk; [|reflexivity].
  destruct (Hrow k v Hk) as [s ->]. reflexivity.
Qed.

(** What the reader makes of a written row. *)
Lemma read_written_row (row : dict) :
  dom row = header_set ->
  CSVStorage.cell_value <$> CSVStorage.write_row float_repr header_set row
  = as_text float_repr row.
Proof.
  intros Hd. apply map_eq. intros k.
  unfold CSVStorage.write_row, as_text.
  rewrite !lookup_fmap, map_lookup_imap, lookup_gset_to_gmap.
  destruct (decide (k ∈ header_set)) as [Hin|Hout].
  - rewrite option_guard_True by exact Hin. simpl.
    rewrite <- Hd in Hin. apply elem_of_dom in Hin as [v Hv].
    unfold Py.get_or. now rewrite Hv.
  - rewrite option_guard_False by exact Hout. simpl.
    rewrite <- Hd in Hout. apply not_elem_of_dom in Hout.
    now rewrite Hout.
Qed.

Lemma loaded_writable (row : dict) : loaded row -> writable_row float_repr row.
Proof.
  intros (Hd & Ht & Ha). split; [exact Hd|].
  now rewrite (as_text_loaded _ Ht).
Qed.

Lemma write_rows_ok (data : list dict) :
  Forall (writable_row float_repr) data ->
  CSVStorage.write_rows float_repr header_set data
  = (CSVStorage.write_row float_repr header_set <$> data, None).
Proof.
  induction 1 as [|row data [Hd _] _ IH]; [reflexivity|].
  rewrite fmap_cons. cbn [CSVStorage.write_rows].
  rewrite bool_decide_eq_true_2 by (now rewrite Hd).
  now rewrite IH.
Qed.

Lemma read_written_rows (data : list dict) :
  Forall (writable_row float_repr) data ->
  CSVStorage.read_rows (CSVStorage.write_row float_repr header_set <$> data)
  = as_text float_repr <$> data.
Proof.
  induction 1 as [|row data [Hd Ha] _ IH]; [reflexivity|].
  rewrite !fmap_cons. cbn [CSVStorage.read_rows].
  rewrite (read_written_row _ Hd), Ha. now rewrite IH.
Qed.

(** Saving rows in the layout of the store succeeds on a writable file,
    and the rows are read back as their texts. *)
Lemma save_then_load (data : list dict) (d : CSVStorage.disk) :
  Forall (writable_row float_repr) data ->
  CSVStorage.writable d = true ->
  exists d',
    CSVStorage._save_data float_repr data d = (Ok true, d')
    /\ csv_layout d' (CSVStorage.write_row float_repr header_set <$> data)
    /\ CSVStorage.writable d' = true
    /\ CSVStorage._load_data d' = Ok (as_text float_repr <$> data).
Proof.
  intros Hdata Hw. unfold CSVStorage._save_data. rewrite Hw.
  destruct data as [|first rest].
  - eexists. split; [reflexivity|]. repeat split. constructor.
  - assert (Hf : dom first = header_set)
      by (inversion Hdata as [|? ? [Hf _]]; exact Hf).
    rewrite Hf, (write_rows_ok _ Hdata).
    eexists. split; [reflexivity|].
    split; [|split; [reflexivity|]].
    + split; [reflexivity|].
      apply Forall_fmap. eapply Forall_impl; [exact Hdata|].
      intros row [Hd _]. split.
      * unfold CSVStorage.write_row.
        apply set_eq. intros k.
        rewrite elem_of_dom, map_lookup_imap, lookup_gset_to_gmap.
        destruct (decide (k ∈ header_set)) as [Hin|Hout].
        -- rewrite option_guard_True by exact Hin. simpl.
           split; [intros _; exact Hin|intros _; eexists; reflexivity].
        -- rewrite option_guard_False by exact Hout. simpl.
           split; [intros [? [=]]|intros Hin; contradiction].
      * intros k c. unfold CSVStorage.write_row.
        rewrite map_lookup_imap, lookup_gset_to_gmap.
        destruct (decide (k ∈ header_set)) as [Hin|Hout].
        -- rewrite option_guard_True by exact Hin. simpl.
           intros [= <-]. eexists; reflexivity.
        -- rewrite option_guard_False by exact Hout. simpl. discriminate.
    + unfold CSVStorage._load_data. cbn [CSVStorage.file_of]. f_equal.
      exact (read_written_rows (first :: rest) Hdata).
Qed.

End Writing.

(** ** Lists of records keyed by callsign *)

Lemma str_eq_iff (v : pyval) (c : string) :
  Py.eq v (VStr c) = true <-> v = VStr c.
Proof.
  destruct v; simpl; try (split; [discriminate|discriminate]).
  unfold PyStr.eqb. rewrite bool_decide_eq_true.
  split; [now intros ->|now intros [= ->]].
Qed.

Lemma callsign_is_iff c item :
  callsign_is c item = true <-> Py.get item "callsign" = VStr c.
Proof. apply str_eq_iff. Qed.

Lemma callsign_is_key c item item' :
  Py.get item "callsign" = Py.get item' "callsign" ->
  callsign_is c item = callsign_is c item'.
Proof. unfold callsign_is. now intros ->. Qed.

Lemma position_Some c data i :
  position c data = Some i <-> first_match c data i.
Proof.
  revert i. induction data as [|item rest IH]; intros i; simpl.
  - split; [discriminate|]. intros [(x & Hx & _) _]. discriminate.
  - destruct (callsign_is c item) eqn:Hc.
    + split.
      * intros [= <-]. split; [now exists item|]. intros j y Hj. lia.
      * intros [(x & Hx & Hcx) Hbefore]. destruct i as [|i]; [reflexivity|].
        specialize (Hbefore 0%nat item ltac:(lia) eq_refl). congruence.
    + split.
      * destruct (position c rest) as [k|]; [|discriminate].
        intros [= <-].
        destruct (proj1 (IH k) eq_refl) as [(x & Hx & Hcx) Hbefore].
        split; [now exists x|]. intros [|j] y Hj Hy.
        -- now injection Hy as <-.
        -- apply (Hbefore j y); [lia|exact Hy].
      * intros [(x & Hx & Hcx) Hbefore]. destruct i as [|i].
        -- injection Hx as <-. congruence.
        -- assert (Hp : position c rest = Some i).
           { apply IH. split; [now exists x|]. intros j y Hj Hy.
             apply (Hbefore (S j) y); [lia|exact Hy]. }
           now rewrite Hp.
Qed.

Lemma position_None c data :
  position c data = None <-> ~ present c data.
Proof.
  induction data as [|item rest IH]; simpl.
  - split; [|reflexivity]. intros _ (x & Hx & _). now apply elem_of_nil in Hx.
  - destruct (callsign_is c item) eqn:Hc.
    + split; [discriminate|]. intros H. exfalso. apply H.
      exists item. split; [left|exact Hc].
    + destruct (position c rest) as [k|]; simpl.
      * split; [discriminate|]. intros H. exfalso.
        assert (Hr : ~ present c rest).
        { intros (x & Hx & Hcx). apply H. exists x. split; [now right|exact Hcx]. }
        apply IH in Hr. discriminate.
      * split; [|reflexivity]. intros _ (x & Hx & Hcx).
        apply elem_of_cons in Hx as [->|Hx]; [congruence|].
        destruct IH as [IH _]. apply (IH eq_refl). now exists x.
Qed.

Lemma present_position c data :
  present c data -> exists i, position c data = Some i.
Proof.
  intros H. destruct (position c data) as [i|] eqn:Hp; [now exists i|].
  apply position_None in Hp. contradiction.
Qed.

Lemma position_lt c data i :
  position c data = Some i -> (i < List.length data)%nat.
Proof.
  intros H. apply position_Some in H as [(x & Hx & _) _].
  now apply lookup_lt_Some in Hx.
Qed.

Section Upsert.

Variables (f : dict -> dict) (c : string) (new : dict).

Lemma upsert_present data i :
  position c data = Some i ->
  exists existing,
    data !! i = Some existing
    /\ upsert_with f c new data = <[i := f existing]> data.
Proof.
  revert i. induction data as [|item rest IH]; intros i; simpl; [discriminate|].
  destruct (callsign_is c item).
  - intros [= <-]. now exists item.
  - destruct (position c rest) as [k|]; [|discriminate].
    intros [= <-]. destruct (IH k eq_refl) as (e & He & Hu).
    exists e. split; [exact He|]. simpl. now rewrite Hu.
Qed.

Lemma upsert_absent data :
  position c data = None -> upsert_with f c new data = data ++ [new].
Proof.
  induction data as [|item rest IH]; simpl; [reflexivity|].
  destruct (callsign_is c item); [discriminate|].
  destruct (position c rest); [discriminate|].
  intros _. now rewrite IH.
Qed.

Lemma upsert_length data :
  List.length (upsert_with f c new data)
  = match position c data with
    | Some _ => List.length data
    | None => S (List.length data)
    end.
Proof.
  destruct (position c data) as [i|] eqn:Hp.
  - destruct (upsert_present _ _ Hp) as (e & _ & ->). apply length_insert.
  - rewrite (upsert_absent _ Hp), length_app. simpl. lia.
Qed.

Hypothesis f_key : forall item,
  callsign_is c item = true -> Py.get (f item) "callsign" = VStr c.
Hypothesis new_key : Py.get new "callsign" = VStr c.

Lemma upsert_callsigns data :
  callsigns (upsert_with f c new data)
  = match position c data with
    | Some _ => callsigns data
    | None => callsigns data ++ [VStr c]
    end.
Proof.
  unfold callsigns.
  induction data as [|item rest IH]; [simpl; now rewrite new_key|].
  cbn [upsert_with position].
  destruct (callsign_is c item) eqn:Hc.
  - rewrite !fmap_cons, (f_key _ Hc).
    apply callsign_is_iff in Hc. now rewrite Hc.
  - rewrite !fmap_cons, IH. now destruct (position c rest).
Qed.

Lemma upsert_unique data :
  unique_callsigns data -> unique_callsigns (upsert_with f c new data).
Proof.
  unfold unique_callsigns. intros Hnd. rewrite upsert_callsigns.
  destruct (position c data) eqn:Hp; [exact Hnd|].
  apply NoDup_app. split; [exact Hnd|]. split; [|apply NoDup_singleton].
  intros k Hk Hk'. apply list_elem_of_singleton in Hk' as ->.
  apply position_None in Hp. apply Hp.
  unfold callsigns in Hk. apply list_elem_of_fmap in Hk as (item & Hi & Hin).
  exists item. split; [exact Hin|]. now apply callsign_is_iff.
Qed.

(** After an upsert the record of that callsign is where a second
    upsert looks for it. *)
Lemma upsert_position data :
  position c (upsert_with f c new data)
  = Some (default (List.length data) (position c data)).
Proof.
  induction data as [|item rest IH]; simpl.
  - unfold callsign_is. rewrite new_key. simpl.
    unfold PyStr.eqb. now rewrite bool_decide_eq_true_2.
  - destruct (callsign_is c item) eqn:Hc; simpl.
    + assert (H : callsign_is c (f item) = true)
        by (apply callsign_is_iff, f_key, Hc).
      now rewrite H.
    + rewrite Hc, IH. now destruct (position c rest).
Qed.

(** A second upsert of the same record changes nothing. *)
Lemma upsert_idem data :
  (forall item, f (f item) = f item) -> f new = new ->
  upsert_with f c new (upsert_with f c new data) = upsert_with f c new data.
Proof.
  intros Hff Hfn.
  assert (Hnew : callsign_is c new = true) by (apply callsign_is_iff, new_key).
  induction data as [|item rest IH]; cbn [upsert_with].
  - now rewrite Hnew, Hfn.
  - destruct (callsign_is c item) eqn:Hc; cbn [upsert_with].
    + assert (H : callsign_is c (f item) = true)
        by (apply callsign_is_iff, f_key, Hc).
      now rewrite H, Hff.
    + now rewrite Hc, IH.
Qed.

End Upsert.

(** ** The loops of the JSON store *)

Lemma update_existing_upsert c ad data :
  JSONStorage.update_existing c ad data
  = match position c data with
    | Some _ => Some (upsert_with (union ad) c ad data)
    | None => None
    end.
Proof.
  induction data as [|item rest IH]; simpl; [reflexivity|].
  fold (callsign_is c item). destruct (callsign_is c item); [reflexivity|].
  rewrite IH. now destruct (position c rest).
Qed.

Lemma json_scan_upsert aircraft data :
  match JSONStorage.update_existing (Aircraft.callsign aircraft)
          (Aircraft.to_dict aircraft) data with
  | Some data' => data'
  | None => data ++ [Aircraft.to_dict aircraft]
  end = json_upsert data aircraft.
Proof.
  rewrite update_existing_upsert. unfold json_upsert.
  destruct (position (Aircraft.callsign aircraft) data) eqn:Hp;
    [reflexivity|].
  symmetry. now apply upsert_absent.
Qed.

Lemma json_add_each l data n :
  JSONStorage.add_each l data n
  = (fold_left json_upsert l data, (n + List.length l)%nat).
Proof.
  revert data n. induction l as [|a l IH]; intros data n; simpl.
  - f_equal. lia.
  - rewrite <- json_scan_upsert.
    destruct (JSONStorage.update_existing _ _ data);
      rewrite IH; f_equal; lia.
Qed.

Lemma json_add_aircraft aircraft d :
  JSONStorage.add_aircraft aircraft d
  = match JSONStorage._load_data d with
    | Raise e => (Raise e, d)
    | Ok data =>
        let '(ok, d') := JSONStorage._save_data (json_upsert data aircraft) d in
        (Ok ok, d')
    end.
Proof.
  unfold JSONStorage.add_aircraft.
  destruct (JSONStorage._load_data d) as [data|e]; [|reflexivity].
  rewrite <- json_scan_upsert.
  now destruct (JSONStorage.update_existing _ _ data).
Qed.

Lemma to_dict_key (r : Aircraft.t) :
  Py.get (Aircraft.to_dict r) "callsign" = VStr (Aircraft.callsign r).
Proof. reflexivity. Qed.

Lemma union_to_dict_key (r : Aircraft.t) (existing : dict) :
  Py.get (Aircraft.to_dict r ∪ existing) "callsign"
  = VStr (Aircraft.callsign r).
Proof.
  unfold Py.get.
  now rewrite (lookup_union_Some_l _ _ _ (VStr (Aircraft.callsign r))).
Qed.

Lemma json_upsert_unique data aircraft :
  unique_callsigns data -> unique_callsigns (json_upsert data aircraft).
Proof.
  apply upsert_unique.
  - intros item _. apply union_to_dict_key.
  - apply to_dict_key.
Qed.

Lemma json_upsert_idem data aircraft :
  json_upsert (json_upsert data aircraft) aircraft = json_upsert data aircraft.
Proof.
  apply upsert_idem.
  - intros item _. apply union_to_dict_key.
  - apply to_dict_key.
  - intros item. now rewrite (assoc_L (∪)), (idemp_L (∪)).
  - apply (idemp_L (∪)).
Qed.

(** ** The loops of the CSV store *)

Lemma find_existing_position c data k :
  CSVStorage.find_existing c data k = (fun i => (k + i)%nat) <$> position c data.
Proof.
  revert k. induction data as [|item rest IH]; intros k; simpl; [reflexivity|].
  fold (callsign_is c item). destruct (callsign_is c item); simpl.
  - f_equal. lia.
  - rewrite IH. destruct (position c rest); simpl; [f_equal; lia|reflexivity].
Qed.

Lemma csv_scan_upsert c new_row data :
  match CSVStorage.find_existing c data 0 with
  | Some i => <[i := new_row]> data
  | None => data ++ [new_row]
  end = csv_upsert c new_row data.
Proof.
  rewrite find_existing_position. unfold csv_upsert.
  destruct (position c data) as [i|] eqn:Hp; simpl.
  - destruct (upsert_present (fun _ => new_row) c new_row _ _ Hp)
      as (e & _ & ->). reflexivity.
  - symmetry. now apply upsert_absent.
Qed.

Lemma digits_of_N_nonempty (n : N) : PyFloat.digits_of_N n <> "".
Proof.
  unfold PyFloat.digits_of_N, NilZero.string_of_uint.
  destruct (N.to_uint n); simpl; discriminate.
Qed.

Lemma append_nonempty_l (a b : string) : a <> "" -> (a ++ b)%string <> "".
Proof. destruct a; [contradiction|discriminate]. Qed.

Lemma append_nonempty_r (a b : string) : b <> "" -> (a ++ b)%string <> "".
Proof. destruct a; simpl; [trivial|discriminate]. Qed.

Lemma format_fixed_nonempty nd x : PyFloat.format_fixed nd x <> "".
Proof.
  assert (Hd : forall n, PyFloat.fixed_digits nd n <> "")
    by (intros n; apply append_nonempty_l, digits_of_N_nonempty).
  destruct x; simpl; try discriminate.
  - now apply append_nonempty_r.
  - now apply append_nonempty_r.
  - now apply append_nonempty_r.
Qed.

Section NewRow.

Variable float_repr : PyFloat.float -> string.

Lemma aircraft_to_row_facts r new_row :
  CSVStorage._aircraft_to_row float_repr r = Ok new_row ->
  dom new_row = header_set
  /\ Py.get new_row "callsign" = VStr (Aircraft.callsign r)
  /\ new_row !! "velocity"
     = Some (VStr (PyFloat.format_fixed 2 (Aircraft.velocity r))).
Proof.
  unfold CSVStorage._aircraft_to_row, rbind.
  destruct (Py.format_f 6 (Aircraft._longitude r)); [|discriminate].
  destruct (Py.format_f 6 (Aircraft._latitude r)); [|discriminate].
  destruct (Py.format_f 2 (Aircraft._vertical_rate r)); [|discriminate].
  intros [= <-]. split; [|split; reflexivity].
  rewrite !dom_insert_L, dom_empty_L. unfold header_set. simpl. set_solver.
Qed.

Lemma as_text_get row k c :
  Py.get row k = VStr c -> Py.get (as_text float_repr row) k = VStr c.
Proof.
  unfold Py.get, as_text. rewrite lookup_fmap.
  destruct (row !! k) as [v|]; simpl; [|discriminate]. now intros ->.
Qed.

Lemma new_row_writable r new_row :
  CSVStorage._aircraft_to_row float_repr r = Ok new_row ->
  writable_row float_repr new_row.
Proof.
  intros H. destruct (aircraft_to_row_facts _ _ H) as (Hd & _ & Hv).
  split; [exact Hd|].
  apply (any_value_lookup _ "velocity"
           (VStr (PyFloat.format_fixed 2 (Aircraft.velocity r)))).
  - unfold as_text. now rewrite lookup_fmap, Hv.
  - apply truthy_str, format_fixed_nonempty.
Qed.

End NewRow.

(** ** The CSV store on a file in its layout *)

Section CsvLayout.

Variable float_repr : PyFloat.float -> string.

Lemma as_text_loaded_list (data : list dict) :
  Forall loaded data -> as_text float_repr <$> data = data.
Proof.
  induction 1 as [|row data (_ & Ht & _) _ IH]; [reflexivity|].
  now rewrite fmap_cons, IH, (as_text_loaded _ _ Ht).
Qed.

Lemma layout_load d rows :
  csv_layout d rows ->
  CSVStorage._load_data d = Ok (CSVStorage.read_rows rows)
  /\ Forall loaded (CSVStorage.read_rows rows).
Proof.
  intros [Hf Hrows]. unfold CSVStorage._load_data. rewrite Hf.
  split; [reflexivity|now apply read_rows_loaded].
Qed.

Lemma as_text_upsert c new_row data :
  Forall loaded data ->
  as_text float_repr <$> csv_upsert c new_row data
  = csv_upsert c (as_text float_repr new_row) data.
Proof.
  unfold csv_upsert.
  induction 1 as [|row data (_ & Ht & _) Hdata IH]; [reflexivity|].
  cbn [upsert_with]. destruct (callsign_is c row).
  - now rewrite fmap_cons, (as_text_loaded_list _ Hdata).
  - now rewrite fmap_cons, IH, (as_text_loaded _ _ Ht).
Qed.

Lemma upsert_writable c new_row data :
  writable_row float_repr new_row ->
  Forall loaded data ->
  Forall (writable_row float_repr) (csv_upsert c new_row data).
Proof.
  intros Hn. unfold csv_upsert.
  induction 1 as [|row data Hrow Hdata IH]; cbn [upsert_with].
  - now constructor.
  - destruct (callsign_is c row); constructor; trivial.
    + eapply Forall_impl; [exact Hdata|]. apply loaded_writable.
    + now apply loaded_writable.
Qed.

(** [add_aircraft] on a writable file in the layout of the store. *)
Lemma csv_add_aircraft_layout d rows r new_row :
  csv_layout d rows ->
  CSVStorage.writable d = true ->
  CSVStorage._aircraft_to_row float_repr r = Ok new_row ->
  exists d',
    CSVStorage.add_aircraft float_repr r d = (Ok true, d')
    /\ csv_layout d'
         (CSVStorage.write_row float_repr header_set
          <$> csv_upsert (Aircraft.callsign r) new_row
                (CSVStorage.read_rows rows))
    /\ CSVStorage.writable d' = true
    /\ CSVStorage._load_data d'
       = Ok (csv_upsert (Aircraft.callsign r) (as_text float_repr new_row)
               (CSVStorage.read_rows rows)).
Proof.
  intros Hl Hw Hrow. destruct (layout_load _ _ Hl) as [Hload Hdata].
  unfold CSVStorage.add_aircraft. rewrite Hload, Hrow.
  pose proof (csv_scan_upsert (Aircraft.callsign r) new_row
                (CSVStorage.read_rows rows)) as Hscan.
  destruct (save_then_load float_repr
              (csv_upsert (Aircraft.callsign r) new_row
                 (CSVStorage.read_rows rows)) d) as (d' & Hs & Hl' & Hw' & Hld).
  { apply upsert_writable; [|exact Hdata].
    now apply (new_row_writable float_repr r). }
  { exact Hw. }
  exists d'. rewrite <- (as_text_upsert _ _ _ Hdata).
  split; [|split; [exact Hl'|split; [exact Hw'|exact Hld]]].
  rewrite <- Hs, <- Hscan.
  now destruct (CSVStorage.find_existing _ _ 0).
Qed.

(** [add_aircraft] when the file cannot be written, or the record has
    no row. *)
Lemma csv_add_aircraft_no_write d rows r :
  csv_layout d rows ->
  CSVStorage.writable d = false
  \/ (exists e, CSVStorage._aircraft_to_row float_repr r = Raise e) ->
  snd (CSVStorage.add_aircraft float_repr r d) = d.
Proof.
  intros Hl H. destruct (layout_load _ _ Hl) as [Hload _].
  unfold CSVStorage.add_aircraft. rewrite Hload.
  destruct (CSVStorage._aircraft_to_row float_repr r) as [new_row|e];
    [|reflexivity].
  destruct H as [Hw|[e [=]]].
  unfold CSVStorage._save_data. rewrite Hw.
  now destruct (CSVStorage.find_existing _ _ 0).
Qed.

Lemma csv_upsert_again c new_row data :
  Py.get new_row "callsign" = VStr c ->
  csv_upsert c new_row (csv_upsert c (as_text float_repr new_row) data)
  = csv_upsert c new_row data.
Proof.
  intros Hk. unfold csv_upsert.
  assert (Ht : callsign_is c (as_text float_repr new_row) = true)
    by (apply callsign_is_iff, as_text_get, Hk).
  induction data as [|row rest IH]; cbn [upsert_with].
  - now rewrite Ht.
  - destruct (callsign_is c row) eqn:Hc; cbn [upsert_with].
    + now rewrite Ht.
    + now rewrite Hc, IH.
Qed.

End CsvLayout.

(** ** Deleting by callsign *)

Lemma without_absent c data : ~ present c data -> without c data = data.
Proof.
  unfold without. induction data as [|item rest IH]; intros Hn; [reflexivity|].
  simpl. destruct (callsign_is c item) eqn:Hc.
  - exfalso. apply Hn. exists item. split; [left|exact Hc].
  - simpl. f_equal. apply IH. intros (x & Hx & Hcx). apply Hn.
    exists x. split; [now right|exact Hcx].
Qed.

Lemma without_length_le c data :
  (List.length (without c data) <= List.length data)%nat.
Proof.
  unfold without. induction data as [|item rest IH]; simpl; [lia|].
  destruct (callsign_is c item); simpl; lia.
Qed.

Lemma without_length_lt c data :
  present c data -> (List.length (without c data) < List.length data)%nat.
Proof.
  induction data as [|item rest IH]; intros (x & Hx & Hcx).
  - now apply elem_of_nil in Hx.
  - unfold without. simpl. fold (without c rest).
    destruct (callsign_is c item) eqn:Hc; simpl.
    + pose proof (without_length_le c rest). lia.
    + apply elem_of_cons in Hx as [->|Hx]; [congruence|].
      assert (present c rest) by (now exists x). specialize (IH H). lia.
Qed.

Lemma without_keeps c data item :
  item ∈ without c data <-> item ∈ data /\ callsign_is c item = false.
Proof.
  unfold without. rewrite !list_elem_of_In, filter_In, negb_true_iff.
  reflexivity.
Qed.

Lemma without_callsigns_sublist c data :
  sublist (callsigns (without c data)) (callsigns data).
Proof.
  unfold without, callsigns.
  induction data as [|item rest IH]; simpl; [constructor|].
  destruct (negb (callsign_is c item)); simpl.
  - now apply sublist_skip.
  - now apply sublist_cons.
Qed.

Lemma without_unique_keeps c data :
  unique_callsigns data -> unique_callsigns (without c data).
Proof.
  unfold unique_callsigns. intros H.
  eapply sublist_NoDup; [exact H|apply without_callsigns_sublist].
Qed.

(** With callsign as a key, exactly one record goes. *)
Lemma without_unique_length c data :
  unique_callsigns data -> present c data ->
  S (List.length (without c data)) = List.length data.
Proof.
  unfold unique_callsigns, callsigns.
  induction data as [|item rest IH]; intros Hnd (x & Hx & Hcx).
  - now apply elem_of_nil in Hx.
  - rewrite fmap_cons in Hnd. apply NoDup_cons in Hnd as [Hnotin Hnd].
    unfold without. simpl. fold (without c rest).
    destruct (callsign_is c item) eqn:Hc; simpl.
    + rewrite without_absent; [reflexivity|].
      intros (y & Hy & Hcy). apply Hnotin.
      apply callsign_is_iff in Hc, Hcy. rewrite Hc, <- Hcy.
      apply list_elem_of_fmap. now exists y.
    + f_equal. apply IH; [exact Hnd|].
      apply elem_of_cons in Hx as [->|Hx]; [congruence|]. now exists x.
Qed.

Lemma ne_callsign_is c item :
  Py.ne (Py.get item "callsign") (VStr c) = negb (callsign_is c item).
Proof. reflexivity. Qed.

Lemma ltb_without c data :
  (List.length (without c data) <? List.length data)%nat = true
  <-> present c data.
Proof.
  rewrite Nat.ltb_lt. split; [|apply without_length_lt].
  intros Hlt. destruct (position c data) as [i|] eqn:Hp.
  - apply position_Some in Hp as [(x & Hx & Hcx) _].
    exists x. split; [|exact Hcx]. now apply list_elem_of_lookup_2 in Hx.
  - apply position_None in Hp. rewrite (without_absent _ _ Hp) in Hlt. lia.
Qed.

Lemma Forall_without (P : dict -> Prop) c data :
  Forall P data -> Forall P (without c data).
Proof.
  unfold without. induction 1 as [|item rest Hi _ IH]; simpl; [constructor|].
  destruct (negb (callsign_is c item)); [now constructor|exact IH].
Qed.

Section CsvDelete.

Variable float_repr : PyFloat.float -> string.

Lemma csv_delete_present d rows c :
  csv_layout d rows ->
  CSVStorage.writable d = true ->
  present c (CSVStorage.read_rows rows) ->
  exists d',
    CSVStorage.delete_aircraft float_repr c d = (Ok true, d')
    /\ csv_layout d'
         (CSVStorage.write_row float_repr header_set
          <$> without c (CSVStorage.read_rows rows))
    /\ CSVStorage.writable d' = true
    /\ CSVStorage._load_data d' = Ok (without c (CSVStorage.read_rows rows)).
Proof.
  intros Hl Hw Hp. destruct (layout_load _ _ Hl) as [Hload Hdata].
  unfold CSVStorage.delete_aircraft. rewrite Hload.
  change (List.filter _ (CSVStorage.read_rows rows))
    with (without c (CSVStorage.read_rows rows)).
  rewrite (proj2 (ltb_without _ _) Hp).
  destruct (save_then_load float_repr
              (without c (CSVStorage.read_rows rows)) d)
    as (d' & Hs & Hl' & Hw' & Hld).
  { apply Forall_without. eapply Forall_impl; [exact Hdata|].
    apply loaded_writable. }
  { exact Hw. }
  exists d'. rewrite Hs. split; [reflexivity|].
  split; [exact Hl'|]. split; [exact Hw'|].
  rewrite Hld. f_equal. apply as_text_loaded_list.
  now apply Forall_without.
Qed.

Lemma csv_delete_absent d rows c :
  csv_layout d rows ->
  ~ present c (CSVStorage.read_rows rows) ->
  CSVStorage.delete_aircraft float_repr c d = (Ok false, d).
Proof.
  intros Hl Hp. destruct (layout_load _ _ Hl) as [Hload _].
  unfold CSVStorage.delete_aircraft. rewrite Hload.
  change (List.filter _ (CSVStorage.read_rows rows))
    with (without c (CSVStorage.read_rows rows)).
  destruct (_ <? _)%nat eqn:Hlt; [|reflexivity].
  apply ltb_without in Hlt. contradiction.
Qed.

Lemma csv_delete_no_write d rows c :
  csv_layout d rows ->
  CSVStorage.writable d = false ->
  snd (CSVStorage.delete_aircraft float_repr c d) = d.
Proof.
  intros Hl Hw. destruct (layout_load _ _ Hl) as [Hload _].
  unfold CSVStorage.delete_aircraft, CSVStorage._save_data.
  rewrite Hload, Hw. now destruct (_ <? _)%nat.
Qed.

End CsvDelete.

Lemma json_delete d data c :
  json_layout d data ->
  JSONStorage.delete_aircraft c d
  = if (List.length (without c data) <? List.length data)%nat
    then let '(ok, d') := JSONStorage._save_data (without c data) d in
         (Ok ok, d')
    else (Ok false, d).
Proof.
  intros Hl. unfold JSONStorage.delete_aircraft, JSONStorage._load_data.
  red in Hl. now rewrite Hl.
Qed.

(** ** The index of [add_multiple_aircraft] *)

Lemma str_eq_refl c q : Py.eq (VStr c) (VStr q) = bool_decide (c = q).
Proof. reflexivity. Qed.

Lemma index_get_set c q i ix :
  CSVStorage.index_get (VStr q) (CSVStorage.index_set (VStr c) i ix)
  = if bool_decide (c = q) then Some i
    else CSVStorage.index_get (VStr q) ix.
Proof.
  induction ix as [|[k j] rest IH];
    cbn [CSVStorage.index_get CSVStorage.index_set].
  - rewrite str_eq_refl. now destruct (bool_decide (c = q)).
  - destruct (Py.eq k (VStr c)) eqn:Hk; cbn [CSVStorage.index_get].
    + apply str_eq_iff in Hk as ->. rewrite str_eq_refl.
      now destruct (bool_decide (c = q)).
    + rewrite IH. destruct (Py.eq k (VStr q)) eqn:Hq; [|reflexivity].
      apply str_eq_iff in Hq as ->. rewrite str_eq_refl in Hk.
      rewrite bool_decide_eq_false in Hk.
      now rewrite bool_decide_eq_false_2.
Qed.

Lemma index_get_bounded k i ix n :
  index_bounded ix n -> CSVStorage.index_get k ix = Some i -> (i < n)%nat.
Proof.
  induction 1 as [|[k' j] rest Hj _ IH]; simpl; [discriminate|].
  destruct (Py.eq k' k); [now intros [= <-]|exact IH].
Qed.

Lemma index_set_bounded k i ix n :
  index_bounded ix n -> (i < n)%nat ->
  index_bounded (CSVStorage.index_set k i ix) n.
Proof.
  intros Hb Hi. induction Hb as [|[k' j] rest Hj Hrest IH]; simpl.
  - now repeat constructor.
  - destruct (Py.eq k' k); constructor; trivial.
Qed.

Lemma index_bounded_mono ix n m :
  index_bounded ix n -> (n <= m)%nat -> index_bounded ix m.
Proof.
  intros Hb Hnm. eapply Forall_impl; [exact Hb|]. simpl. intros e He. lia.
Qed.

Lemma keyed_item row :
  keyed row -> exists c, Py.item row "callsign" = Ok (VStr c).
Proof.
  intros [c Hc]. exists c. unfold Py.item. unfold Py.get in Hc.
  destruct (row !! "callsign") as [v|]; simpl in Hc; [now subst|discriminate].
Qed.

Lemma index_rows_bounded data k ix :
  Forall keyed data ->
  index_bounded ix (k + List.length data) ->
  exists ix',
    CSVStorage.index_rows data k ix = Ok ix'
    /\ index_bounded ix' (k + List.length data).
Proof.
  intros Hdata. revert k ix.
  induction Hdata as [|row rest Hrow _ IH]; intros k ix Hb;
    cbn [CSVStorage.index_rows].
  - now exists ix.
  - destruct (keyed_item _ Hrow) as [c ->]. cbn [rbind].
    simpl List.length in *.
    destruct (IH (S k) (CSVStorage.index_set (VStr c) k ix)) as (ix' & E & Hb').
    + apply index_set_bounded; [|lia].
      eapply index_bounded_mono; [exact Hb|lia].
    + exists ix'. split; [exact E|].
      eapply index_bounded_mono; [exact Hb'|lia].
Qed.

Lemma position_app q pre suf :
  position q (pre ++ suf)
  = match position q pre with
    | Some i => Some i
    | None => (fun j => (List.length pre + j)%nat) <$> position q suf
    end.
Proof.
  induction pre as [|item pre IH]; simpl.
  - now destruct (position q suf).
  - destruct (callsign_is q item); [reflexivity|].
    rewrite IH. destruct (position q pre); [reflexivity|].
    now destruct (position q suf).
Qed.

Lemma position_callsigns q d1 d2 :
  callsigns d1 = callsigns d2 -> position q d1 = position q d2.
Proof.
  unfold callsigns. revert d2.
  induction d1 as [|a d1 IH]; intros [|b d2]; try discriminate;
    [reflexivity|].
  rewrite !fmap_cons. intros [= Hk Hrest]. simpl.
  rewrite (callsign_is_key q a b Hk), (IH d2 Hrest). reflexivity.
Qed.

Lemma position_absent_key c data :
  VStr c ∉ callsigns data -> position c data = None.
Proof.
  intros Hn. apply position_None. intros (x & Hx & Hcx). apply Hn.
  apply callsign_is_iff in Hcx. rewrite <- Hcx.
  apply list_elem_of_fmap. now exists x.
Qed.

(** The index built from rows with distinct callsigns finds each row. *)
Lemma index_rows_ok pre rest ix :
  Forall keyed rest ->
  NoDup (callsigns (pre ++ rest)) ->
  index_ok ix pre ->
  exists ix',
    CSVStorage.index_rows rest (List.length pre) ix = Ok ix'
    /\ index_ok ix' (pre ++ rest).
Proof.
  intros Hrest. revert pre ix.
  induction Hrest as [|row rest Hrow _ IH]; intros pre ix Hnd Hix;
    cbn [CSVStorage.index_rows].
  - exists ix. now rewrite app_nil_r.
  - destruct Hrow as [c Hc].
    destruct (keyed_item row (ex_intro _ c Hc)) as [c' Hitem].
    assert (c' = c) as ->.
    { unfold Py.item, Py.get in *. destruct (row !! "callsign"); simpl in *;
        congruence. }
    rewrite Hitem. cbn [rbind].
    destruct (IH (pre ++ [row])
                (CSVStorage.index_set (VStr c) (List.length pre) ix))
      as (ix' & E & Hok).
    + now rewrite <- app_assoc.
    + intros q. rewrite index_get_set, position_app, Hix. simpl.
      fold (callsign_is q row). unfold callsign_is. rewrite Hc, str_eq_refl.
      destruct (bool_decide_reflect (c = q)) as [->|Hne].
      * rewrite position_absent_key.
        -- simpl. f_equal. lia.
        -- unfold callsigns in Hnd. rewrite fmap_app in Hnd.
           apply NoDup_app in Hnd as (_ & Hdisj & _).
           intros Hin. apply (Hdisj _ Hin).
           rewrite fmap_cons, Hc. left.
      * now destruct (position q pre).
    + exists ix'. rewrite length_app, Nat.add_1_r in E.
      split; [exact E|]. now rewrite <- app_assoc in Hok.
Qed.

(** ** The loop of [add_multiple_aircraft] in the CSV store *)

Section CsvAddMany.

Variable float_repr : PyFloat.float -> string.

(** The loop ends, and counts every record, when every record has a
    row. *)
Lemma csv_add_each_total (P : dict -> Prop) l :
  Forall (fun a => exists row,
            CSVStorage._aircraft_to_row float_repr a = Ok row /\ P row) l ->
  forall data ix n,
    index_bounded ix (List.length data) ->
    Forall P data ->
    exists data',
      CSVStorage.add_each float_repr l data ix n
      = Ok (data', (n + List.length l)%nat)
      /\ Forall P data'.
Proof.
  induction 1 as [|a l (row & Hrow & HP) _ IH]; intros data ix n Hb Hdata;
    cbn [CSVStorage.add_each].
  - exists data. split; [|exact Hdata]. do 2 f_equal. simpl. lia.
  - rewrite Hrow. cbn [rbind].
    destruct (CSVStorage.index_get _ ix) as [i|] eqn:Hget.
    + pose proof (index_get_bounded _ _ _ _ Hb Hget) as Hi.
      unfold CSVStorage.set_row.
      rewrite (proj2 (Nat.ltb_lt _ _) Hi). cbn [rbind].
      destruct (IH (<[i := row]> data) ix (n + 1)%nat) as (data' & E & HP').
      * now rewrite length_insert.
      * now apply Forall_insert.
      * exists data'. split; [|exact HP']. rewrite E. do 2 f_equal.
        simpl. lia.
    + destruct (IH (data ++ [row])
                  (CSVStorage.index_set (VStr (Aircraft.callsign a))
                     (List.length (data ++ [row]) - 1) ix) (n + 1)%nat)
        as (data' & E & HP').
      * rewrite length_app. simpl. apply index_set_bounded; [|lia].
        eapply index_bounded_mono; [exact Hb|lia].
      * apply Forall_app. split; [exact Hdata|now constructor].
      * exists data'. split; [|exact HP']. rewrite E. do 2 f_equal.
        simpl. lia.
Qed.

(** The loop keeps the callsigns distinct. *)
Lemma csv_add_each_unique (P : dict -> Prop) l :
  (forall a row, CSVStorage._aircraft_to_row float_repr a = Ok row -> P row) ->
  forall data ix n data' n',
    CSVStorage.add_each float_repr l data ix n = Ok (data', n') ->
    index_ok ix data ->
    Forall P data ->
    unique_callsigns data ->
    Forall P data' /\ unique_callsigns data'.
Proof.
  intros HP. induction l as [|a l IH]; intros data ix n data' n';
    cbn [CSVStorage.add_each].
  - intros [= <- _] _ Hdata Hu. now split.
  - destruct (CSVStorage._aircraft_to_row float_repr a) as [row|e] eqn:Hrow;
      [|discriminate].
    cbn [rbind]. intros Hrun Hix Hdata Hu.
    destruct (aircraft_to_row_facts float_repr a row Hrow) as (_ & Hkey & _).
    assert (Hf : forall item : dict,
               callsign_is (Aircraft.callsign a) item = true ->
               Py.get ((fun _ : dict => row) item) "callsign"
               = VStr (Aircraft.callsign a)) by (intros; exact Hkey).
    rewrite (Hix (Aircraft.callsign a)) in Hrun.
    destruct (position (Aircraft.callsign a) data) as [i|] eqn:Hp.
    + unfold CSVStorage.set_row in Hrun.
      rewrite (proj2 (Nat.ltb_lt _ _) (position_lt _ _ _ Hp)) in Hrun.
      cbn [rbind] in Hrun.
      destruct (upsert_present (fun _ => row) _ row _ _ Hp) as (e & _ & Hup).
      pose proof (upsert_callsigns (fun _ => row) _ row Hf Hkey data) as Hcs.
      rewrite Hp, Hup in Hcs.
      apply (IH _ _ _ _ _ Hrun).
      * intros q. rewrite (Hix q). symmetry. now apply position_callsigns.
      * apply Forall_insert; [exact Hdata|]. now apply (HP a).
      * unfold unique_callsigns. now rewrite Hcs.
    + apply (IH _ _ _ _ _ Hrun).
      * intros q. rewrite index_get_set, position_app, (Hix q).
        rewrite length_app. simpl. fold (callsign_is q row).
        unfold callsign_is. rewrite Hkey, str_eq_refl.
        destruct (bool_decide_reflect (Aircraft.callsign a = q)) as [<-|Hne].
        -- rewrite Hp. simpl. f_equal. lia.
        -- now destruct (position q data).
      * apply Forall_app. split; [exact Hdata|].
        constructor; [now apply (HP a)|constructor].
      * pose proof (upsert_unique (fun _ => row) _ row Hf Hkey data Hu) as Hu'.
        now rewrite (upsert_absent _ _ _ _ Hp) in Hu'.
Qed.

Lemma callsigns_as_text data :
  Forall keyed data -> callsigns (as_text float_repr <$> data) = callsigns data.
Proof.
  unfold callsigns.
  induction 1 as [|row data [c Hc] _ IH]; [reflexivity|].
  rewrite !fmap_cons, IH. f_equal.
  now rewrite (as_text_get float_repr row "callsign" c Hc), Hc.
Qed.

Lemma loaded_keyed row : loaded row -> keyed row.
Proof.
  intros (Hd & Ht & _).
  assert (Hin : "callsign" ∈ dom row) by (rewrite Hd; vm_compute; tauto).
  apply elem_of_dom in Hin as [v Hv]. destruct (Ht _ _ Hv) as [s ->].
  exists s. unfold Py.get. now rewrite Hv.
Qed.

(** Saving rows with distinct callsigns leaves a file that holds rows
    with distinct callsigns, whether the file can be written or not. *)
Lemma csv_commit data d :
  csv_keyed_store d ->
  Forall (writable_row float_repr) data ->
  Forall keyed data ->
  unique_callsigns data ->
  csv_keyed_store (snd (CSVStorage._save_data float_repr data d)).
Proof.
  intros Hd Hw Hk Hu.
  destruct (CSVStorage.writable d) eqn:Hwr.
  - destruct (save_then_load float_repr data d Hw Hwr)
      as (d' & -> & Hl & _ & Hld).
    cbn [snd]. eexists. split; [exact Hl|].
    destruct (layout_load _ _ Hl) as [Hld' _]. rewrite Hld in Hld'.
    injection Hld' as <-. unfold unique_callsigns.
    now rewrite callsigns_as_text.
  - unfold CSVStorage._save_data. now rewrite Hwr.
Qed.

End CsvAddMany.

(** ** Every operation keeps callsign a key *)

Lemma upsert_Forall (P : dict -> Prop) f c new data :
  P new -> (forall item, P item -> P (f item)) ->
  Forall P data -> Forall P (upsert_with f c new data).
Proof.
  intros Hn Hf. induction 1 as [|item rest Hi Hrest IH]; cbn [upsert_with].
  - now constructor.
  - destruct (callsign_is c item); constructor; auto.
Qed.

Lemma fold_json_upsert_unique l data :
  unique_callsigns data -> unique_callsigns (fold_left json_upsert l data).
Proof.
  revert data. induction l as [|a l IH]; intros data Hu; [exact Hu|].
  simpl. apply IH. now apply json_upsert_unique.
Qed.

Lemma json_commit data d :
  json_keyed_store d -> unique_callsigns data ->
  json_keyed_store (snd (JSONStorage._save_data data d)).
Proof.
  intros Hd Hu. unfold JSONStorage._save_data.
  destruct (JSONStorage.writable d); [|exact Hd].
  exists data. now split.
Qed.

Lemma json_apply_keeps o d :
  json_keyed_store d -> json_keyed_store (json_apply o d).
Proof.
  intros Hd. pose proof Hd as (data & Hload & Hu).
  destruct o as [a|l|c|]; cbn [json_apply].
  - rewrite json_add_aircraft, Hload.
    pose proof (json_commit (json_upsert data a) d Hd
                  (json_upsert_unique _ _ Hu)) as H.
    now destruct (JSONStorage._save_data _ d).
  - unfold JSONStorage.add_multiple_aircraft. rewrite Hload, json_add_each.
    pose proof (json_commit (fold_left json_upsert l data) d Hd
                  (fold_json_upsert_unique _ _ Hu)) as H.
    now destruct (JSONStorage._save_data _ d).
  - unfold JSONStorage.delete_aircraft. rewrite Hload.
    change (List.filter _ data) with (without c data).
    destruct (_ <? _)%nat; [|exact Hd].
    pose proof (json_commit (without c data) d Hd
                  (without_unique_keeps _ _ Hu)) as H.
    now destruct (JSONStorage._save_data _ d).
  - unfold JSONStorage.clear.
    pose proof (json_commit [] d Hd (NoDup_nil_2 : unique_callsigns [])) as H.
    now destruct (JSONStorage._save_data _ d).
Qed.

Lemma json_run_keeps steps d :
  json_keyed_store d -> json_keyed_store (json_run steps d).
Proof.
  revert d. induction steps as [|[o w] steps IH]; intros d Hd; [exact Hd|].
  simpl. apply IH. unfold json_step. apply json_apply_keeps.
  destruct Hd as (data & Hload & Hu). now exists data.
Qed.

Section CsvKeeps.

Variable float_repr : PyFloat.float -> string.

Lemma csv_apply_keeps o d :
  csv_keyed_store d -> csv_keyed_store (csv_apply float_repr o d).
Proof.
  intros Hd. pose proof Hd as (rows & Hl & Hu).
  destruct (layout_load _ _ Hl) as [Hload Hdata].
  assert (Hw : Forall (writable_row float_repr) (CSVStorage.read_rows rows))
    by (eapply Forall_impl; [exact Hdata|apply loaded_writable]).
  assert (Hk : Forall keyed (CSVStorage.read_rows rows))
    by (eapply Forall_impl; [exact Hdata|apply loaded_keyed]).
  destruct o as [a|l|c|]; cbn [csv_apply].
  - unfold CSVStorage.add_aircraft. rewrite Hload.
    destruct (CSVStorage._aircraft_to_row float_repr a) as [row|e] eqn:Hrow;
      [|exact Hd].
    destruct (aircraft_to_row_facts float_repr a row Hrow) as (_ & Hkey & _).
    pose proof (csv_scan_upsert (Aircraft.callsign a) row
                  (CSVStorage.read_rows rows)) as Hscan.
    assert (H : csv_keyed_store
                  (snd (CSVStorage._save_data float_repr
                          (csv_upsert (Aircraft.callsign a) row
                             (CSVStorage.read_rows rows)) d))).
    { apply csv_commit; [exact Hd| | |].
      - apply upsert_Forall; [now apply (new_row_writable float_repr a)
                             |intros; now apply (new_row_writable float_repr a)
                             |exact Hw].
      - apply upsert_Forall;
          [eexists; exact Hkey|intros; eexists; exact Hkey|exact Hk].
      - apply upsert_unique; [intros; exact Hkey|exact Hkey|exact Hu]. }
    rewrite <- Hscan in H.
    now destruct (CSVStorage.find_existing _ _ 0).
  - unfold CSVStorage.add_multiple_aircraft.
    destruct l as [|a l]; [exact Hd|]. rewrite Hload.
    destruct (index_rows_ok [] (CSVStorage.read_rows rows) [] Hk Hu)
      as (ix & Hix & Hok); [intros q; reflexivity|].
    simpl List.length in Hix. rewrite Hix. cbn [rbind].
    destruct (CSVStorage.add_each float_repr (a :: l) _ ix 0)
      as [[data' n']|e] eqn:Hrun; [|exact Hd].
    assert (HP0 : forall a' row,
               CSVStorage._aircraft_to_row float_repr a' = Ok row ->
               writable_row float_repr row /\ keyed row).
    { intros a' row Hrow. split; [now apply (new_row_writable float_repr a')|].
      destruct (aircraft_to_row_facts float_repr a' row Hrow) as (_ & Hkey & _).
      eexists; exact Hkey. }
    assert (HP1 : Forall (fun row => writable_row float_repr row /\ keyed row)
                    (CSVStorage.read_rows rows)).
    { apply Forall_forall. intros row Hin. split.
      - now apply (proj1 (Forall_forall _ _) Hw).
      - now apply (proj1 (Forall_forall _ _) Hk). }
    destruct (csv_add_each_unique float_repr _ (a :: l) HP0 _ _ _ _ _
                Hrun Hok HP1 Hu) as [HP Hu'].
    assert (H : csv_keyed_store
                  (snd (CSVStorage._save_data float_repr data' d))).
    { apply csv_commit; [exact Hd| | |exact Hu'].
      - eapply Forall_impl; [exact HP|]. now intros row [? _].
      - eapply Forall_impl; [exact HP|]. now intros row [_ ?]. }
    now destruct (CSVStorage._save_data float_repr data' d).
  - unfold CSVStorage.delete_aircraft. rewrite Hload.
    change (List.filter _ (CSVStorage.read_rows rows))
      with (without c (CSVStorage.read_rows rows)).
    destruct (_ <? _)%nat; [|exact Hd].
    assert (H : csv_keyed_store
                  (snd (CSVStorage._save_data float_repr
                          (without c (CSVStorage.read_rows rows)) d))).
    { apply csv_commit; [exact Hd| | |].
      - now apply Forall_without.
      - now apply Forall_without.
      - now apply without_unique_keeps. }
    now destruct (CSVStorage._save_data float_repr _ d).
  - unfold CSVStorage.clear.
    apply csv_commit; [exact Hd|constructor|constructor|].
    apply NoDup_nil_2.
Qed.

Lemma csv_run_keeps steps d :
  csv_keyed_store d -> csv_keyed_store (csv_run float_repr steps d).
Proof.
  revert d. induction steps as [|[o w] steps IH]; intros d Hd; [exact Hd|].
  simpl. apply IH. unfold csv_step. apply csv_apply_keeps.
  destruct Hd as (rows & [Hf Hrows] & Hu). exists rows.
  split; [split; [exact Hf|exact Hrows]|exact Hu].
Qed.

End CsvKeeps.

(** ** Retrieval by criteria *)

Lemma filter_all {A} (l : list A) : List.filter (fun _ => true) l = l.
Proof. induction l as [|x l IH]; simpl; [reflexivity|now rewrite IH]. Qed.

Lemma item_matches_spec item criteria :
  JSONStorage.item_matches item criteria = json_matches criteria item.
Proof.
  induction criteria as [|[key value] rest IH]; simpl; [reflexivity|].
  destruct (item !! key) as [v|]; [|reflexivity].
  unfold Py.ne. destruct (Py.eq v value); simpl; [exact IH|reflexivity].
Qed.

Lemma filter_items_spec data criteria :
  JSONStorage.filter_items data criteria
  = List.filter (json_matches criteria) data.
Proof.
  induction data as [|item rest IH]; simpl; [reflexivity|].
  rewrite item_matches_spec, IH. reflexivity.
Qed.

Lemma read_rows_cells rows : Forall cells_row (CSVStorage.read_rows rows).
Proof.
  induction rows as [|r rows IH]; simpl; [constructor|].
  destruct (CSVStorage.any_value _); [|exact IH].
  constructor; [|exact IH].
  intros k. unfold Py.get. rewrite lookup_fmap.
  destruct (r !! k) as [[s|]|]; simpl; eauto.
Qed.

Lemma csv_load_cells d data :
  CSVStorage._load_data d = Ok data -> Forall cells_row data.
Proof.
  unfold CSVStorage._load_data.
  destruct (CSVStorage.file_of d); intros [= <-];
    try constructor; apply read_rows_cells.
Qed.

Lemma coerce_cell key cell :
  cell = VNone \/ (exists s, cell = VStr s) ->
  CSVStorage.coerce key cell = Ok (csv_compared key cell).
Proof.
  unfold CSVStorage.coerce, csv_compared.
  intros [->|[s ->]].
  - simpl. now repeat case_bool_decide.
  - destruct (decide (s = "")) as [->|Hs].
    + simpl. now repeat case_bool_decide.
    + rewrite (truthy_str s Hs). simpl.
      repeat case_bool_decide; try reflexivity.
      now destruct (PyFloat.of_string s).
Qed.

Lemma row_matches_spec row criteria :
  cells_row row ->
  CSVStorage.row_matches row criteria = Ok (csv_matches criteria row).
Proof.
  intros Hrow.
  induction criteria as [|[key value] rest IH]; simpl; [reflexivity|].
  rewrite (coerce_cell key _ (Hrow key)). simpl.
  unfold Py.ne. destruct (Py.eq _ value); simpl; [exact IH|reflexivity].
Qed.

Lemma select_rows_spec data criteria :
  Forall cells_row data ->
  CSVStorage.select_rows data criteria
  = rmap CSVStorage._row_to_aircraft (List.filter (csv_matches criteria) data).
Proof.
  induction 1 as [|row rest Hrow _ IH]; simpl; [reflexivity|].
  rewrite (row_matches_spec _ _ Hrow). simpl.
  destruct (csv_matches criteria row); simpl; [now rewrite IH|exact IH].
Qed.

(** ** A fixed-point text is the text of a number *)

Lemma list_ascii_of_string_app (a b : string) :
  list_ascii_of_string (a ++ b)%string
  = list_ascii_of_string a ++ list_ascii_of_string b.
Proof. induction a as [|c a IH]; simpl; [reflexivity|now rewrite IH]. Qed.

Lemma uint_digits (d : Decimal.uint) :
  Forall (fun c => PyFloat.is_digit c = true)
    (list_ascii_of_string (NilEmpty.string_of_uint d)).
Proof. induction d; simpl; constructor; trivial. Qed.

Lemma digits_of_N_digits (n : N) :
  Forall (fun c => PyFloat.is_digit c = true)
    (list_ascii_of_string (PyFloat.digits_of_N n)).
Proof.
  unfold PyFloat.digits_of_N, NilZero.string_of_uint.
  destruct (N.to_uint n) eqn:E; try (rewrite <- E; apply uint_digits).
  repeat constructor.
Qed.

Lemma zeros_digits (k : nat) :
  Forall (fun c => PyFloat.is_digit c = true)
    (list_ascii_of_string (PyFloat.zeros k)).
Proof. induction k; simpl; constructor; trivial. Qed.

Lemma digit_not_blank c :
  PyFloat.is_digit c = true -> PyFloat.isspace c = false.
Proof.
  destruct c as [[] [] [] [] [] [] [] []]; vm_compute; congruence.
Qed.

Lemma digit_not_underscore c :
  PyFloat.is_digit c = true -> Ascii.eqb c "_" = false.
Proof.
  destruct c as [[] [] [] [] [] [] [] []]; vm_compute; congruence.
Qed.

Lemma digit_no_sign c t :
  PyFloat.is_digit c = true -> PyFloat.read_sign (c :: t) = (false, c :: t).
Proof.
  destruct c as [[] [] [] [] [] [] [] []]; vm_compute; congruence.
Qed.

Lemma digit_no_name c t name :
  PyFloat.is_digit c = true ->
  name = "inf" \/ name = "infinity" \/ name = "nan" ->
  PyStr.eqb (PyStr.lower (String c t)) name = false.
Proof.
  intros Hc Hname. unfold PyStr.eqb. apply bool_decide_eq_false_2.
  cbn [PyStr.lower]. intros H.
  assert (Hl : PyFloat.is_digit (PyStr.lower_char c) = true).
  { revert Hc. clear.
    destruct c as [[] [] [] [] [] [] [] []]; vm_compute; congruence. }
  destruct Hname as [->|[->| ->]]; injection H as H _;
    rewrite H in Hl; discriminate Hl.
Qed.

(** A run of digits followed by the point, or by nothing, is read
    whole. *)
Lemma read_digits_run ds rest :
  Forall (fun c => PyFloat.is_digit c = true) ds ->
  (rest = [] \/ exists r, rest = "."%char :: r) ->
  PyFloat.read_digits (ds ++ rest) = (ds, rest).
Proof.
  intros Hds Hrest. induction Hds as [|c ds Hc Hds IH].
  - destruct Hrest as [->|[r ->]]; reflexivity.
  - cbn [app PyFloat.read_digits]. rewrite Hc.
    assert (Hu : match ds ++ rest with
                 | u :: (c2 :: _) as l'' =>
                     if Ascii.eqb u "_" && PyFloat.is_digit c2
                     then PyFloat.read_digits l''
                     else PyFloat.read_digits (ds ++ rest)
                 | _ => PyFloat.read_digits (ds ++ rest)
                 end = PyFloat.read_digits (ds ++ rest)).
    { destruct (ds ++ rest) as [|u [|c2 t]] eqn:E; try reflexivity.
      assert (Hne : Ascii.eqb u "_" = false).
      { destruct Hds as [|c' ds' Hc' _].
        - destruct Hrest as [->|[r ->]]; [discriminate E|].
          now injection E as <- _.
        - injection E as <- _. now apply digit_not_underscore. }
      now rewrite Hne. }
    rewrite Hu, IH. reflexivity.
Qed.

Lemma skip_blanks_none l :
  Forall (fun c => PyFloat.isspace c = false) l -> PyFloat.skip_blanks l = l.
Proof.
  intros Hl. unfold PyFloat.skip_blanks.
  assert (Hd : forall m, Forall (fun c => PyFloat.isspace c = false) m ->
                         dropwhile_b PyFloat.isspace m = m).
  { intros m [|c m' Hc _]; [reflexivity|]. simpl. now rewrite Hc. }
  rewrite (Hd l Hl), Hd; [apply rev_involutive|].
  now apply List.Forall_rev.
Qed.

(** The shape of a fixed-point text: digits, then possibly the point and
    digits. *)
Lemma fixed_digits_shape nd n :
  exists c ip tail,
    list_ascii_of_string (PyFloat.fixed_digits nd n) = (c :: ip) ++ tail
    /\ Forall (fun c => PyFloat.is_digit c = true) (c :: ip)
    /\ (tail = []
        \/ exists fp, tail = "."%char :: fp
                      /\ Forall (fun c => PyFloat.is_digit c = true) fp).
Proof.
  unfold PyFloat.fixed_digits.
  set (a := PyFloat.digits_of_N _).
  pose proof (digits_of_N_digits (Z.to_N (n / 10 ^ Z.of_nat nd))) as Ha.
  pose proof (digits_of_N_nonempty (Z.to_N (n / 10 ^ Z.of_nat nd))) as Hne.
  fold a in Ha, Hne.
  rewrite list_ascii_of_string_app.
  destruct (list_ascii_of_string a) as [|c ip] eqn:E.
  { destruct a; [contradiction|discriminate E]. }
  exists c, ip. eexists. split; [reflexivity|]. split; [exact Ha|].
  destruct nd as [|nd]; [now left|]. right.
  eexists. split; [reflexivity|].
  unfold PyFloat.pad_left. rewrite list_ascii_of_string_app.
  apply Forall_app. split; [apply zeros_digits|apply digits_of_N_digits].
Qed.

Lemma parse_decimal_fixed neg c ip tail :
  Forall (fun c => PyFloat.is_digit c = true) (c :: ip) ->
  (tail = []
   \/ exists fp, tail = "."%char :: fp
                 /\ Forall (fun c => PyFloat.is_digit c = true) fp) ->
  exists y, PyFloat.parse_decimal neg ((c :: ip) ++ tail) = Some y.
Proof.
  intros Hip Htail. unfold PyFloat.parse_decimal.
  rewrite (read_digits_run (c :: ip) tail Hip)
    by (destruct Htail as [->|(fp & -> & _)]; eauto).
  destruct Htail as [->|(fp & -> & Hfp)].
  - cbn [app]. eexists; reflexivity.
  - pose proof (read_digits_run fp [] Hfp (or_introl eq_refl)) as Hr.
    rewrite app_nil_r in Hr. rewrite Hr. cbn [app]. eexists; reflexivity.
Qed.

Lemma of_string_signed_digits s c ip tail text :
  list_ascii_of_string text
  = list_ascii_of_string (PyFloat.sign_text s) ++ (c :: ip) ++ tail ->
  Forall (fun c => PyFloat.is_digit c = true) (c :: ip) ->
  (tail = []
   \/ exists fp, tail = "."%char :: fp
                 /\ Forall (fun c => PyFloat.is_digit c = true) fp) ->
  exists y, PyFloat.of_string text = Some y.
Proof.
  intros Htext Hip Htail. unfold PyFloat.of_string. rewrite Htext.
  assert (Hc : PyFloat.is_digit c = true) by (now inversion Hip).
  assert (Hns : Forall (fun c => PyFloat.isspace c = false)
                  (list_ascii_of_string (PyFloat.sign_text s)
                   ++ (c :: ip) ++ tail)).
  { apply Forall_app. split; [destruct s; repeat constructor|].
    apply Forall_app. split.
    - eapply Forall_impl; [exact Hip|]. apply digit_not_blank.
    - destruct Htail as [->|(fp & -> & Hfp)]; [constructor|].
      constructor; [reflexivity|].
      eapply Forall_impl; [exact Hfp|]. apply digit_not_blank. }
  rewrite (skip_blanks_none _ Hns).
  assert (Hsign : PyFloat.read_sign
                    (list_ascii_of_string (PyFloat.sign_text s)
                     ++ (c :: ip) ++ tail)
                  = (s, (c :: ip) ++ tail)).
  { destruct s; [reflexivity|]. cbn [PyFloat.sign_text list_ascii_of_string app].
    now apply digit_no_sign. }
  rewrite Hsign. cbn [app string_of_list_ascii].
  rewrite !(digit_no_name c _ _ Hc) by tauto. cbn [orb].
  exact (parse_decimal_fixed s c ip tail Hip Htail).
Qed.

(** [float] reads every text that [f"{x:.nf}"] writes. *)
Lemma format_fixed_reads nd x :
  exists y, PyFloat.of_string (PyFloat.format_fixed nd x) = Some y.
Proof.
  destruct x as [s|s| |s m e]; cbn [PyFloat.format_fixed].
  - destruct (fixed_digits_shape nd 0) as (c & ip & tail & E & Hip & Htail).
    apply (of_string_signed_digits s c ip tail); trivial.
    now rewrite list_ascii_of_string_app, E.
  - destruct s; eexists; vm_compute; reflexivity.
  - eexists; vm_compute; reflexivity.
  - destruct (fixed_digits_shape nd (PyFloat.scaled_round nd m e))
      as (c & ip & tail & E & Hip & Htail).
    apply (of_string_signed_digits s c ip tail); trivial.
    now rewrite list_ascii_of_string_app, E.
Qed.

(** * The properties of the store *)

(** ** C1: round trip through the serialized mapping *)

(** Counterexample to C1 as stated: the CSV row of a record built by the
    constructor with velocity 0.0625 holds the text "0.06", and the
    record read back from the row has velocity 0.06, not 0.0625. *)
Lemma C1_csv_row_rounds_velocity :
  Aircraft.__init__ (VStr "AFL101") (VStr "Russia") (VFloat (flt "0.0625"))
    (VFloat (flt "11000.0"))
    (kwargs_of (VStr "abc123") (VFloat (flt "37.5")) (VFloat (flt "55.75"))
       (VBool false) (VFloat (flt "10.5")))
  = Ok AFL101_slow
  /\ Aircraft.from_dict (Aircraft.to_dict AFL101_slow) = Ok AFL101_slow
  /\ forall float_repr,
       exists row r',
         CSVStorage._aircraft_to_row float_repr AFL101_slow = Ok row
         /\ row !! "velocity" = Some (VStr "0.06")
         /\ CSVStorage._row_to_aircraft row = Ok r'
         /\ Aircraft.velocity r' = flt "0.06"
         /\ r' <> AFL101_slow.
Proof.
  split; [vm_compute; reflexivity|].
  split; [vm_compute; reflexivity|].
  intros float_repr. eexists. eexists.
  split; [vm_compute; reflexivity|].
  split; [vm_compute; reflexivity|].
  split; [vm_compute; reflexivity|].
  split; [vm_compute; reflexivity|].
  intros H. apply (f_equal Aircraft.velocity) in H.
  vm_compute in H. discriminate H.
Qed.

(** C1 (amended): for every record the constructor builds with a
    callsign and a country that are not empty, [from_dict] of [to_dict]
    gives a record with the same nine fields (the JSON backend).  Read
    back from its CSV row, such a record whose three other numbers are
    floats and whose [on_ground] is a [bool] has the same callsign,
    country, [icao24] and [on_ground], and each number is the float read
    from its fixed-point text (two decimals, six for the position),
    validated again; so the nine fields are the same when every number
    reads back from its text unchanged. *)
Theorem C1_round_trip float_repr cs oc v a kw r :
  Aircraft.__init__ cs oc v a kw = Ok r ->
  Aircraft.callsign r <> "" ->
  Aircraft.origin_country r <> "" ->
  Aircraft.from_dict (Aircraft.to_dict r) = Ok r
  /\ (forall lo la vr b,
        Aircraft._longitude r = VFloat lo ->
        Aircraft._latitude r = VFloat la ->
        Aircraft._vertical_rate r = VFloat vr ->
        Aircraft._on_ground r = VBool b ->
        exists row,
          CSVStorage._aircraft_to_row float_repr r = Ok row
          /\ CSVStorage._row_to_aircraft row
             = Ok {| Aircraft._callsign := Aircraft.callsign r;
                     Aircraft._origin_country := Aircraft.origin_country r;
                     Aircraft._velocity :=
                       PyFloat.max PyFloat.pos_zero
                         (reread 2 (Aircraft.velocity r));
                     Aircraft._altitude :=
                       PyFloat.max (PyFloat.of_Z (-1000))
                         (reread 2 (Aircraft.altitude r));
                     Aircraft._icao24 := Aircraft._icao24 r;
                     Aircraft._longitude := VFloat (reread 6 lo);
                     Aircraft._latitude := VFloat (reread 6 la);
                     Aircraft._on_ground := VBool b;
                     Aircraft._vertical_rate := VFloat (reread 2 vr) |})
  /\ (text_stable r ->
      exists row,
        CSVStorage._aircraft_to_row float_repr r = Ok row
        /\ CSVStorage._row_to_aircraft row = Ok r).
Proof.
  intros Hr Hc Ho.
  assert (Hreads : forall nd x,
             PyFloat.of_string (PyFloat.format_fixed nd x)
             = Some (reread nd x)).
  { intros nd x. unfold reread.
    now destruct (format_fixed_reads nd x) as [y ->]. }
  assert (Hcsv : forall lo la vr b,
             Aircraft._longitude r = VFloat lo ->
             Aircraft._latitude r = VFloat la ->
             Aircraft._vertical_rate r = VFloat vr ->
             Aircraft._on_ground r = VBool b ->
             exists row,
               CSVStorage._aircraft_to_row float_repr r = Ok row
               /\ CSVStorage._row_to_aircraft row
                  = Ok {| Aircraft._callsign := Aircraft.callsign r;
                          Aircraft._origin_country := Aircraft.origin_country r;
                          Aircraft._velocity :=
                            PyFloat.max PyFloat.pos_zero
                              (reread 2 (Aircraft.velocity r));
                          Aircraft._altitude :=
                            PyFloat.max (PyFloat.of_Z (-1000))
                              (reread 2 (Aircraft.altitude r));
                          Aircraft._icao24 := Aircraft._icao24 r;
                          Aircraft._longitude := VFloat (reread 6 lo);
                          Aircraft._latitude := VFloat (reread 6 la);
                          Aircraft._on_ground := VBool b;
                          Aircraft._vertical_rate := VFloat (reread 2 vr) |}).
  { intros lo la vr b Elo Ela Evr Eb.
    unfold CSVStorage._aircraft_to_row.
    rewrite Elo, Ela, Evr, Eb. cbn [Py.format_f rbind Py.str].
    eexists. split; [reflexivity|].
    unfold CSVStorage._row_to_aircraft, Py.item.
    repeat (rewrite lookup_insert_eq || (rewrite lookup_insert_ne by done)).
    cbn [rbind Py.float]. rewrite !Hreads. cbn [rbind].
    replace (PyStr.eqb (PyStr.lower (if b then "True" else "False")) "true")
      with b by (destruct b; reflexivity).
    now rewrite (init_strings _ _ _ _ _ _ _ _ _ Hr Hc Ho). }
  split; [|split; [exact Hcsv|]].
  - unfold Aircraft.from_dict.
    change (Py.get_or (Aircraft.to_dict r) "callsign" (VStr "Unknown"))
      with (VStr (Aircraft.callsign r)).
    change (Py.get_or (Aircraft.to_dict r) "origin_country" (VStr "Unknown"))
      with (VStr (Aircraft.origin_country r)).
    change (Py.get_or (Aircraft.to_dict r) "velocity" (VFloat PyFloat.pos_zero))
      with (VFloat (Aircraft.velocity r)).
    change (Py.get_or (Aircraft.to_dict r) "altitude" (VFloat PyFloat.pos_zero))
      with (VFloat (Aircraft.altitude r)).
    rewrite (init_strings _ _ _ _ _ _ _ _ _ Hr Hc Ho).
    destruct (init_numbers _ _ _ _ _ _ Hr) as [Hv Ha].
    rewrite Hv, Ha. destruct r; reflexivity.
  - intros (Hv & Ha & (lo & Elo & Hlo) & (la & Ela & Hla)
            & (vr & Evr & Hvr) & (b & Eb)).
    destruct Hv as (v' & [= <-] & Hv), Ha as (a' & [= <-] & Ha).
    destruct (Hcsv lo la vr b Elo Ela Evr Eb) as (row & Hrow & Hback).
    exists row. split; [exact Hrow|]. rewrite Hback.
    unfold reread. rewrite Hv, Ha, Hlo, Hla, Hvr.
    cbn [default from_option id].
    destruct (init_numbers _ _ _ _ _ _ Hr) as [Hv' Ha'].
    rewrite Hv', Ha'. destruct r; simpl in *. now subst.
Qed.

(** C1, an instance: the record of the test fixtures. *)
Lemma C1_round_trip_witness :
  text_stable AFL101
  /\ Aircraft.from_dict (Aircraft.to_dict AFL101) = Ok AFL101
  /\ exists row,
       CSVStorage._aircraft_to_row no_repr AFL101 = Ok row
       /\ CSVStorage._row_to_aircraft row = Ok AFL101.
Proof.
  assert (Hs : text_stable AFL101).
  { repeat split; eexists; (split; [reflexivity|]) || idtac;
      vm_compute; reflexivity. }
  destruct (C1_round_trip no_repr (VStr "AFL101") (VStr "Russia")
              (VFloat (flt "280.5")) (VFloat (flt "11000.0"))
              (kwargs_of (VStr "abc123") (VFloat (flt "37.5"))
                 (VFloat (flt "55.75")) (VBool false) (VFloat (flt "10.5")))
              AFL101) as (Hj & _ & Hc).
  - vm_compute. reflexivity.
  - vm_compute. discriminate.
  - vm_compute. discriminate.
  - split; [exact Hs|]. split; [exact Hj|]. exact (Hc Hs).
Defined.

(** ** C6: the callsign after construction *)

(** C6 fails on the code: a callsign made of blanks passes the test
    [not value], is then stripped, and the record is built with the
    empty callsign instead of "Unknown". *)
Theorem C6_blank_callsign_is_kept_empty :
  Aircraft._validate_callsign (VStr "   ") = ""
  /\ exists r,
       Aircraft.__init__ (VStr "   ") (VStr "Russia") (VFloat (flt "100.0"))
         (VFloat (flt "5000.0")) ∅ = Ok r
       /\ Aircraft.callsign r = "".
Proof.
  split; [reflexivity|].
  eexists. split; [vm_compute; reflexivity|]. reflexivity.
Qed.

(** ** C7: validation of the numbers *)

(** C7: velocity -50 is stored as 0.0; altitude -500 is stored as
    -500.0; [validate_altitude(-5000)] is false while the constructor
    stores altitude -5000 as -1000.0; and a velocity and an altitude
    that [float] refuses with [TypeError] or [ValueError] are both
    stored as 0.0, the constructor returning a record. *)
Theorem C7_numeric_validation :
  (forall cs oc kw, exists r,
      Aircraft.__init__ cs oc (VInt (-50)) (VInt 5000) kw = Ok r
      /\ Aircraft.velocity r = PyFloat.pos_zero)
  /\ (forall cs oc kw, exists r,
        Aircraft.__init__ cs oc (VInt 100) (VInt (-500)) kw = Ok r
        /\ Aircraft.altitude r = flt "-500.0")
  /\ validators.validate_altitude (VInt (-5000)) = Ok false
  /\ (forall cs oc kw, exists r,
        Aircraft.__init__ cs oc (VInt 100) (VInt (-5000)) kw = Ok r
        /\ Aircraft.altitude r = flt "-1000.0")
  /\ (forall cs oc v a kw,
        non_numeric v -> non_numeric a ->
        Aircraft._validate_velocity v = Ok PyFloat.pos_zero
        /\ Aircraft._validate_altitude a = Ok PyFloat.pos_zero
        /\ exists r,
             Aircraft.__init__ cs oc v a kw = Ok r
             /\ Aircraft.velocity r = PyFloat.pos_zero
             /\ Aircraft.altitude r = PyFloat.pos_zero).
Proof.
  assert (Hnn : forall v, non_numeric v ->
            exists e, Py.float v = Raise e /\ validators.caught e = true).
  { intros [| | | |s] H; simpl in H; try contradiction.
    - now exists TypeError.
    - exists ValueError. simpl. now rewrite H. }
  split; [intros; eexists; split; reflexivity|].
  split; [intros; eexists; split; reflexivity|].
  split; [reflexivity|].
  split; [intros; eexists; split; reflexivity|].
  intros cs oc v a kw Hv Ha.
  destruct (Hnn v Hv) as (ev & Ev & Cv), (Hnn a Ha) as (ea & Ea & Ca).
  assert (Hvv : Aircraft._validate_velocity v = Ok PyFloat.pos_zero).
  { unfold Aircraft._validate_velocity. now rewrite Ev, Cv. }
  assert (Haa : Aircraft._validate_altitude a = Ok PyFloat.pos_zero).
  { unfold Aircraft._validate_altitude. now rewrite Ea, Ca. }
  split; [exact Hvv|]. split; [exact Haa|].
  unfold Aircraft.__init__. rewrite Hvv, Haa. simpl.
  eexists. split; [reflexivity|]. split; reflexivity.
Qed.

(** C7, an instance: [None] for the velocity and "high" for the
    altitude. *)
Lemma C7_numeric_validation_witness :
  exists r,
    Aircraft.__init__ (VStr "TEST") (VStr "Russia") VNone (VStr "high") ∅
    = Ok r
    /\ Aircraft.velocity r = PyFloat.pos_zero
    /\ Aircraft.altitude r = PyFloat.pos_zero.
Proof.
  destruct C7_numeric_validation as (_ & _ & _ & _ & H).
  destruct (H (VStr "TEST") (VStr "Russia") VNone (VStr "high") ∅)
    as (_ & _ & Hr).
  - exact I.
  - vm_compute. reflexivity.
  - exact Hr.
Defined.

(** ** C3: upsert by key *)

Lemma header_in_to_dict (r : Aircraft.t) (existing : dict) k :
  k ∈ CSVStorage.header ->
  (Aircraft.to_dict r ∪ existing) !! k = Aircraft.to_dict r !! k.
Proof.
  intros Hk.
  assert (Hs : is_Some (Aircraft.to_dict r !! k)).
  { unfold CSVStorage.header in Hk.
    repeat (apply elem_of_cons in Hk as [->|Hk]; [eexists; reflexivity|]).
    now apply elem_of_nil in Hk. }
  destruct Hs as [v Hv]. rewrite Hv. now apply lookup_union_Some_l.
Qed.

(** Counterexample to C3 as stated: a file that cannot be written holds
    one record with the callsign "AFL101", at 0.0625 m/s;
    [add_aircraft] of the aircraft with that callsign at 280.5 m/s
    returns false and leaves the file as it was, so the stored record
    keeps its fields: [get_all()] of the JSON store still gives the slow
    aircraft, and the row of the CSV file still has the velocity
    "0.06".  [_save_data] catches the [IOError] and returns false. *)
Lemma C3_read_only_file_is_not_updated :
  JSONStorage.add_aircraft AFL101 json_read_only = (Ok false, json_read_only)
  /\ fst (JSONStorage.get_all json_read_only) = Ok [AFL101_slow]
  /\ CSVStorage.add_aircraft no_repr AFL101 csv_read_only
     = (Ok false, csv_read_only)
  /\ (exists row,
        CSVStorage._load_data csv_read_only = Ok [row]
        /\ row !! "velocity" = Some (VStr "0.06"))
  /\ Aircraft.callsign AFL101 = Aircraft.callsign AFL101_slow
  /\ Aircraft.velocity AFL101 <> Aircraft.velocity AFL101_slow.
Proof.
  split; [vm_compute; reflexivity|].
  split; [vm_compute; reflexivity|].
  split; [vm_compute; reflexivity|].
  split; [eexists; split; [reflexivity|vm_compute; reflexivity]|].
  split; [reflexivity|].
  vm_compute. discriminate.
Qed.

(** C3 (amended): on a file in the layout of the store that can be
    written, adding a record whose callsign is that of a stored record
    (for the CSV store, a record that [_aircraft_to_row] gives a row)
    returns true, puts the fields of the new record in the place of all
    nine fields of the first record with that callsign, leaves the
    other records as they are, and leaves [count()] unchanged.  In the
    JSON store the nine keys of the matched mapping take the values of
    [to_dict], and the mapping becomes [to_dict] of the record when it
    had no other key; in the CSV store the matched row becomes the row
    of the record as the file holds it. *)
Theorem C3_upsert_replaces_all_fields float_repr :
  (forall d data r,
      json_layout d data ->
      JSONStorage.writable d = true ->
      present (Aircraft.callsign r) data ->
      exists i existing d',
        first_match (Aircraft.callsign r) data i
        /\ data !! i = Some existing
        /\ JSONStorage.add_aircraft r d = (Ok true, d')
        /\ json_layout d' (<[i := Aircraft.to_dict r ∪ existing]> data)
        /\ (forall k, k ∈ CSVStorage.header ->
              (Aircraft.to_dict r ∪ existing) !! k = Aircraft.to_dict r !! k)
        /\ (dom existing ⊆ header_set ->
              Aircraft.to_dict r ∪ existing = Aircraft.to_dict r)
        /\ fst (JSONStorage.count d') = fst (JSONStorage.count d))
  /\ (forall d rows r new_row,
        csv_layout d rows ->
        CSVStorage.writable d = true ->
        CSVStorage._aircraft_to_row float_repr r = Ok new_row ->
        present (Aircraft.callsign r) (CSVStorage.read_rows rows) ->
        exists i d',
          first_match (Aircraft.callsign r) (CSVStorage.read_rows rows) i
          /\ CSVStorage.add_aircraft float_repr r d = (Ok true, d')
          /\ CSVStorage._load_data d'
             = Ok (<[i := as_text float_repr new_row]>
                     (CSVStorage.read_rows rows))
          /\ fst (CSVStorage.count d') = fst (CSVStorage.count d)).
Proof.
  split.
  - intros d data r Hl Hw Hp.
    destruct (present_position _ _ Hp) as [i Hi].
    destruct (upsert_present (union (Aircraft.to_dict r))
                (Aircraft.callsign r) (Aircraft.to_dict r) data i Hi)
      as (e & He & Hu).
    fold (json_upsert data r) in Hu.
    exists i, e.
    eexists {| JSONStorage.file_of := _; JSONStorage.writable := _ |}.
    split; [now apply position_Some|]. split; [exact He|].
    rewrite json_add_aircraft.
    unfold JSONStorage._load_data, JSONStorage._save_data, JSONStorage.count,
      JSONStorage._load_data.
    red in Hl. rewrite Hl, Hw, Hu. cbn [fst JSONStorage.file_of].
    split; [reflexivity|]. split; [reflexivity|].
    split; [intros k; apply header_in_to_dict|].
    split; [|now rewrite length_insert].
    intros Hsub. apply map_eq. intros k.
    destruct (Aircraft.to_dict r !! k) as [v|] eqn:Hk.
    + now apply lookup_union_Some_l.
    + rewrite lookup_union_r by exact Hk.
      apply not_elem_of_dom. intros Hin. apply Hsub in Hin.
      assert (Hs : is_Some (Aircraft.to_dict r !! k)).
      { unfold header_set, CSVStorage.header in Hin.
        apply elem_of_list_to_set in Hin.
        repeat (apply elem_of_cons in Hin as [->|Hin]; [eexists; reflexivity|]).
        now apply elem_of_nil in Hin. }
      rewrite Hk in Hs. now destruct Hs.
  - intros d rows r new_row Hl Hw Hrow Hp.
    destruct (present_position _ _ Hp) as [i Hi].
    destruct (csv_add_aircraft_layout float_repr d rows r new_row Hl Hw Hrow)
      as (d' & Hadd & _ & _ & Hld).
    destruct (upsert_present (fun _ => as_text float_repr new_row)
                (Aircraft.callsign r) (as_text float_repr new_row) _ i Hi)
      as (e & He & Hu).
    fold (csv_upsert (Aircraft.callsign r) (as_text float_repr new_row)
            (CSVStorage.read_rows rows)) in Hu.
    exists i, d'.
    split; [now apply position_Some|]. split; [exact Hadd|].
    rewrite Hu in Hld. split; [exact Hld|].
    unfold CSVStorage.count. rewrite Hld.
    destruct (layout_load d rows Hl) as [-> _]. simpl.
    now rewrite length_insert.
Qed.

(** C3, an instance: the aircraft of the fixtures added to files that
    hold one record with the same callsign. *)
Lemma C3_upsert_replaces_all_fields_witness :
  (exists i existing d',
      first_match "AFL101" [Aircraft.to_dict AFL101_slow] i
      /\ [Aircraft.to_dict AFL101_slow] !! i = Some existing
      /\ JSONStorage.add_aircraft AFL101 json_one_record = (Ok true, d')
      /\ json_layout d'
           (<[i := Aircraft.to_dict AFL101 ∪ existing]>
              [Aircraft.to_dict AFL101_slow])
      /\ fst (JSONStorage.count d') = fst (JSONStorage.count json_one_record))
  /\ (exists new_row i d',
        CSVStorage._aircraft_to_row no_repr AFL101 = Ok new_row
        /\ first_match "AFL101" (CSVStorage.read_rows one_row) i
        /\ CSVStorage.add_aircraft no_repr AFL101 csv_one_row = (Ok true, d')
        /\ CSVStorage._load_data d'
           = Ok (<[i := as_text no_repr new_row]>
                   (CSVStorage.read_rows one_row))
        /\ fst (CSVStorage.count d') = fst (CSVStorage.count csv_one_row)).
Proof.
  destruct (C3_upsert_replaces_all_fields no_repr) as [HJ HC]. split.
  - destruct (HJ json_one_record [Aircraft.to_dict AFL101_slow] AFL101)
      as (i & e & d' & H1 & H2 & H3 & H4 & _ & _ & H5).
    + reflexivity.
    + reflexivity.
    + exists (Aircraft.to_dict AFL101_slow). split; [left|reflexivity].
    + exists i, e, d'. auto.
  - destruct (CSVStorage._aircraft_to_row no_repr AFL101) as [new_row|] eqn:Hrow;
      [|discriminate Hrow].
    destruct (HC csv_one_row one_row AFL101 new_row)
      as (i & d' & H1 & H2 & H3 & H4).
    + split; [reflexivity|]. constructor; [|constructor].
      split; [vm_compute; reflexivity|].
      intros k c Hk. unfold cells_of in Hk.
      repeat (apply lookup_insert_Some in Hk as [[_ <-]|[_ Hk]];
              [eexists; reflexivity|]).
      now rewrite lookup_empty in Hk.
    + reflexivity.
    + exact Hrow.
    + eexists. split; [left|reflexivity].
    + exists new_row, i, d'. auto.
Defined.

(** ** C4: the upsert is idempotent *)

(** C4: a second [add_aircraft] of the same record, run on the file the
    first one left, returns what the first returned and leaves that file
    as it is: [count()] and every stored record, the one of that
    callsign among them, are unchanged.  This holds for the JSON store
    on every file, and for the CSV store on every file in the layout of
    the store. *)
Theorem C4_upsert_idempotent float_repr :
  (forall d r,
      JSONStorage.add_aircraft r (snd (JSONStorage.add_aircraft r d))
      = JSONStorage.add_aircraft r d
      /\ fst (JSONStorage.count
                (snd (JSONStorage.add_aircraft r
                        (snd (JSONStorage.add_aircraft r d)))))
         = fst (JSONStorage.count (snd (JSONStorage.add_aircraft r d))))
  /\ (forall d rows r,
        csv_layout d rows ->
        CSVStorage.add_aircraft float_repr r
          (snd (CSVStorage.add_aircraft float_repr r d))
        = CSVStorage.add_aircraft float_repr r d
        /\ fst (CSVStorage.count
                  (snd (CSVStorage.add_aircraft float_repr r
                          (snd (CSVStorage.add_aircraft float_repr r d)))))
           = fst (CSVStorage.count
                    (snd (CSVStorage.add_aircraft float_repr r d)))).
Proof.
  split.
  - intros d r.
    assert (H : JSONStorage.add_aircraft r (snd (JSONStorage.add_aircraft r d))
                = JSONStorage.add_aircraft r d).
    { rewrite !json_add_aircraft.
      destruct (JSONStorage._load_data d) as [data|e] eqn:Hload.
      - unfold JSONStorage._save_data.
        destruct (JSONStorage.writable d) eqn:Hw; cbn [snd].
        + unfold JSONStorage._load_data.
          cbn [JSONStorage.file_of JSONStorage.writable].
          now rewrite json_upsert_idem.
        + now rewrite Hload, Hw.
      - cbn [snd]. now rewrite Hload. }
    split; [exact H|]. now rewrite H.
  - intros d rows r Hl.
    assert (H : CSVStorage.add_aircraft float_repr r
                  (snd (CSVStorage.add_aircraft float_repr r d))
                = CSVStorage.add_aircraft float_repr r d).
    { destruct (CSVStorage.writable d) eqn:Hw;
        [|now rewrite (csv_add_aircraft_no_write float_repr d rows r Hl)
            by (now left)].
      destruct (CSVStorage._aircraft_to_row float_repr r) as [new_row|e]
        eqn:Hrow;
        [|now rewrite (csv_add_aircraft_no_write float_repr d rows r Hl)
            by (right; now exists e)].
      destruct (csv_add_aircraft_layout float_repr d rows r new_row Hl Hw Hrow)
        as (d1 & Hadd & Hl1 & Hw1 & Hld1).
      rewrite Hadd. cbn [snd].
      destruct (csv_add_aircraft_layout float_repr d1 _ r new_row Hl1 Hw1 Hrow)
        as (d2 & Hadd2 & Hl2 & Hw2 & _).
      rewrite Hadd2. f_equal.
      destruct (layout_load _ _ Hl1) as [Hld1' _].
      rewrite Hld1 in Hld1'. injection Hld1' as Heq.
      rewrite <- Heq, csv_upsert_again in Hl2
        by (apply (aircraft_to_row_facts float_repr r new_row Hrow)).
      destruct Hl1 as [Hf1 _], Hl2 as [Hf2 _].
      destruct d1, d2; simpl in *. congruence. }
    split; [exact H|]. now rewrite H.
Qed.

(** C4, an instance: the aircraft of the fixtures added twice to a CSV
    store just created. *)
Lemma C4_upsert_idempotent_witness :
  CSVStorage.add_aircraft no_repr AFL101
    (snd (CSVStorage.add_aircraft no_repr AFL101 csv_empty))
  = CSVStorage.add_aircraft no_repr AFL101 csv_empty
  /\ fst (CSVStorage.count
            (snd (CSVStorage.add_aircraft no_repr AFL101
                    (snd (CSVStorage.add_aircraft no_repr AFL101 csv_empty)))))
     = fst (CSVStorage.count
              (snd (CSVStorage.add_aircraft no_repr AFL101 csv_empty))).
Proof.
  destruct (C4_upsert_idempotent no_repr) as [_ HC].
  apply (HC csv_empty []).
  split; [reflexivity|constructor].
Defined.

(** ** C5: delete by callsign *)

(** Counterexample to C5 as stated: in a JSON file two records have the
    callsign "AFL101"; [delete_aircraft("AFL101")] removes both, and
    [count()] goes from 2 to 0.  And on a JSON file that cannot be
    written, holding one record with the callsign "AFL101",
    [delete_aircraft("AFL101")] returns false, the result of
    [_save_data], and the file keeps its record. *)
Lemma C5_delete_removes_both :
  fst (JSONStorage.count json_twice) = Ok 2%nat
  /\ (exists d',
        JSONStorage.delete_aircraft "AFL101" json_twice = (Ok true, d')
        /\ fst (JSONStorage.count d') = Ok 0%nat)
  /\ fst (JSONStorage.count json_read_only) = Ok 1%nat
  /\ JSONStorage.delete_aircraft "AFL101" json_read_only
     = (Ok false, json_read_only).
Proof.
  split; [reflexivity|]. split.
  - eexists. split; [vm_compute; reflexivity|]. reflexivity.
  - split; [reflexivity|]. vm_compute. reflexivity.
Qed.

(** C5 (amended): on a file in the layout of the store,
    [delete_aircraft(c)] with a record of callsign [c] present, when the
    file can be written, returns true and removes every record of
    callsign [c], leaving the others unchanged and in their order;
    [count()] becomes the number of the records left, which is less
    than before, and one less when no two stored records have the same
    callsign.  With no record of callsign [c] it returns false and
    leaves the file, hence [count()], as it is, whether the file can be
    written or not.  Both stores. *)
Theorem C5_delete_by_callsign float_repr :
  (forall d data c,
      json_layout d data ->
      (present c data ->
       JSONStorage.writable d = true ->
       exists d',
         JSONStorage.delete_aircraft c d = (Ok true, d')
         /\ json_layout d' (without c data)
         /\ fst (JSONStorage.count d) = Ok (List.length data)
         /\ fst (JSONStorage.count d') = Ok (List.length (without c data))
         /\ (List.length (without c data) < List.length data)%nat
         /\ (unique_callsigns data ->
             S (List.length (without c data)) = List.length data))
      /\ (~ present c data ->
          JSONStorage.delete_aircraft c d = (Ok false, d)))
  /\ (forall d rows c,
        csv_layout d rows ->
        let data := CSVStorage.read_rows rows in
        (present c data ->
         CSVStorage.writable d = true ->
         exists d',
           CSVStorage.delete_aircraft float_repr c d = (Ok true, d')
           /\ CSVStorage._load_data d' = Ok (without c data)
           /\ fst (CSVStorage.count d) = Ok (List.length data)
           /\ fst (CSVStorage.count d') = Ok (List.length (without c data))
           /\ (List.length (without c data) < List.length data)%nat
           /\ (unique_callsigns data ->
               S (List.length (without c data)) = List.length data))
        /\ (~ present c data ->
            CSVStorage.delete_aircraft float_repr c d = (Ok false, d))).
Proof.
  split.
  - intros d data c Hl. rewrite (json_delete d data c Hl). split.
    + intros Hp Hw.
      rewrite (proj2 (ltb_without _ _) Hp).
      unfold JSONStorage._save_data. rewrite Hw.
      eexists. split; [reflexivity|].
      unfold JSONStorage.count, JSONStorage._load_data. red in Hl.
      rewrite Hl. cbn [JSONStorage.file_of fst].
      split; [reflexivity|]. split; [reflexivity|]. split; [reflexivity|].
      split; [now apply without_length_lt|].
      intros Hu. now apply without_unique_length.
    + intros Hp. destruct (_ <? _)%nat eqn:Hlt; [|reflexivity].
      apply ltb_without in Hlt. contradiction.
  - intros d rows c Hl data. split.
    + intros Hp Hw.
      destruct (csv_delete_present float_repr d rows c Hl Hw Hp)
        as (d' & Hdel & _ & _ & Hld).
      exists d'. split; [exact Hdel|]. split; [exact Hld|].
      unfold CSVStorage.count. rewrite Hld.
      destruct (layout_load d rows Hl) as [-> _].
      split; [reflexivity|]. split; [reflexivity|].
      split; [now apply without_length_lt|].
      intros Hu. now apply without_unique_length.
    + intros Hp. now apply (csv_delete_absent float_repr d rows).
Qed.

(** C5, an instance: the one record of a file deleted by its callsign. *)
Lemma C5_delete_by_callsign_witness :
  (exists d',
      JSONStorage.delete_aircraft "AFL101" json_one_record = (Ok true, d')
      /\ fst (JSONStorage.count json_one_record) = Ok 1%nat
      /\ fst (JSONStorage.count d') = Ok 0%nat)
  /\ (exists d',
        CSVStorage.delete_aircraft no_repr "AFL101" csv_one_row = (Ok true, d')
        /\ fst (CSVStorage.count csv_one_row) = Ok 1%nat
        /\ fst (CSVStorage.count d') = Ok 0%nat)
  /\ JSONStorage.delete_aircraft "UAL202" json_one_record
     = (Ok false, json_one_record)
  /\ CSVStorage.delete_aircraft no_repr "UAL202" csv_one_row
     = (Ok false, csv_one_row).
Proof.
  destruct (C5_delete_by_callsign no_repr) as [HJ HC].
  assert (Hlayout : csv_layout csv_one_row one_row).
  { split; [reflexivity|]. constructor; [|constructor].
    split; [vm_compute; reflexivity|].
    intros k c Hk. unfold cells_of in Hk.
    repeat (apply lookup_insert_Some in Hk as [[_ <-]|[_ Hk]];
            [eexists; reflexivity|]).
    now rewrite lookup_empty in Hk. }
  destruct (HJ json_one_record [Aircraft.to_dict AFL101_slow] "AFL101"
              eq_refl) as [HJ1 _].
  destruct (HJ json_one_record [Aircraft.to_dict AFL101_slow] "UAL202"
              eq_refl) as [_ HJ2].
  destruct (HC csv_one_row one_row "AFL101" Hlayout) as [HC1 _].
  destruct (HC csv_one_row one_row "UAL202" Hlayout) as [_ HC2].
  split; [|split; [|split]].
  - destruct HJ1 as (d' & H1 & _ & H3 & H4 & _).
    + exists (Aircraft.to_dict AFL101_slow). split; [left|reflexivity].
    + reflexivity.
    + exists d'. auto.
  - destruct HC1 as (d' & H1 & _ & H3 & H4 & _).
    + eexists. split; [left|reflexivity].
    + reflexivity.
    + exists d'. auto.
  - apply HJ2. intros (x & Hx & Hcx).
    apply list_elem_of_singleton in Hx as ->. discriminate Hcx.
  - apply HC2. intros (x & Hx & Hcx).
    apply list_elem_of_singleton in Hx as ->. discriminate Hcx.
Defined.

(** ** C9: callsign is a key of the stored collection *)

(** C9: from the file a store creates, whatever operations
    [add_aircraft], [add_multiple_aircraft], [delete_aircraft] and
    [clear] are run, each with the file writable or not when it runs,
    the file holds records no two of which have the same callsign.  This
    holds for both stores, and comes from their logic: a file of the
    format itself can hold two records with one callsign. *)
Theorem C9_callsign_is_a_key float_repr :
  (forall steps,
      exists data,
        JSONStorage._load_data
          (json_run steps (JSONStorage.__init__ json_nothing)) = Ok data
        /\ unique_callsigns data)
  /\ (forall steps,
        exists data,
          CSVStorage._load_data
            (csv_run float_repr steps (snd (CSVStorage.__init__ csv_nothing)))
          = Ok data
          /\ unique_callsigns data)
  /\ (exists data,
        JSONStorage._load_data json_twice = Ok data
        /\ ~ unique_callsigns data).
Proof.
  split; [|split].
  - intros steps. apply json_run_keeps.
    exists []. split; [reflexivity|apply NoDup_nil_2].
  - intros steps.
    destruct (csv_run_keeps float_repr steps
                (snd (CSVStorage.__init__ csv_nothing)))
      as (rows & Hl & Hu).
    + exists []. split; [split; [reflexivity|constructor]|apply NoDup_nil_2].
    + exists (CSVStorage.read_rows rows). split; [|exact Hu].
      now destruct (layout_load _ _ Hl).
  - eexists. split; [reflexivity|].
    unfold unique_callsigns. intros Hnd.
    apply NoDup_cons in Hnd as [Hnotin _]. apply Hnotin. left.
Qed.

(** ** C10: the count returned by [add_multiple_aircraft] *)

(** Where [add_multiple_aircraft] returns a count, it is the length of
    the list it is given, inserts and updates alike, whether the file
    can then be written or not (when it cannot, the file is left as it
    was and the same count is returned): so the JSON store on every
    file it can read, and the CSV store on every file in the layout of
    the store when every record of the list has a row.  The CSV store
    returns 0 for the empty list and does not touch the file, whatever
    the file is. *)
Lemma add_multiple_returns_length float_repr :
  (forall l d data,
      JSONStorage._load_data d = Ok data ->
      fst (JSONStorage.add_multiple_aircraft l d) = Ok (List.length l)
      /\ (JSONStorage.writable d = false ->
          JSONStorage.add_multiple_aircraft l d = (Ok (List.length l), d)))
  /\ (forall l d rows,
        csv_layout d rows ->
        Forall (fun a => exists row,
                  CSVStorage._aircraft_to_row float_repr a = Ok row) l ->
        fst (CSVStorage.add_multiple_aircraft float_repr l d)
        = Ok (List.length l)
        /\ (CSVStorage.writable d = false ->
            CSVStorage.add_multiple_aircraft float_repr l d
            = (Ok (List.length l), d)))
  /\ (forall d,
        CSVStorage.add_multiple_aircraft float_repr [] d = (Ok 0%nat, d)).
Proof.
  split; [|split].
  - intros l d data Hload.
    unfold JSONStorage.add_multiple_aircraft.
    rewrite Hload, json_add_each. unfold JSONStorage._save_data.
    destruct (JSONStorage.writable d); split; try reflexivity; discriminate.
  - intros l d rows Hl Hrows.
    destruct l as [|a l]; [split; reflexivity|].
    destruct (layout_load _ _ Hl) as [Hload Hdata].
    assert (Hk : Forall keyed (CSVStorage.read_rows rows))
      by (eapply Forall_impl; [exact Hdata|apply loaded_keyed]).
    unfold CSVStorage.add_multiple_aircraft. rewrite Hload.
    destruct (index_rows_bounded (CSVStorage.read_rows rows) 0 [] Hk)
      as (ix & -> & Hb); [constructor|].
    cbn [rbind].
    destruct (csv_add_each_total float_repr
                (fun row => dom row = header_set) (a :: l))
      with (data := CSVStorage.read_rows rows) (ix := ix) (n := 0%nat)
      as (data' & -> & Hdom).
    + eapply Forall_impl; [exact Hrows|]. intros a' [row Hrow].
      exists row. split; [exact Hrow|].
      apply (aircraft_to_row_facts float_repr a' row Hrow).
    + exact Hb.
    + eapply Forall_impl; [exact Hdata|]. now intros row [? _].
    + unfold CSVStorage._save_data.
      destruct (CSVStorage.writable d); [|split; reflexivity].
      split; [|discriminate].
      destruct data' as [|first rest]; [reflexivity|].
      assert (Hwr : CSVStorage.write_rows float_repr (dom first) (first :: rest)
                    = (CSVStorage.write_row float_repr (dom first)
                       <$> first :: rest, None)).
      { assert (Hf : dom first = header_set) by (now inversion Hdom).
        rewrite Hf. clear Hf.
        induction Hdom as [|row data Hrow _ IH]; [reflexivity|].
        rewrite fmap_cons. cbn [CSVStorage.write_rows].
        rewrite bool_decide_eq_true_2 by (now rewrite Hrow).
        now rewrite IH. }
      now rewrite Hwr.
  - intros d. reflexivity.
Qed.

(** An instance: three records, two of them with one callsign, added to
    stores just created. *)
Lemma add_multiple_returns_length_instance :
  fst (JSONStorage.add_multiple_aircraft [AFL101; AFL101_slow; AFL101]
         json_empty) = Ok 3%nat
  /\ fst (CSVStorage.add_multiple_aircraft no_repr
            [AFL101; AFL101_slow; AFL101] csv_empty) = Ok 3%nat.
Proof.
  destruct (add_multiple_returns_length no_repr) as (HJ & HC & _). split.
  - apply (HJ [AFL101; AFL101_slow; AFL101] json_empty []). reflexivity.
  - apply (HC [AFL101; AFL101_slow; AFL101] csv_empty []).
    + split; [reflexivity|constructor].
    + repeat constructor; eexists; vm_compute; reflexivity.
Defined.

(** C10 fails on the code: a state that the API returns for an aircraft
    whose position is not known has [None] for the longitude and the
    latitude; [process_aircraft_data] keeps the two as they are (it puts
    0.0 in the place of a missing altitude, velocity or vertical rate
    only) and [cast_to_object_list] makes a record of the state.  With
    that record in the list, [add_multiple_aircraft] of the CSV store
    raises [TypeError] from [_aircraft_to_row], which formats the
    longitude with six decimals: it returns no count, where the claim
    has the length of the list, 2, and the file is left as it was.  The
    JSON store returns 2 for the same list, and the CSV store returns 1
    for the list of the other record alone. *)
Theorem C10_batch_without_position_raises :
  AircraftAPI.process_aircraft_data [state_without_position]
  = Ok [processed_without_position]
  /\ Aircraft.cast_to_object_list [processed_without_position]
     = Ok [record_without_position]
  /\ CSVStorage.add_multiple_aircraft no_repr [AFL101; record_without_position]
       csv_empty
     = (Raise TypeError, csv_empty)
  /\ fst (JSONStorage.add_multiple_aircraft [AFL101; record_without_position]
            json_empty)
     = Ok 2%nat
  /\ fst (CSVStorage.add_multiple_aircraft no_repr [AFL101] csv_empty)
     = Ok 1%nat.
Proof.
  split; [reflexivity|].
  split; [vm_compute; reflexivity|].
  split; [vm_compute; reflexivity|].
  split; vm_compute; reflexivity.
Qed.

(** ** C2: no exception leaves the store *)

(** C2 fails on the code: a CSV file whose one row has the text "abc"
    for the velocity is counted as one record, not as an empty store,
    and [get_all()] on it raises [ValueError] from [_row_to_aircraft];
    and [count()] on a JSON file that may not be read raises
    [PermissionError], which [_load_data] does not catch. *)
Theorem C2_exceptions_leave_the_store :
  fst (CSVStorage.count csv_with_bad_velocity) = Ok 1%nat
  /\ fst (CSVStorage.get_all csv_with_bad_velocity) = Raise ValueError
  /\ fst (JSONStorage.count json_denied) = Raise PermissionError.
Proof. repeat split; vm_compute; reflexivity. Qed.

(** ** C8: retrieval by criteria *)

(** Counterexample to C8 as stated: the velocity cell "abc" of a CSV row
    cannot be read as a number; the criterion velocity = 0.0 takes the
    row as a match, and [get_aircraft] then raises [ValueError] instead
    of returning no record. *)
Lemma C8_unreadable_number_compares_as_zero :
  CSVStorage.coerce "velocity" (VStr "abc") = Ok (VFloat PyFloat.pos_zero)
  /\ (exists row,
        CSVStorage._load_data csv_with_bad_velocity = Ok [row]
        /\ CSVStorage.row_matches row [("velocity", VFloat PyFloat.pos_zero)]
           = Ok true)
  /\ fst (CSVStorage.get_aircraft
            (Some [("velocity", VFloat PyFloat.pos_zero)])
            csv_with_bad_velocity)
     = Raise ValueError.
Proof.
  split; [vm_compute; reflexivity|]. split.
  - eexists. split; [vm_compute; reflexivity|]. vm_compute. reflexivity.
  - vm_compute. reflexivity.
Qed.

(** C8 (amended): on a file the store can read, [get_aircraft(criteria)]
    selects, in the order of the file, exactly the stored records that
    match every criterion, all of them when the criteria are [None] or
    empty, and converts the selected ones to records.  In the JSON store
    a record matches a criterion when it has the key with an equal
    value.  In the CSV store the value of a criterion on a number is
    compared with the float read from the text of the cell, taken as 0.0
    when the cell is empty or its text is not that of a number, and the
    value of a criterion on [on_ground] with whether the text is "true"
    in any case. *)
Theorem C8_get_aircraft_by_criteria :
  (forall d data criteria,
      JSONStorage._load_data d = Ok data ->
      JSONStorage.get_aircraft criteria d
      = (Aircraft.cast_to_object_list
           (List.filter (json_matches (default [] criteria)) data), d))
  /\ (forall d data criteria,
        CSVStorage._load_data d = Ok data ->
        CSVStorage.get_aircraft criteria d
        = (rmap CSVStorage._row_to_aircraft
             (List.filter (csv_matches (default [] criteria)) data), d))
  /\ (forall key s,
        key ∈ CSVStorage.numeric_keys ->
        PyFloat.of_string s = None ->
        CSVStorage.coerce key (VStr s) = Ok (VFloat PyFloat.pos_zero))
  /\ (forall s,
        CSVStorage.coerce "on_ground" (VStr s)
        = Ok (VBool (PyStr.eqb (PyStr.lower s) "true"))).
Proof.
  split; [|split; [|split]].
  - intros d data criteria Hload.
    unfold JSONStorage.get_aircraft. rewrite Hload.
    destruct criteria as [[|c cs]|]; simpl default.
    + now rewrite filter_all.
    + now rewrite filter_items_spec.
    + now rewrite filter_all.
  - intros d data criteria Hload.
    unfold CSVStorage.get_aircraft. rewrite Hload.
    destruct criteria as [[|c cs]|]; simpl default.
    + now rewrite filter_all.
    + now rewrite (select_rows_spec _ _ (csv_load_cells _ _ Hload)).
    + now rewrite filter_all.
  - intros key s Hkey Hs.
    rewrite coerce_cell by (right; now exists s).
    unfold csv_compared. rewrite bool_decide_eq_true_2 by exact Hkey.
    now rewrite Hs.
  - intros s. rewrite coerce_cell by (right; now exists s).
    reflexivity.
Qed.

(** C8, an instance: the criteria of the test suite on files with one
    record, and the text "abc" as an altitude. *)
Lemma C8_get_aircraft_by_criteria_witness :
  JSONStorage.get_aircraft
    (Some [("origin_country", VStr "Russia"); ("on_ground", VBool false)])
    json_one_record
  = (Ok [AFL101_slow], json_one_record)
  /\ fst (CSVStorage.get_aircraft
            (Some [("origin_country", VStr "Russia"); ("on_ground", VBool true)])
            csv_one_row)
     = Ok []
  /\ CSVStorage.coerce "altitude" (VStr "abc") = Ok (VFloat PyFloat.pos_zero).
Proof.
  destruct C8_get_aircraft_by_criteria as (HJ & HC & HN & _).
  split; [|split].
  - rewrite (HJ json_one_record [Aircraft.to_dict AFL101_slow]); reflexivity.
  - rewrite (HC csv_one_row (CSVStorage.read_rows one_row)); reflexivity.
  - apply HN; [|reflexivity].
    unfold CSVStorage.numeric_keys. set_solver.
Defined.

(** * Further properties of the code *)

(** ** The order of floats *)

Lemma compare_cont_flip m1 m2 :
  Pos.compare_cont Eq m2 m1 = CompOpp (Pos.compare_cont Eq m1 m2).
Proof. now rewrite (Pos.compare_cont_antisym m1 m2 Eq). Qed.

Lemma SFcompare_antisym x y :
  SFcompare y x = CompOpp <$> SFcompare x y.
Proof.
  destruct x as [sx|sx| |sx mx ex], y as [sy|sy| |sy my ey]; simpl;
    try reflexivity; try (destruct sx; reflexivity);
    try (destruct sy; reflexivity); try (destruct sx, sy; reflexivity).
  destruct sx, sy; simpl; try reflexivity;
    rewrite (Z.compare_antisym ex ey); destruct (ex ?= ey)%Z; simpl;
    try reflexivity; rewrite (compare_cont_flip mx my);
    now destruct (Pos.compare_cont Eq mx my).
Qed.

Lemma ltb_leb x y : PyFloat.ltb x y = true -> PyFloat.leb x y = true.
Proof.
  unfold PyFloat.ltb, PyFloat.leb, SFltb, SFleb.
  now destruct (SFcompare x y) as [[]|].
Qed.

Lemma leb_not_nan x y :
  PyFloat.leb x y = true ->
  PyFloat.is_nan x = false /\ PyFloat.is_nan y = false.
Proof.
  unfold PyFloat.leb, SFleb.
  destruct x, y; simpl; try discriminate; now split.
Qed.

(** Two floats that are not NaN compare one way or the other. *)
Lemma ltb_negb_leb x y :
  PyFloat.is_nan x = false -> PyFloat.is_nan y = false ->
  PyFloat.ltb x y = negb (PyFloat.leb y x).
Proof.
  intros Hx Hy. unfold PyFloat.ltb, PyFloat.leb, SFltb, SFleb.
  rewrite (SFcompare_antisym x y).
  destruct (SFcompare x y) as [[]|] eqn:E; try reflexivity.
  destruct x, y; try discriminate; simpl in E;
    repeat match type of E with
           | context [if ?b then _ else _] => destruct b
           | context [match ?b with true => _ | false => _ end] => destruct b
           end; discriminate.
Qed.

Lemma leb_total x y :
  PyFloat.is_nan x = false -> PyFloat.is_nan y = false ->
  PyFloat.leb x y = true \/ PyFloat.leb y x = true.
Proof.
  intros Hx Hy. pose proof (ltb_negb_leb y x Hy Hx) as H.
  destruct (PyFloat.leb x y) eqn:E; [now left|right].
  apply ltb_leb. now rewrite H.
Qed.

Lemma leb_trans x y z :
  PyFloat.leb x y = true -> PyFloat.leb y z = true -> PyFloat.leb x z = true.
Proof.
  unfold PyFloat.leb, SFleb.
  destruct x as [sx|sx| |sx mx ex], y as [sy|sy| |sy my ey],
    z as [sz|sz| |sz mz ez]; simpl; try discriminate; try reflexivity;
    try (destruct sx; try discriminate; try reflexivity);
    try (destruct sy; try discriminate; try reflexivity);
    try (destruct sz; try discriminate; try reflexivity).
  all: change (Pos.compare_cont Eq) with Pos.compare.
  all: destruct (Z.compare_spec ex ey), (Z.compare_spec ey ez),
      (Z.compare_spec ex ez); subst; try lia; try discriminate;
      try reflexivity.
  all: destruct (Pos.compare_spec mx my), (Pos.compare_spec my mz),
      (Pos.compare_spec mx mz); subst; simpl; try lia; try discriminate;
      try reflexivity.
Qed.

Lemma ltb_zero_signbit x :
  PyFloat.ltb PyFloat.pos_zero x = true -> PyFloat.signbit x = false.
Proof. destruct x as [s|s| |s m e]; try destruct s; now vm_compute. Qed.

Lemma leb_zero_of_signbit x :
  PyFloat.signbit x = false -> PyFloat.is_nan x = false ->
  PyFloat.leb PyFloat.pos_zero x = true.
Proof. destruct x as [s|s| |s m e]; simpl; intros; subst; now vm_compute. Qed.

(** ** The record type *)

Lemma validate_velocity_bounds value x :
  Aircraft._validate_velocity value = Ok x ->
  PyFloat.leb PyFloat.pos_zero x = true /\ PyFloat.signbit x = false.
Proof.
  unfold Aircraft._validate_velocity, PyFloat.max.
  destruct (Py.float value) as [val|e].
  - destruct (PyFloat.ltb PyFloat.pos_zero val) eqn:E; intros [= <-].
    + split; [now apply ltb_leb | now apply ltb_zero_signbit].
    + now vm_compute.
  - destruct (validators.caught e); intros [= <-]. now vm_compute.
Qed.

Lemma validate_altitude_bounds value x :
  Aircraft._validate_altitude value = Ok x ->
  PyFloat.leb (PyFloat.of_Z (-1000)) x = true.
Proof.
  unfold Aircraft._validate_altitude, PyFloat.max.
  destruct (Py.float value) as [val|e].
  - destruct (PyFloat.ltb (PyFloat.of_Z (-1000)) val) eqn:E; intros [= <-].
    + now apply ltb_leb.
    + now vm_compute.
  - destruct (validators.caught e); intros [= <-]. now vm_compute.
Qed.

Lemma init_inv callsign origin_country velocity altitude kwargs r :
  Aircraft.__init__ callsign origin_country velocity altitude kwargs = Ok r ->
  exists v a,
    Aircraft._validate_velocity velocity = Ok v
    /\ Aircraft._validate_altitude altitude = Ok a
    /\ Aircraft.velocity r = v /\ Aircraft.altitude r = a
    /\ Aircraft.callsign r = Aircraft._validate_callsign callsign
    /\ Aircraft.origin_country r = Aircraft._validate_country origin_country.
Proof.
  unfold Aircraft.__init__.
  destruct (Aircraft._validate_velocity velocity) as [v|e]; [|discriminate].
  destruct (Aircraft._validate_altitude altitude) as [a|e]; [|discriminate].
  simpl. intros [= <-]. now exists v, a.
Qed.

Lemma init_in_bounds callsign origin_country velocity altitude kwargs r :
  Aircraft.__init__ callsign origin_country velocity altitude kwargs = Ok r ->
  in_bounds r.
Proof.
  intros H.
  destruct (init_inv _ _ _ _ _ _ H) as (v & a & Hv & Ha & Ev & Ea & _).
  destruct (validate_velocity_bounds _ _ Hv). unfold in_bounds.
  rewrite Ev, Ea. eauto using validate_altitude_bounds.
Qed.

(** X1. A record the constructor returns has a velocity of at least 0.0
    that is not [-0.0] and an altitude of at least -1000.0, whatever the
    arguments were; in particular neither number is NaN. *)
Theorem X1_constructor_bounds callsign origin_country velocity altitude kwargs r :
  Aircraft.__init__ callsign origin_country velocity altitude kwargs = Ok r ->
  in_bounds r.
Proof. apply init_in_bounds. Qed.

Lemma X1_constructor_bounds_witness : in_bounds AFL101.
Proof.
  apply (X1_constructor_bounds (VStr "AFL101") (VStr "Russia")
           (VFloat (flt "280.5")) (VFloat (flt "11000.0"))
           (kwargs_of (VStr "abc123") (VFloat (flt "37.5"))
              (VFloat (flt "55.75")) (VBool false) (VFloat (flt "10.5")))).
  vm_compute. reflexivity.
Defined.

(** X2. The setters of velocity and altitude keep the bounds of the
    constructor, and change no other field of the record. *)
Theorem X2_setters_keep_bounds self value r :
  in_bounds self ->
  (Aircraft.velocity_setter self value = Ok r ->
   in_bounds r
   /\ Aircraft.to_dict r
      = <["velocity" := VFloat (Aircraft.velocity r)]> (Aircraft.to_dict self))
  /\ (Aircraft.altitude_setter self value = Ok r ->
      in_bounds r
      /\ Aircraft.to_dict r
         = <["altitude" := VFloat (Aircraft.altitude r)]> (Aircraft.to_dict self)).
Proof.
  intros (Hv & Hs & Ha). split.
  - unfold Aircraft.velocity_setter.
    destruct (Aircraft._validate_velocity value) as [v|e] eqn:E; [|discriminate].
    simpl. intros [= <-]. destruct (validate_velocity_bounds _ _ E).
    split; [now repeat split|].
    unfold Aircraft.to_dict. simpl.
    rewrite (insert_insert_ne _ "velocity" "callsign") by done.
    rewrite (insert_insert_ne _ "velocity" "origin_country") by done.
    now rewrite insert_insert_eq.
  - unfold Aircraft.altitude_setter.
    destruct (Aircraft._validate_altitude value) as [a|e] eqn:E; [|discriminate].
    simpl. intros [= <-]. pose proof (validate_altitude_bounds _ _ E).
    split; [now repeat split|].
    unfold Aircraft.to_dict. simpl.
    rewrite (insert_insert_ne _ "altitude" "callsign") by done.
    rewrite (insert_insert_ne _ "altitude" "origin_country") by done.
    rewrite (insert_insert_ne _ "altitude" "velocity") by done.
    now rewrite insert_insert_eq.
Qed.

Lemma X2_setters_keep_bounds_witness :
  in_bounds AFL101
  /\ exists r,
       Aircraft.velocity_setter AFL101 (VInt (-5)) = Ok r /\ in_bounds r.
Proof.
  assert (H : in_bounds AFL101) by (repeat split; vm_compute; reflexivity).
  split; [exact H|]. eexists. split; [vm_compute; reflexivity|].
  apply (proj1 (X2_setters_keep_bounds AFL101 (VInt (-5)) _ H)).
  vm_compute. reflexivity.
Defined.

Lemma float_raises v e :
  Py.float v = Raise e ->
  validators.caught e = true \/ (e = OverflowError /\ too_big v).
Proof.
  destruct v as [|b|z|x|s]; simpl.
  - intros [= <-]. now left.
  - intros H. destruct b; vm_compute in H; discriminate H.
  - unfold Py.float_of_int.
    destruct (Py.is_infinite (PyFloat.of_Z z)) eqn:E; [|discriminate].
    intros [= <-]. right. split; [reflexivity|]. now exists z.
  - discriminate.
  - destruct (PyFloat.of_string s); [discriminate|]. intros [= <-]. now left.
Qed.

Lemma float_too_big v : too_big v -> Py.float v = Raise OverflowError.
Proof.
  intros (z & -> & H). simpl. unfold Py.float_of_int. now rewrite H.
Qed.

Lemma validate_velocity_raises v e :
  Aircraft._validate_velocity v = Raise e -> e = OverflowError /\ too_big v.
Proof.
  unfold Aircraft._validate_velocity.
  destruct (Py.float v) as [x|e'] eqn:E; [discriminate|].
  destruct (float_raises _ _ E) as [H|[-> H]].
  - now rewrite H.
  - now intros [= <-].
Qed.

Lemma validate_altitude_raises v e :
  Aircraft._validate_altitude v = Raise e -> e = OverflowError /\ too_big v.
Proof.
  unfold Aircraft._validate_altitude.
  destruct (Py.float v) as [x|e'] eqn:E; [discriminate|].
  destruct (float_raises _ _ E) as [H|[-> H]].
  - now rewrite H.
  - now intros [= <-].
Qed.

(** X3. The constructor raises exactly when the velocity or the altitude
    is an [int] too large for a float, and then it raises
    [OverflowError]; any other arguments give a record. *)
Theorem X3_constructor_raises callsign origin_country velocity altitude kwargs :
  (too_big velocity \/ too_big altitude ->
   Aircraft.__init__ callsign origin_country velocity altitude kwargs
   = Raise OverflowError)
  /\ (forall e,
        Aircraft.__init__ callsign origin_country velocity altitude kwargs
        = Raise e ->
        e = OverflowError /\ (too_big velocity \/ too_big altitude)).
Proof.
  unfold Aircraft.__init__. split.
  - intros [H|H].
    + unfold Aircraft._validate_velocity at 1. now rewrite (float_too_big _ H).
    + destruct (Aircraft._validate_velocity velocity) as [v|e] eqn:E.
      * simpl. unfold Aircraft._validate_altitude.
        now rewrite (float_too_big _ H).
      * now destruct (validate_velocity_raises _ _ E) as [-> _].
  - intros e.
    destruct (Aircraft._validate_velocity velocity) as [v|e1] eqn:E1.
    + destruct (Aircraft._validate_altitude altitude) as [a|e2] eqn:E2;
        [discriminate|].
      simpl. intros [= <-].
      destruct (validate_altitude_raises _ _ E2). auto.
    + simpl. intros [= <-].
      destruct (validate_velocity_raises _ _ E1). auto.
Qed.

Lemma X3_constructor_raises_witness :
  Aircraft.__init__ (VStr "AFL101") (VStr "Russia") (VInt (2 ^ 1024))
    (VInt 11000) ∅
  = Raise OverflowError.
Proof.
  apply (proj1 (X3_constructor_raises (VStr "AFL101") (VStr "Russia")
                  (VInt (2 ^ 1024)) (VInt 11000) ∅)).
  left. exists (2 ^ 1024)%Z. split; [reflexivity|]. vm_compute. reflexivity.
Defined.

Lemma in_bounds_not_nan r :
  in_bounds r ->
  PyFloat.is_nan (Aircraft.velocity r) = false
  /\ PyFloat.is_nan (Aircraft.altitude r) = false.
Proof.
  intros (Hv & _ & Ha).
  split; [apply (leb_not_nan _ _ Hv) | apply (leb_not_nan _ _ Ha)].
Qed.

(** X4. On records that keep the bounds of the constructor the
    comparison methods order by velocity as a total preorder: of two
    records one is [<=] the other, [<=] is transitive, and [<] and [>]
    are the negations of [>=] and [<=]. *)
Theorem X4_velocity_order_total r1 r2 r3 :
  in_bounds r1 -> in_bounds r2 -> in_bounds r3 ->
  (Aircraft.__le__ r1 (Aircraft.IsAircraft r2) = Some true
   \/ Aircraft.__le__ r2 (Aircraft.IsAircraft r1) = Some true)
  /\ (Aircraft.__le__ r1 (Aircraft.IsAircraft r2) = Some true ->
      Aircraft.__le__ r2 (Aircraft.IsAircraft r3) = Some true ->
      Aircraft.__le__ r1 (Aircraft.IsAircraft r3) = Some true)
  /\ Aircraft.__lt__ r1 (Aircraft.IsAircraft r2)
     = negb <$> Aircraft.__ge__ r1 (Aircraft.IsAircraft r2)
  /\ Aircraft.__gt__ r1 (Aircraft.IsAircraft r2)
     = negb <$> Aircraft.__le__ r1 (Aircraft.IsAircraft r2).
Proof.
  intros H1 H2 H3.
  destruct (in_bounds_not_nan _ H1) as [N1 _].
  destruct (in_bounds_not_nan _ H2) as [N2 _].
  unfold Aircraft.__le__, Aircraft.__lt__, Aircraft.__ge__, Aircraft.__gt__.
  simpl. repeat split.
  - destruct (leb_total _ _ N1 N2) as [H|H]; rewrite H; auto.
  - intros [= Ha] [= Hb]. now rewrite (leb_trans _ _ _ Ha Hb).
  - now rewrite (ltb_negb_leb _ _ N1 N2).
  - now rewrite (ltb_negb_leb _ _ N2 N1).
Qed.

Lemma X4_velocity_order_total_witness :
  Aircraft.__lt__ AFL101_slow (Aircraft.IsAircraft AFL101)
  = negb <$> Aircraft.__ge__ AFL101_slow (Aircraft.IsAircraft AFL101).
Proof.
  assert (H1 : in_bounds AFL101_slow) by (repeat split; vm_compute; reflexivity).
  assert (H2 : in_bounds AFL101) by (repeat split; vm_compute; reflexivity).
  exact (proj1 (proj2 (proj2
           (X4_velocity_order_total AFL101_slow AFL101 AFL101 H1 H2 H2)))).
Defined.

Lemma round_aux_abs s m e l :
  SFabs (binary_round_aux PyFloat.prec PyFloat.emax s m e l)
  = SFabs (binary_round_aux PyFloat.prec PyFloat.emax false m e l).
Proof.
  unfold binary_round_aux.
  destruct (shr_fexp _ _ m e l) as [mrs' e'].
  destruct (shr_fexp _ _ _ e' loc_Exact) as [mrs'' e''].
  destruct (shr_m mrs''); try reflexivity.
  now destruct (_ <=? _)%Z.
Qed.

Lemma normalize_abs_opp z e :
  SFabs (binary_normalize PyFloat.prec PyFloat.emax (- z) e false)
  = SFabs (binary_normalize PyFloat.prec PyFloat.emax z e false).
Proof.
  destruct z as [|p|p]; simpl; try reflexivity; unfold binary_round;
    destruct (shl_align _ _ _) as [mz ez];
    [|symmetry]; apply round_aux_abs.
Qed.

Lemma abs_sub_comm x y :
  PyFloat.abs (PyFloat.sub x y) = PyFloat.abs (PyFloat.sub y x).
Proof.
  unfold PyFloat.abs, PyFloat.sub.
  destruct x as [sx|sx| |sx mx ex], y as [sy|sy| |sy my ey]; simpl;
    try reflexivity; try (now destruct sx, sy).
  rewrite (Z.min_comm ey ex), <- normalize_abs_opp. f_equal. f_equal. lia.
Qed.

Lemma str_eqb_comm a b : PyStr.eqb a b = PyStr.eqb b a.
Proof. unfold PyStr.eqb. apply bool_decide_ext. split; congruence. Qed.

(** X5. [==] on records is symmetric. *)
Theorem X5_eq_symmetric (a b : Aircraft.t) :
  Aircraft.__eq__ a (Aircraft.IsAircraft b)
  = Aircraft.__eq__ b (Aircraft.IsAircraft a).
Proof.
  unfold Aircraft.__eq__.
  now rewrite (str_eqb_comm (Aircraft.callsign a)),
    (str_eqb_comm (Aircraft.origin_country a)),
    (abs_sub_comm (Aircraft.velocity a)), (abs_sub_comm (Aircraft.altitude a)).
Qed.

Lemma sub_self_lt x c :
  PyFloat.ltb PyFloat.pos_zero c = true ->
  PyFloat.ltb (PyFloat.abs (PyFloat.sub x x)) c = is_finite x.
Proof.
  intros Hc. unfold PyFloat.abs, PyFloat.sub.
  destruct x as [s|s| |s m e]; simpl.
  - now destruct s.
  - now destruct s.
  - reflexivity.
  - now rewrite Z.sub_diag.
Qed.

(** X6. A record is [==] to itself exactly when its velocity and its
    altitude are finite: with an infinite velocity or altitude (or NaN)
    the difference is NaN and the record is not equal to itself. *)
Theorem X6_eq_reflexive_iff_finite (a : Aircraft.t) :
  Aircraft.__eq__ a (Aircraft.IsAircraft a)
  = is_finite (Aircraft.velocity a) && is_finite (Aircraft.altitude a).
Proof.
  unfold Aircraft.__eq__.
  unfold PyStr.eqb. rewrite !bool_decide_eq_true_2 by reflexivity.
  now rewrite !sub_self_lt by (vm_compute; reflexivity).
Qed.

(** ** The validators *)

Lemma SFcompare_refl x : PyFloat.is_nan x = false -> SFcompare x x = Some Eq.
Proof.
  destruct x as [s|s| |s m e]; simpl; try discriminate; intros _;
    try (now destruct s).
  destruct s; rewrite Z.compare_refl;
    change (Pos.compare_cont Eq m m) with (Pos.compare m m);
    now rewrite Pos.compare_refl.
Qed.

Lemma max_eqb a x :
  PyFloat.leb a x = true -> PyFloat.eqb (PyFloat.max a x) x = true.
Proof.
  intros H. destruct (leb_not_nan _ _ H) as [_ Hx].
  unfold PyFloat.max, PyFloat.ltb, PyFloat.eqb, SFltb, SFeqb.
  revert H. unfold PyFloat.leb, SFleb.
  destruct (SFcompare a x) as [[]|] eqn:E; try discriminate; intros _.
  - now rewrite E.
  - now rewrite SFcompare_refl.
Qed.

Lemma between_finite a b x :
  is_finite a = true -> is_finite b = true ->
  PyFloat.leb a x = true -> PyFloat.leb x b = true -> is_finite x = true.
Proof.
  unfold PyFloat.leb, SFleb.
  destruct x as [s|s| |s m e]; try reflexivity; try discriminate;
    destruct a as [sa|sa| |sa ma ea], b as [sb|sb| |sb mb eb];
    try discriminate; destruct s; simpl; try discriminate;
    try (destruct sa; discriminate); try (destruct sb; discriminate).
Qed.

(** X7. A velocity or an altitude the validators accept is a finite
    number that the constructor keeps: what it stores is equal to
    [float] of the argument, with no clamping. *)
Theorem X7_valid_numbers_are_kept value :
  (validators.validate_velocity value = Ok true ->
   exists x x',
     Py.float value = Ok x /\ is_finite x = true
     /\ Aircraft._validate_velocity value = Ok x'
     /\ PyFloat.eqb x' x = true)
  /\ (validators.validate_altitude value = Ok true ->
      exists x x',
        Py.float value = Ok x /\ is_finite x = true
        /\ Aircraft._validate_altitude value = Ok x'
        /\ PyFloat.eqb x' x = true).
Proof.
  unfold validators.validate_velocity, validators.validate_altitude,
    Aircraft._validate_velocity, Aircraft._validate_altitude.
  destruct (Py.float value) as [x|e].
  - split; intros [= H]; apply andb_true_iff in H as [H1 H2].
    + exists x, (PyFloat.max PyFloat.pos_zero x).
      split; [reflexivity|]. split; [|split; [reflexivity|]].
      * apply (between_finite (PyFloat.of_Z 0) (PyFloat.of_Z 1000));
          [vm_compute; reflexivity | vm_compute; reflexivity | exact H1
          | exact H2].
      * apply max_eqb. exact H1.
    + exists x, (PyFloat.max (PyFloat.of_Z (-1000)) x).
      split; [reflexivity|]. split; [|split; [reflexivity|]].
      * apply (between_finite (PyFloat.of_Z (-1000)) (PyFloat.of_Z 50000));
          [vm_compute; reflexivity | vm_compute; reflexivity | exact H1
          | exact H2].
      * apply max_eqb. exact H1.
  - split; destruct (validators.caught e); discriminate.
Qed.

Lemma X7_valid_numbers_are_kept_witness :
  exists x x',
    Py.float (VStr "280.5") = Ok x /\ is_finite x = true
    /\ Aircraft._validate_velocity (VStr "280.5") = Ok x'
    /\ PyFloat.eqb x' x = true.
Proof.
  apply (proj1 (X7_valid_numbers_are_kept (VStr "280.5"))).
  vm_compute. reflexivity.
Defined.

(** X8. [validate_coordinates] accepts only two finite numbers, never
    NaN or an infinity.  The three numeric validators answer [False] for
    [None] and for text that is not a number, and raise only for an
    [int] too large for a float, with [OverflowError]. *)
Theorem X8_validators_reject_and_raise lat lon :
  (validators.validate_coordinates lat lon = Ok true ->
   exists x y,
     Py.float lat = Ok x /\ Py.float lon = Ok y
     /\ is_finite x = true /\ is_finite y = true)
  /\ (non_numeric lat ->
      validators.validate_coordinates lat lon = Ok false
      /\ validators.validate_velocity lat = Ok false
      /\ validators.validate_altitude lat = Ok false)
  /\ (forall e,
        validators.validate_coordinates lat lon = Raise e ->
        e = OverflowError /\ (too_big lat \/ too_big lon))
  /\ (forall e,
        validators.validate_velocity lat = Raise e
        \/ validators.validate_altitude lat = Raise e ->
        e = OverflowError /\ too_big lat).
Proof.
  unfold validators.validate_coordinates, validators.validate_velocity,
    validators.validate_altitude.
  repeat split.
  - destruct (Py.float lat) as [x|e]; simpl;
      [|destruct (validators.caught e); discriminate].
    destruct (Py.float lon) as [y|e]; simpl;
      [|destruct (validators.caught e); discriminate].
    intros [= H]. apply andb_true_iff in H as [H H4].
    apply andb_true_iff in H as [H H3]. apply andb_true_iff in H as [H1 H2].
    exists x, y. split; [reflexivity|]. split; [reflexivity|]. split.
    + apply (between_finite (PyFloat.of_Z (-90)) (PyFloat.of_Z 90));
        [vm_compute; reflexivity | vm_compute; reflexivity | exact H1
        | exact H2].
    + apply (between_finite (PyFloat.of_Z (-180)) (PyFloat.of_Z 180));
        [vm_compute; reflexivity | vm_compute; reflexivity | exact H3
        | exact H4].
  - destruct lat as [|b|z|x|s]; simpl in *; try tauto. now rewrite H.
  - destruct lat as [|b|z|x|s]; simpl in *; try tauto. now rewrite H.
  - destruct lat as [|b|z|x|s]; simpl in *; try tauto. now rewrite H.
  - destruct (Py.float lat) as [x|e1] eqn:E1; simpl in H.
    + destruct (Py.float lon) as [y|e2] eqn:E2; simpl in H; [discriminate|].
      destruct (float_raises _ _ E2) as [C|[-> _]]; [now rewrite C in H|].
      simpl in H. congruence.
    + destruct (float_raises _ _ E1) as [C|[-> _]]; [now rewrite C in H|].
      simpl in H. congruence.
  - destruct (Py.float lat) as [x|e1] eqn:E1; simpl in H.
    + destruct (Py.float lon) as [y|e2] eqn:E2; simpl in H; [discriminate|].
      destruct (float_raises _ _ E2) as [C|[-> ?]]; [now rewrite C in H|].
      now right.
    + destruct (float_raises _ _ E1) as [C|[-> ?]]; [now rewrite C in H|].
      now left.
  - destruct H as [H|H]; destruct (Py.float lat) as [x|e1] eqn:E1;
      try discriminate;
      (destruct (float_raises _ _ E1) as [C|[-> _]]; [now rewrite C in H|]);
      simpl in H; congruence.
  - destruct H as [H|H]; destruct (Py.float lat) as [x|e1] eqn:E1;
      try discriminate;
      (destruct (float_raises _ _ E1) as [C|[-> ?]]; [now rewrite C in H|]);
      assumption.
Qed.

Lemma X8_validators_reject_and_raise_witness :
  validators.validate_coordinates (VStr "north") (VInt (2 ^ 1024)) = Ok false
  /\ validators.validate_velocity (VStr "north") = Ok false
  /\ validators.validate_altitude (VStr "north") = Ok false.
Proof.
  apply (proj1 (proj2 (X8_validators_reject_and_raise (VStr "north")
                         (VInt (2 ^ 1024))))).
  vm_compute. reflexivity.
Defined.

(** X9. A country name that [validate_country] accepts is a text that
    the constructor stores as it is after stripping, and that stripped
    text is neither empty nor made of digits only. *)
Theorem X9_valid_country_is_kept country :
  validators.validate_country country = true ->
  exists s,
    country = VStr s
    /\ PyStr.strip s <> ""
    /\ PyStr.isdigit (PyStr.strip s) = false
    /\ Aircraft._validate_country country = PyStr.strip s.
Proof.
  unfold validators.validate_country, Aircraft._validate_country.
  destruct (negb (Py.truthy country) || negb (Py.isinstance_str country));
    [discriminate|].
  destruct country as [|b|z|x|s]; try discriminate.
  intros H. apply andb_true_iff in H as [H1 H2].
  exists s. repeat split.
  - intros E. rewrite E in H1. discriminate.
  - now apply negb_true_iff.
Qed.

Lemma X9_valid_country_is_kept_witness :
  exists s,
    VStr " Russia " = VStr s
    /\ PyStr.strip s <> ""
    /\ PyStr.isdigit (PyStr.strip s) = false
    /\ Aircraft._validate_country (VStr " Russia ") = PyStr.strip s.
Proof.
  apply (X9_valid_country_is_kept (VStr " Russia ")).
  vm_compute. reflexivity.
Defined.

(** *** Ranges of altitude *)

Lemma dropwhile_b_In {A} (p : A -> bool) l x :
  In x (dropwhile_b p l) -> In x l.
Proof.
  induction l as [|c l IH]; simpl; [tauto|].
  destruct (p c); simpl; tauto.
Qed.

Lemma strip_list_In l x : In x (PyStr.strip_list l) -> In x l.
Proof.
  unfold PyStr.strip_list, PyStr.rstrip_list, PyStr.lstrip_list.
  rewrite <- in_rev. intros H. apply dropwhile_b_In in H.
  rewrite <- in_rev in H. now apply dropwhile_b_In in H.
Qed.

Lemma skip_blanks_In l x : In x (PyFloat.skip_blanks l) -> In x l.
Proof.
  unfold PyFloat.skip_blanks.
  rewrite <- in_rev. intros H. apply dropwhile_b_In in H.
  rewrite <- in_rev in H. now apply dropwhile_b_In in H.
Qed.

Lemma split_list_cons sep l : exists p ps, PyStr.split_list sep l = p :: ps.
Proof.
  induction l as [|c l (p & ps & E)]; simpl; [now eexists _, _|].
  destruct (Ascii.eqb c sep); [now eexists _, _|].
  rewrite E. now eexists _, _.
Qed.

Lemma split_list_length sep l :
  List.length (PyStr.split_list sep l) = S (count_occ ascii_dec l sep).
Proof.
  induction l as [|c l IH]; simpl; [reflexivity|].
  destruct (Ascii.eqb_spec c sep) as [->|Hne].
  - destruct (ascii_dec sep sep); [|congruence]. simpl. now rewrite IH.
  - destruct (ascii_dec c sep); [congruence|].
    destruct (split_list_cons sep l) as (p & ps & E).
    rewrite E in *. exact IH.
Qed.

Lemma split_list_parts sep l :
  Forall (fun p => ~ In sep p) (PyStr.split_list sep l).
Proof.
  induction l as [|c l IH]; simpl; [now repeat constructor|].
  destruct (Ascii.eqb_spec c sep) as [->|Hne].
  - constructor; [now intros []|exact IH].
  - destruct (split_list_cons sep l) as (p & ps & E). rewrite E in *.
    inversion IH as [|? ? Hp Hps]; subst. constructor; [|exact Hps].
    intros [->|H]; [congruence|contradiction].
Qed.

Lemma split_list_no_sep sep l :
  ~ In sep l -> PyStr.split_list sep l = [l].
Proof.
  induction l as [|c l IH]; simpl; [reflexivity|]. intros H.
  destruct (Ascii.eqb_spec c sep) as [->|Hne]; [tauto|].
  rewrite IH by tauto. reflexivity.
Qed.

Lemma split_list_app sep a b :
  ~ In sep a ->
  PyStr.split_list sep (a ++ sep :: b) = a :: PyStr.split_list sep b.
Proof.
  induction a as [|c a IH]; simpl; intros H.
  - now rewrite Ascii.eqb_refl.
  - destruct (Ascii.eqb_spec c sep) as [->|Hne]; [tauto|].
    rewrite IH by tauto. reflexivity.
Qed.

Lemma round_aux_unsigned m e l :
  PyFloat.signbit (binary_round_aux PyFloat.prec PyFloat.emax false m e l)
  = false.
Proof.
  unfold binary_round_aux.
  destruct (shr_fexp _ _ m e l) as [mrs' e'].
  destruct (shr_fexp _ _ _ e' loc_Exact) as [mrs'' e''].
  destruct (shr_m mrs''); try reflexivity.
  now destruct (_ <=? _)%Z.
Qed.

Lemma of_decimal_unsigned m e10 :
  PyFloat.signbit (PyFloat.of_decimal false m e10) = false.
Proof.
  unfold PyFloat.of_decimal.
  destruct m as [|pm|pm]; try reflexivity.
  destruct e10 as [|pe|pe].
  - simpl. unfold binary_round.
    destruct (shl_align _ _ _). apply round_aux_unsigned.
  - assert (H : (0 < Z.pos pm * 10 ^ Z.pos pe)%Z) by lia.
    destruct (Z.pos pm * 10 ^ Z.pos pe)%Z as [|q|q]; try lia.
    simpl. unfold binary_round.
    destruct (shl_align _ _ _). apply round_aux_unsigned.
  - unfold SFdiv.
    destruct (SFdiv_core_binary _ _ _ _ _ _) as [[mz ez] lz].
    apply round_aux_unsigned.
Qed.

Lemma parse_decimal_unsigned l x :
  PyFloat.parse_decimal false l = Some x -> PyFloat.signbit x = false.
Proof.
  unfold PyFloat.parse_decimal.
  destruct (PyFloat.read_digits l) as [ip r1].
  destruct (match r1 with
            | "."%char :: r => PyFloat.read_digits r
            | _ => ([], r1)
            end) as [fp r2].
  destruct (ip ++ fp) as [|d ds]; [discriminate|].
  match goal with
  | |- match ?ex with Some _ => _ | None => _ end = _ -> _ =>
      destruct ex as [e|]; [|discriminate]
  end.
  intros [= <-]. apply of_decimal_unsigned.
Qed.

(** A text without a hyphen reads as a float without a sign. *)
Lemma of_string_unsigned s x :
  ~ In "-"%char (list_ascii_of_string s) ->
  PyFloat.of_string s = Some x -> PyFloat.signbit x = false.
Proof.
  intros Hs. unfold PyFloat.of_string.
  assert (Hl : ~ In "-"%char (PyFloat.skip_blanks (list_ascii_of_string s)))
    by (intros H; now apply skip_blanks_In in H).
  destruct (PyFloat.read_sign _) as [neg body] eqn:E.
  assert (neg = false) as ->.
  { unfold PyFloat.read_sign in E.
    destruct (PyFloat.skip_blanks _) as [|c t]; [congruence|].
    destruct (Ascii.eqb_spec c "-") as [->|Hne]; [simpl in Hl; tauto|].
    destruct c as [[] [] [] [] [] [] [] []]; congruence. }
  destruct (_ || _); [now intros [= <-]|].
  destruct (PyStr.eqb _ _); [now intros [= <-]|].
  apply parse_decimal_unsigned.
Qed.

Lemma strip_unsigned l x :
  ~ In "-"%char l ->
  PyFloat.of_string (PyStr.strip (string_of_list_ascii l)) = Some x ->
  PyFloat.signbit x = false.
Proof.
  intros Hl. apply of_string_unsigned. unfold PyStr.strip.
  rewrite !list_ascii_of_string_of_list_ascii.
  intros H. now apply strip_list_In in H.
Qed.

Lemma parse_altitude_range_unsigned range_str :
  PyFloat.signbit (fst (validators.parse_altitude_range range_str)) = false
  /\ PyFloat.signbit (snd (validators.parse_altitude_range range_str)) = false.
Proof.
  assert (D : PyFloat.signbit (fst validators.default_range) = false
              /\ PyFloat.signbit (snd validators.default_range) = false)
    by (split; vm_compute; reflexivity).
  unfold validators.parse_altitude_range.
  destruct range_str as [|b|z|x|s]; try exact D.
  unfold PyStr.split.
  pose proof (split_list_parts "-" (list_ascii_of_string s)) as P.
  destruct (PyStr.split_list "-" (list_ascii_of_string s))
    as [|l0 [|l1 [|l2 ls]]]; try exact D.
  rewrite !fmap_cons, fmap_nil.
  inversion P as [|? ? P0 P']; subst. inversion P' as [|? ? P1 _]; subst.
  destruct (PyFloat.of_string (PyStr.strip (string_of_list_ascii l0)))
    as [min_alt|] eqn:E0; [|exact D].
  destruct (PyFloat.of_string (PyStr.strip (string_of_list_ascii l1)))
    as [max_alt|] eqn:E1; [|exact D].
  simpl. eauto using strip_unsigned.
Qed.

(** X10. Neither bound that [parse_altitude_range] returns has its sign
    bit set: a hyphen always separates, so a negative altitude cannot be
    given as a bound. *)
Theorem X10_range_bounds_unsigned range_str :
  PyFloat.signbit (fst (validators.parse_altitude_range range_str)) = false
  /\ PyFloat.signbit (snd (validators.parse_altitude_range range_str)) = false.
Proof. apply parse_altitude_range_unsigned. Qed.

Lemma hyphens_In s : hyphens s = 0%nat <-> ~ In "-"%char (list_ascii_of_string s).
Proof. unfold hyphens. symmetry. apply count_occ_not_In. Qed.

(** X11. [parse_altitude_range] answers the default range (0.0,
    50000.0) for every text that does not have exactly one hyphen; for a
    text with one hyphen it answers the two numbers around it when both
    read as floats, and the default range otherwise. *)
Theorem X11_range_needs_one_hyphen s :
  (hyphens s <> 1%nat ->
   validators.parse_altitude_range (VStr s) = validators.default_range)
  /\ (forall a b,
        s = (a ++ "-" ++ b)%string -> hyphens a = 0%nat -> hyphens b = 0%nat ->
        validators.parse_altitude_range (VStr s)
        = match PyFloat.of_string (PyStr.strip a),
                PyFloat.of_string (PyStr.strip b) with
          | Some min_alt, Some max_alt => (min_alt, max_alt)
          | _, _ => validators.default_range
          end).
Proof.
  unfold validators.parse_altitude_range, PyStr.split. split.
  - intros H.
    pose proof (split_list_length "-" (list_ascii_of_string s)) as L.
    fold (hyphens s) in L.
    destruct (PyStr.split_list "-" (list_ascii_of_string s))
      as [|l0 [|l1 [|l2 ls]]]; try reflexivity.
    simpl in L. congruence.
  - intros a b -> Ha Hb.
    apply hyphens_In in Ha. apply hyphens_In in Hb.
    rewrite list_ascii_of_string_app. simpl list_ascii_of_string.
    rewrite split_list_app, split_list_no_sep by assumption.
    rewrite !fmap_cons, fmap_nil, !string_of_list_ascii_of_string.
    reflexivity.
Qed.

Lemma X11_range_needs_one_hyphen_witness :
  validators.parse_altitude_range (VStr "-500-1000")
  = validators.default_range
  /\ validators.parse_altitude_range (VStr "1000 - 5000")
     = (flt "1000", flt "5000").
Proof.
  split.
  - apply (proj1 (X11_range_needs_one_hyphen "-500-1000")).
    vm_compute. discriminate.
  - rewrite (proj2 (X11_range_needs_one_hyphen "1000 - 5000") "1000 " " 5000");
      vm_compute; reflexivity.
Defined.

(** X12. The range filter of the menu, fed with the bounds that
    [parse_altitude_range] reads, only shows aircraft whose altitude is
    at least 0.0: aircraft below sea level are never listed, whatever
    the text typed. *)
Theorem X12_range_filter_above_sea_level aircraft_list range_str :
  Forall (fun a => PyFloat.leb PyFloat.pos_zero (Aircraft.altitude a) = true)
    (cli.filter_by_altitude_range aircraft_list
       (fst (validators.parse_altitude_range range_str))
       (snd (validators.parse_altitude_range range_str))).
Proof.
  destruct (parse_altitude_range_unsigned range_str) as [Hs _].
  apply List.Forall_forall. intros a Ha.
  unfold cli.filter_by_altitude_range in Ha.
  apply filter_In in Ha as [_ Ha]. apply andb_true_iff in Ha as [Ha _].
  destruct (leb_not_nan _ _ Ha) as [Hn _].
  exact (leb_trans _ _ _ (leb_zero_of_signbit _ Hs Hn) Ha).
Qed.

(** ** Sorting and the lists of the menu *)

Section Sorting.

Context {A : Type} (key : A -> PyFloat.float).

Lemma insert_sorted_perm x l : Permutation (Py.insert_sorted key x l) (x :: l).
Proof.
  induction l as [|y l IH]; simpl; [reflexivity|].
  destruct (PyFloat.ltb (key y) (key x)); [|reflexivity].
  rewrite IH. apply perm_swap.
Qed.

Lemma sort_stable_perm l : Permutation (Py.sort_stable key l) l.
Proof.
  induction l as [|x l IH]; simpl; [reflexivity|].
  rewrite insert_sorted_perm. now constructor.
Qed.

Lemma sorted_perm reverse l : Permutation (Py.sorted key reverse l) l.
Proof.
  unfold Py.sorted. destruct reverse; [|apply sort_stable_perm].
  rewrite <- Permutation_rev, sort_stable_perm. symmetry.
  apply Permutation_rev.
Qed.

Lemma nan_free_perm l l' :
  Permutation l l' -> nan_free key l -> nan_free key l'.
Proof. intros P. unfold nan_free. now rewrite P. Qed.

Lemma insert_sorted_ascending x l :
  PyFloat.is_nan (key x) = false -> nan_free key l ->
  ascending key l -> ascending key (Py.insert_sorted key x l).
Proof.
  intros Nx. induction l as [|y l IH]; simpl; intros Nl Hl.
  - repeat constructor.
  - inversion Nl as [|? ? Ny Nl']; subst.
    inversion Hl as [|? ? Hl' Hy]; subst.
    destruct (PyFloat.ltb (key y) (key x)) eqn:E.
    + constructor; [now apply IH|].
      rewrite insert_sorted_perm. constructor; [now apply ltb_leb|exact Hy].
    + assert (Hxy : PyFloat.leb (key x) (key y) = true).
      { rewrite (ltb_negb_leb _ _ Ny Nx) in E. now apply negb_false_iff. }
      constructor; [exact Hl|]. constructor; [exact Hxy|].
      eapply Forall_impl; [exact Hy|].
      intros b Hb. simpl in Hb. exact (leb_trans _ _ _ Hxy Hb).
Qed.

Lemma sort_stable_ascending l :
  nan_free key l -> ascending key (Py.sort_stable key l).
Proof.
  induction l as [|x l IH]; simpl; intros Nl; [constructor|].
  inversion Nl; subst. apply insert_sorted_ascending; auto.
  now apply (nan_free_perm l); [symmetry; apply sort_stable_perm|].
Qed.

Lemma StronglySorted_snoc {B} (R : B -> B -> Prop) l x :
  StronglySorted R l -> Forall (fun a => R a x) l ->
  StronglySorted R (l ++ [x]).
Proof.
  induction 1 as [|a l Hl IH Ha]; simpl; intros Hx.
  - repeat constructor.
  - inversion Hx; subst. constructor; [now apply IH|].
    apply Forall_app. split; [exact Ha|]. now repeat constructor.
Qed.

Lemma ascending_rev l : ascending key l -> descending key (rev l).
Proof.
  unfold ascending, descending.
  induction 1 as [|a l Hl IH Ha]; simpl; [constructor|].
  apply StronglySorted_snoc; [exact IH|].
  apply List.Forall_forall. intros b Hb. apply in_rev in Hb.
  now apply (proj1 (List.Forall_forall _ _) Ha).
Qed.

Lemma sorted_descending l :
  nan_free key l -> descending key (Py.sorted key true l).
Proof.
  intros Nl. unfold Py.sorted. apply ascending_rev, sort_stable_ascending.
  apply (nan_free_perm l); [apply Permutation_rev|exact Nl].
Qed.

Lemma sorted_ascending l :
  nan_free key l -> ascending key (Py.sorted key false l).
Proof. apply sort_stable_ascending. Qed.

Lemma StronglySorted_split {B} (R : B -> B -> Prop) l1 l2 :
  StronglySorted R (l1 ++ l2) ->
  StronglySorted R l1
  /\ forall a b, In a l1 -> In b l2 -> R a b.
Proof.
  induction l1 as [|x l1 IH]; simpl; intros H.
  - split; [constructor|]. now intros a b [].
  - inversion H as [|? ? Hs Hx]; subst. destruct (IH Hs) as [H1 H2].
    apply Forall_app in Hx as [Hx1 Hx2]. split; [now constructor|].
    intros a b [<-|Ha] Hb; [|now apply H2].
    now apply (proj1 (List.Forall_forall _ _) Hx2).
Qed.

Lemma slice_to_split (n : Z) (l : list A) :
  exists rest, l = Py.slice_to n l ++ rest.
Proof.
  unfold Py.slice_to. destruct (n <? 0)%Z.
  - exists (drop (List.length l - Z.to_nat (- n)) l).
    now rewrite take_drop.
  - exists (drop (Z.to_nat n) l). now rewrite take_drop.
Qed.

Lemma slice_to_length (n : Z) (l : list A) :
  List.length (Py.slice_to n l)
  = if (n <? 0)%Z then (List.length l - Z.to_nat (- n))%nat
    else Nat.min (Z.to_nat n) (List.length l).
Proof.
  unfold Py.slice_to. destruct (n <? 0)%Z; rewrite length_take; lia.
Qed.

(** The first records of a list sorted downwards: they are in
    descending order, and none of the records left out has a greater
    key. *)
Lemma top_of_sorted (n : Z) l :
  nan_free key l ->
  descending key (Py.slice_to n (Py.sorted key true l))
  /\ exists rest,
       Permutation (Py.slice_to n (Py.sorted key true l) ++ rest) l
       /\ forall a b,
            In a (Py.slice_to n (Py.sorted key true l)) -> In b rest ->
            PyFloat.leb (key b) (key a) = true.
Proof.
  intros Nl. pose proof (sorted_descending l Nl) as D.
  destruct (slice_to_split n (Py.sorted key true l)) as [rest E].
  unfold descending in D. rewrite E in D.
  apply StronglySorted_split in D as [D1 D2].
  split; [exact D1|]. exists rest. split; [|exact D2].
  rewrite <- E. apply sorted_perm.
Qed.

Lemma eqb_ltb_false a b k :
  PyFloat.eqb a k = true -> PyFloat.eqb b k = true -> PyFloat.ltb b a = false.
Proof.
  unfold PyFloat.eqb, PyFloat.ltb, SFeqb, SFltb.
  destruct a as [sa|sa| |sa ma ea], b as [sb|sb| |sb mb eb],
    k as [sk|sk| |sk mk ek]; simpl; try discriminate; try reflexivity;
    try (destruct sa; try discriminate; try reflexivity);
    try (destruct sb; try discriminate; try reflexivity);
    try (destruct sk; try discriminate; try reflexivity).
  all: change (Pos.compare_cont Eq) with Pos.compare.
  all: destruct (Z.compare_spec ea ek), (Z.compare_spec eb ek),
      (Z.compare_spec eb ea); subst; try lia; try discriminate;
      try reflexivity.
  all: destruct (Pos.compare_spec ma mk), (Pos.compare_spec mb mk),
      (Pos.compare_spec mb ma); subst; simpl; try lia; try discriminate;
      try reflexivity.
Qed.

Lemma with_key_insert k x l :
  with_key key k (Py.insert_sorted key x l) = with_key key k (x :: l).
Proof.
  unfold with_key. induction l as [|y l IH]; [reflexivity|].
  simpl Py.insert_sorted.
  destruct (PyFloat.ltb (key y) (key x)) eqn:E; [|reflexivity].
  simpl in *. rewrite IH.
  destruct (PyFloat.eqb (key y) k) eqn:Ey; [|reflexivity].
  destruct (PyFloat.eqb (key x) k) eqn:Ex; [|reflexivity].
  now rewrite (eqb_ltb_false _ _ _ Ex Ey) in E.
Qed.

Lemma with_key_sort k l :
  with_key key k (Py.sort_stable key l) = with_key key k l.
Proof.
  induction l as [|x l IH]; [reflexivity|].
  simpl Py.sort_stable. rewrite with_key_insert.
  unfold with_key in *. simpl. now rewrite IH.
Qed.

(** Sorting is stable in both directions. *)
Lemma with_key_sorted k reverse l :
  with_key key k (Py.sorted key reverse l) = with_key key k l.
Proof.
  unfold Py.sorted. destruct reverse; [|apply with_key_sort].
  unfold with_key. rewrite filter_rev.
  fold (with_key key k (Py.sort_stable key (rev l))).
  rewrite with_key_sort. unfold with_key.
  now rewrite filter_rev, rev_involutive.
Qed.

End Sorting.

(** X13. Where no altitude is NaN, [get_top_by_altitude] returns
    records in descending order of altitude, none of the records it
    leaves out is higher than one it returns, and together they are the
    records given.  It returns [n] records, or all if there are fewer;
    for a negative [n] it leaves out the [-n] lowest instead. *)
Theorem X13_top_by_altitude aircraft_list n :
  nan_free Aircraft.altitude aircraft_list ->
  descending Aircraft.altitude (cli.get_top_by_altitude aircraft_list n)
  /\ List.length (cli.get_top_by_altitude aircraft_list n)
     = (if (n <? 0)%Z then List.length aircraft_list - Z.to_nat (- n)
        else Nat.min (Z.to_nat n) (List.length aircraft_list))%nat
  /\ exists rest,
       Permutation (cli.get_top_by_altitude aircraft_list n ++ rest)
         aircraft_list
       /\ forall a b,
            In a (cli.get_top_by_altitude aircraft_list n) -> In b rest ->
            PyFloat.leb (Aircraft.altitude b) (Aircraft.altitude a) = true.
Proof.
  intros N. unfold cli.get_top_by_altitude.
  destruct (top_of_sorted Aircraft.altitude n aircraft_list N) as [D R].
  split; [exact D|]. split; [|exact R].
  rewrite slice_to_length.
  now rewrite (Permutation_length (sorted_perm Aircraft.altitude true _)).
Qed.

Lemma X13_top_by_altitude_witness :
  descending Aircraft.altitude
    (cli.get_top_by_altitude [AFL101_slow; AFL101] 1).
Proof.
  apply (X13_top_by_altitude [AFL101_slow; AFL101] 1).
  repeat constructor.
Defined.

(** X14. Where no velocity is NaN, [sort_by_velocity] returns the
    records given, in descending order of velocity, or ascending when
    [reverse] is false; records of equal velocity keep the order they
    had, in both directions. *)
Theorem X14_sort_by_velocity aircraft_list reverse :
  nan_free Aircraft.velocity aircraft_list ->
  Permutation (cli.sort_by_velocity aircraft_list reverse) aircraft_list
  /\ (if reverse
      then descending Aircraft.velocity
             (cli.sort_by_velocity aircraft_list reverse)
      else ascending Aircraft.velocity
             (cli.sort_by_velocity aircraft_list reverse))
  /\ forall k,
       with_key Aircraft.velocity k (cli.sort_by_velocity aircraft_list reverse)
       = with_key Aircraft.velocity k aircraft_list.
Proof.
  intros N. unfold cli.sort_by_velocity.
  split; [apply sorted_perm|]. split.
  - destruct reverse; [now apply sorted_descending|now apply sorted_ascending].
  - intros k. apply with_key_sorted.
Qed.

Lemma X14_sort_by_velocity_witness :
  Permutation (cli.sort_by_velocity [AFL101_slow; AFL101] true)
    [AFL101_slow; AFL101].
Proof.
  apply (X14_sort_by_velocity [AFL101_slow; AFL101] true).
  repeat constructor.
Defined.

(** ** What the stores return *)

Lemma rmap_Forall2 {A B} (f : A -> result B) l rs :
  rmap f l = Ok rs -> Forall2 (fun x y => f x = Ok y) l rs.
Proof.
  revert rs. induction l as [|x l IH]; simpl; intros rs.
  - intros [= <-]. constructor.
  - destruct (f x) as [y|e] eqn:E; [|discriminate]. simpl.
    destruct (rmap f l) as [ys|e]; [|discriminate]. simpl.
    intros [= <-]. constructor; auto.
Qed.

Lemma rmap_Forall {A B} (f : A -> result B) (P : B -> Prop) l rs :
  (forall x y, f x = Ok y -> P y) -> rmap f l = Ok rs -> Forall P rs.
Proof.
  intros HP H. apply rmap_Forall2 in H.
  induction H; constructor; eauto.
Qed.

Lemma from_dict_in_bounds data r :
  Aircraft.from_dict data = Ok r -> in_bounds r.
Proof. apply init_in_bounds. Qed.

Lemma row_to_aircraft_in_bounds row r :
  CSVStorage._row_to_aircraft row = Ok r -> in_bounds r.
Proof.
  unfold CSVStorage._row_to_aircraft.
  repeat match goal with
         | |- rbind ?x _ = _ -> _ =>
             destruct x; cbn [rbind]; [|discriminate]
         end.
  apply init_in_bounds.
Qed.

Lemma in_bounds_nan_free l :
  Forall in_bounds l ->
  nan_free Aircraft.altitude l /\ nan_free Aircraft.velocity l.
Proof.
  intros H. split; eapply Forall_impl; try exact H;
    intros r Hr; now destruct (in_bounds_not_nan r Hr).
Qed.

Lemma json_get_all_in_bounds d l d' :
  JSONStorage.get_all d = (Ok l, d') -> d' = d /\ Forall in_bounds l.
Proof.
  unfold JSONStorage.get_all.
  destruct (JSONStorage._load_data d) as [data|e]; [|discriminate].
  intros [= H <-]. split; [reflexivity|].
  exact (rmap_Forall _ _ _ _ from_dict_in_bounds H).
Qed.

Lemma csv_get_all_in_bounds d l d' :
  CSVStorage.get_all d = (Ok l, d') -> d' = d /\ Forall in_bounds l.
Proof.
  unfold CSVStorage.get_all, CSVStorage.get_aircraft.
  destruct (CSVStorage._load_data d) as [data|e]; [|discriminate].
  intros [= H <-]. split; [reflexivity|].
  exact (rmap_Forall _ _ _ _ row_to_aircraft_in_bounds H).
Qed.

(** X15. Both stores return from [get_top_by_altitude] records in
    descending order of altitude, none lower than a stored record left
    out, and leave the file as it is; no assumption on the file is
    needed, since every record read is built by the constructor.  The
    call raises what [get_all] raises. *)
Theorem X15_store_top_by_altitude n :
  (forall d top d',
      JSONStorage.get_top_by_altitude n d = (Ok top, d') ->
      d' = d
      /\ descending Aircraft.altitude top
      /\ exists l rest,
           JSONStorage.get_all d = (Ok l, d)
           /\ Permutation (top ++ rest) l
           /\ forall a b,
                In a top -> In b rest ->
                PyFloat.leb (Aircraft.altitude b) (Aircraft.altitude a) = true)
  /\ (forall d top d',
        CSVStorage.get_top_by_altitude n d = (Ok top, d') ->
        d' = d
        /\ descending Aircraft.altitude top
        /\ exists l rest,
             CSVStorage.get_all d = (Ok l, d)
             /\ Permutation (top ++ rest) l
             /\ forall a b,
                  In a top -> In b rest ->
                  PyFloat.leb (Aircraft.altitude b) (Aircraft.altitude a) = true)
  /\ (forall d e,
        fst (JSONStorage.get_all d) = Raise e ->
        fst (JSONStorage.get_top_by_altitude n d) = Raise e)
  /\ (forall d e,
        fst (CSVStorage.get_all d) = Raise e ->
        fst (CSVStorage.get_top_by_altitude n d) = Raise e).
Proof.
  split; [|split; [|split]].
  - intros d top d' H. unfold JSONStorage.get_top_by_altitude in H.
    destruct (JSONStorage.get_all d) as [[l|e] d1] eqn:E; [|discriminate].
    destruct (json_get_all_in_bounds _ _ _ E) as [-> B].
    injection H as <- <-. split; [reflexivity|].
    destruct (top_of_sorted Aircraft.altitude n l) as (D & rest & P & T);
      [apply in_bounds_nan_free, B|].
    split; [exact D|]. exists l, rest. auto.
  - intros d top d' H. unfold CSVStorage.get_top_by_altitude in H.
    destruct (CSVStorage.get_all d) as [[l|e] d1] eqn:E; [|discriminate].
    destruct (csv_get_all_in_bounds _ _ _ E) as [-> B].
    injection H as <- <-. split; [reflexivity|].
    destruct (top_of_sorted Aircraft.altitude n l) as (D & rest & P & T);
      [apply in_bounds_nan_free, B|].
    split; [exact D|]. exists l, rest. auto.
  - intros d e. unfold JSONStorage.get_top_by_altitude.
    destruct (JSONStorage.get_all d) as [[l|e'] d1]; simpl; congruence.
  - intros d e. unfold CSVStorage.get_top_by_altitude.
    destruct (CSVStorage.get_all d) as [[l|e'] d1]; simpl; congruence.
Qed.

Lemma X15_store_top_by_altitude_witness :
  descending Aircraft.altitude [AFL101_slow; AFL101].
Proof.
  apply (proj1 (X15_store_top_by_altitude 5) json_twice [AFL101_slow; AFL101]
           json_twice).
  vm_compute. reflexivity.
Defined.

(** ** The filter by country *)

Lemma startswith_list_spec sub l :
  PyStr.startswith_list sub l = true <-> exists post, l = sub ++ post.
Proof.
  revert l. induction sub as [|c sub IH]; intros l; simpl.
  - split; [intros _; now exists l|reflexivity].
  - destruct l as [|d l].
    + split; [discriminate|]. intros [post H]. discriminate.
    + rewrite andb_true_iff, IH. split.
      * intros [E [post ->]]. apply Ascii.eqb_eq in E as ->. now exists post.
      * intros [post [= -> ->]]. split; [apply Ascii.eqb_refl|now exists post].
Qed.

Lemma contains_list_spec sub l :
  PyStr.contains_list sub l = true <-> exists pre post, l = pre ++ sub ++ post.
Proof.
  induction l as [|d l IH].
  - simpl. rewrite orb_false_r, startswith_list_spec. split.
    + intros [post H]. now exists [], post.
    + intros (pre & post & H). destruct pre; [now exists post|discriminate].
  - cbn [PyStr.contains_list]. rewrite orb_true_iff, startswith_list_spec, IH.
    split.
    + intros [[post H]|(pre & post & H)].
      * now exists [], post.
      * exists (d :: pre), post. now rewrite H.
    + intros (pre & post & H). destruct pre as [|c pre].
      * left. now exists post.
      * right. injection H as -> ->. now exists pre, post.
Qed.

Lemma string_of_list_ascii_app a b :
  string_of_list_ascii (a ++ b)
  = (string_of_list_ascii a ++ string_of_list_ascii b)%string.
Proof. induction a as [|c a IH]; simpl; [reflexivity|now rewrite IH]. Qed.

(** [sub in s] holds exactly when [sub] is a part of [s]. *)
Lemma contains_spec sub s :
  PyStr.contains sub s = true
  <-> exists pre post, s = (pre ++ sub ++ post)%string.
Proof.
  unfold PyStr.contains. rewrite contains_list_spec. split.
  - intros (pre & post & H).
    exists (string_of_list_ascii pre), (string_of_list_ascii post).
    rewrite <- (string_of_list_ascii_of_string s), H.
    now rewrite !string_of_list_ascii_app, string_of_list_ascii_of_string.
  - intros (pre & post & ->).
    exists (list_ascii_of_string pre), (list_ascii_of_string post).
    now rewrite !list_ascii_of_string_app.
Qed.

Lemma scan_countries_spec a countries filtered :
  cli.scan_countries a countries filtered
  = if country_matches countries a then filtered ++ [a] else filtered.
Proof.
  unfold country_matches.
  induction countries as [|c cs IH]; simpl; [reflexivity|].
  now destruct (PyStr.contains _ _).
Qed.

Lemma filter_by_country_filter l countries :
  cli.filter_by_country l countries = List.filter (country_matches countries) l.
Proof.
  unfold cli.filter_by_country.
  rewrite <- (app_nil_l (List.filter _ l)). generalize (@nil Aircraft.t).
  induction l as [|a l IH]; intros acc; simpl.
  - now rewrite app_nil_r.
  - rewrite IH, scan_countries_spec.
    destruct (country_matches countries a); [|reflexivity].
    now rewrite <- app_assoc.
Qed.

(** X16. [filter_by_country] keeps, in their order and each once, the
    records whose origin country contains the text of one of the
    countries, letter case apart; an empty text among the countries
    keeps every record. *)
Theorem X16_filter_by_country aircraft_list countries :
  cli.filter_by_country aircraft_list countries
  = List.filter (country_matches countries) aircraft_list
  /\ (forall a,
        In a (cli.filter_by_country aircraft_list countries)
        <-> In a aircraft_list
            /\ exists country pre post,
                 In country countries
                 /\ PyStr.lower (Aircraft.origin_country a)
                    = (pre ++ PyStr.lower country ++ post)%string)
  /\ (In "" countries ->
      cli.filter_by_country aircraft_list countries = aircraft_list).
Proof.
  rewrite filter_by_country_filter. split; [reflexivity|]. split.
  - intros a. rewrite filter_In. unfold country_matches.
    rewrite existsb_exists. split.
    + intros [Ha (c & Hc & H)]. split; [exact Ha|].
      apply contains_spec in H as (pre & post & H). now exists c, pre, post.
    + intros [Ha (c & pre & post & Hc & H)]. split; [exact Ha|].
      exists c. split; [exact Hc|]. apply contains_spec. now exists pre, post.
  - intros H. apply forallb_filter_id. apply forallb_forall. intros a _.
    unfold country_matches. apply existsb_exists. exists "".
    split; [exact H|]. apply contains_spec.
    exists "", (PyStr.lower (Aircraft.origin_country a)). reflexivity.
Qed.

Lemma X16_filter_by_country_witness :
  cli.filter_by_country [AFL101; AFL101_slow] ["usa"; ""]
  = [AFL101; AFL101_slow].
Proof.
  apply (proj2 (proj2 (X16_filter_by_country [AFL101; AFL101_slow]
                         ["usa"; ""]))).
  right. left. reflexivity.
Defined.

(** ** The states of the service *)

Lemma process_Forall2 raw_data processed :
  AircraftAPI.process_aircraft_data raw_data = Ok processed ->
  Forall2 (fun state aircraft => AircraftAPI.process_state state = Ok aircraft)
    (List.filter long_state raw_data) processed.
Proof.
  revert processed.
  induction raw_data as [|state rest IH];
    cbn [AircraftAPI.process_aircraft_data List.filter]; intros processed.
  - intros [= <-]. constructor.
  - unfold long_state at 1.
    destruct (14 <=? List.length state)%nat; [|now apply IH].
    destruct (AircraftAPI.process_state state) as [a|e] eqn:E; [|discriminate].
    cbn [rbind].
    destruct (AircraftAPI.process_aircraft_data rest) as [p|e]; [|discriminate].
    cbn [rbind]. intros [= <-]. constructor; auto.
Qed.

Lemma strip_or_unknown_raises x e :
  AircraftAPI.strip_or_unknown x = Raise e -> e = AttributeError.
Proof.
  unfold AircraftAPI.strip_or_unknown.
  destruct (Py.truthy x); [|discriminate].
  destruct x; try discriminate; now intros [= <-].
Qed.

Lemma process_raises raw_data e :
  AircraftAPI.process_aircraft_data raw_data = Raise e -> e = AttributeError.
Proof.
  induction raw_data as [|state rest IH];
    cbn [AircraftAPI.process_aircraft_data]; [discriminate|].
  destruct (14 <=? List.length state)%nat; [|exact IH].
  unfold AircraftAPI.process_state.
  destruct (AircraftAPI.strip_or_unknown _) as [c|e'] eqn:E; cbn [rbind].
  - destruct (AircraftAPI.process_aircraft_data rest) as [p|e'];
      [discriminate|].
    cbn [rbind]. intros [= <-]. now apply IH.
  - intros [= <-]. now apply strip_or_unknown_raises in E.
Qed.

Lemma strip_or_unknown_text x v :
  AircraftAPI.strip_or_unknown x = Ok v ->
  exists c, v = VStr c /\ PyStr.strip c = c.
Proof.
  unfold AircraftAPI.strip_or_unknown.
  destruct (Py.truthy x).
  - destruct x; try discriminate. intros [= <-].
    eexists. split; [reflexivity|apply strip_idem].
  - intros [= <-]. eexists. split; [reflexivity|apply strip_Unknown].
Qed.

Lemma validate_callsign_stripped c :
  PyStr.strip c = c -> Aircraft._validate_callsign (VStr c) <> "".
Proof.
  intros Hc. unfold Aircraft._validate_callsign. simpl.
  unfold PyStr.eqb. destruct (bool_decide_reflect (c = "")) as [->|Hne]; simpl.
  - discriminate.
  - now rewrite Hc.
Qed.

Lemma process_state_fields state aircraft :
  AircraftAPI.process_state state = Ok aircraft ->
  (exists c, aircraft !! "callsign" = Some (VStr c) /\ PyStr.strip c = c)
  /\ aircraft !! "longitude" = Some (AircraftAPI.state_item state 5).
Proof.
  unfold AircraftAPI.process_state.
  destruct (AircraftAPI.strip_or_unknown _) as [v|e] eqn:E; [|discriminate].
  simpl. intros [= <-].
  destruct (strip_or_unknown_text _ _ E) as (c & -> & Hc).
  split; [|reflexivity]. now exists c.
Qed.

Lemma from_dict_fields data r :
  Aircraft.from_dict data = Ok r ->
  Aircraft.callsign r
  = Aircraft._validate_callsign (Py.get_or data "callsign" (VStr "Unknown"))
  /\ Aircraft._longitude r
     = Py.get_or data "longitude" (VFloat PyFloat.pos_zero).
Proof.
  unfold Aircraft.from_dict, Aircraft.__init__.
  destruct (Aircraft._validate_velocity _); [|discriminate].
  destruct (Aircraft._validate_altitude _); [|discriminate].
  simpl. intros [= <-]. split; reflexivity.
Qed.

(** The record made of a state that was kept. *)
Lemma state_record state aircraft r :
  AircraftAPI.process_state state = Ok aircraft ->
  Aircraft.from_dict aircraft = Ok r ->
  Aircraft.callsign r <> ""
  /\ Aircraft._longitude r = AircraftAPI.state_item state 5.
Proof.
  intros Hs Hr.
  destruct (process_state_fields _ _ Hs) as ((c & Hc & Hstrip) & Hlon).
  destruct (from_dict_fields _ _ Hr) as [-> ->].
  unfold Py.get_or. rewrite Hc, Hlon. simpl.
  split; [now apply validate_callsign_stripped|reflexivity].
Qed.

Lemma states_records raw_data processed records :
  AircraftAPI.process_aircraft_data raw_data = Ok processed ->
  Aircraft.cast_to_object_list processed = Ok records ->
  Forall2 (fun state r =>
             Aircraft.callsign r <> ""
             /\ Aircraft._longitude r = AircraftAPI.state_item state 5)
    (List.filter long_state raw_data) records.
Proof.
  intros Hp Hc. apply process_Forall2 in Hp. apply rmap_Forall2 in Hc.
  revert records Hc.
  induction Hp as [|state a states processed Hs _ IH]; intros records Hc;
    inversion Hc; subst; constructor; eauto using state_record.
Qed.

(** X17. [process_aircraft_data] drops the states with fewer than 14
    entries and raises only [AttributeError] (for a callsign entry that
    is neither text nor false).  Every record then made of its output
    has a callsign that is not empty: a blank callsign becomes
    "Unknown". *)
Theorem X17_api_records_have_callsigns raw_data :
  (forall e,
      AircraftAPI.process_aircraft_data raw_data = Raise e ->
      e = AttributeError)
  /\ (forall processed records,
        AircraftAPI.process_aircraft_data raw_data = Ok processed ->
        Aircraft.cast_to_object_list processed = Ok records ->
        List.length records = List.length (List.filter long_state raw_data)
        /\ Forall (fun r => Aircraft.callsign r <> "") records).
Proof.
  split; [apply process_raises|].
  intros processed records Hp Hc.
  pose proof (states_records _ _ _ Hp Hc) as H.
  split; [symmetry; exact (Forall2_length _ _ _ H)|].
  clear Hp Hc.
  induction H as [|state r states records [Hr _] _ IH]; constructor; auto.
Qed.

Lemma X17_api_records_have_callsigns_witness :
  List.length [record_without_position]
  = List.length
      (List.filter long_state [state_without_position; [VStr "short"]])
  /\ Forall (fun r => Aircraft.callsign r <> "") [record_without_position].
Proof.
  apply (proj2 (X17_api_records_have_callsigns
                  [state_without_position; [VStr "short"]])
           [processed_without_position]).
  - reflexivity.
  - vm_compute. reflexivity.
Defined.

(** ** Records the CSV store cannot write *)

Section CsvRefuses.

Variable float_repr : PyFloat.float -> string.

Lemma add_each_formattable l :
  forall data ix n res,
    CSVStorage.add_each float_repr l data ix n = Ok res ->
    Forall (fun a => ~ unformattable float_repr a) l.
Proof.
  induction l as [|a l IH]; intros data ix n res;
    cbn [CSVStorage.add_each]; [constructor|].
  destruct (CSVStorage._aircraft_to_row float_repr a) as [row|e] eqn:E;
    [|discriminate].
  cbn [rbind]. intros H. constructor.
  - intros [e He]. unfold unformattable in *. congruence.
  - destruct (CSVStorage.index_get _ ix) as [i|].
    + destruct (CSVStorage.set_row data i row) as [data'|e]; [|discriminate].
      exact (IH _ _ _ _ H).
    + exact (IH _ _ _ _ H).
Qed.

Lemma add_multiple_unformattable l d :
  Exists (unformattable float_repr) l ->
  exists e, CSVStorage.add_multiple_aircraft float_repr l d = (Raise e, d).
Proof.
  intros H. unfold CSVStorage.add_multiple_aircraft.
  destruct l as [|a l]; [inversion H|].
  destruct (CSVStorage._load_data d) as [data|e]; [|now exists e].
  destruct (CSVStorage.index_rows data 0 []) as [ix|e]; cbn [rbind];
    [|now exists e].
  destruct (CSVStorage.add_each float_repr (a :: l) data ix 0)
    as [[data' n]|e] eqn:E; [|now exists e].
  apply add_each_formattable in E.
  apply List.Exists_exists in H as (b & Hb & Hu).
  exfalso. exact (proj1 (List.Forall_forall _ _) E b Hb Hu).
Qed.

Lemma missing_number_unformattable a :
  Aircraft._longitude a = VNone \/ Aircraft._latitude a = VNone
  \/ Aircraft._vertical_rate a = VNone ->
  unformattable float_repr a.
Proof.
  unfold unformattable, CSVStorage._aircraft_to_row.
  intros [H|[H|H]].
  - rewrite H. now exists TypeError.
  - destruct (Py.format_f 6 (Aircraft._longitude a)) as [?|e]; cbn [rbind];
      [|now exists e].
    rewrite H. now exists TypeError.
  - destruct (Py.format_f 6 (Aircraft._longitude a)) as [?|e]; cbn [rbind];
      [|now exists e].
    destruct (Py.format_f 6 (Aircraft._latitude a)) as [?|e]; cbn [rbind];
      [|now exists e].
    rewrite H. now exists TypeError.
Qed.

(** X18. A record that cannot be formatted as a row, such as one whose
    longitude, latitude or vertical rate is [None], makes the CSV store
    raise and leave the file as it was; in [add_multiple_aircraft] one
    such record anywhere in the list keeps every record of the list
    out of the file. *)
Theorem X18_csv_refuses_the_whole_batch d :
  (forall l,
      Exists (unformattable float_repr) l ->
      exists e,
        CSVStorage.add_multiple_aircraft float_repr l d = (Raise e, d))
  /\ (forall a e data,
        CSVStorage._load_data d = Ok data ->
        CSVStorage._aircraft_to_row float_repr a = Raise e ->
        CSVStorage.add_aircraft float_repr a d = (Raise e, d))
  /\ (forall a,
        Aircraft._longitude a = VNone \/ Aircraft._latitude a = VNone
        \/ Aircraft._vertical_rate a = VNone ->
        unformattable float_repr a).
Proof.
  split; [|split].
  - intros l. apply add_multiple_unformattable.
  - intros a e data Hl Hr. unfold CSVStorage.add_aircraft.
    now rewrite Hl, Hr.
  - apply missing_number_unformattable.
Qed.

(** X19. When a state kept by [process_aircraft_data] has no longitude,
    the records made of the states cannot be stored in a CSV file: the
    call raises and writes nothing.  The JSON store takes them all. *)
Theorem X19_unknown_position_breaks_csv raw_data processed records :
  AircraftAPI.process_aircraft_data raw_data = Ok processed ->
  Aircraft.cast_to_object_list processed = Ok records ->
  Exists (fun state =>
            long_state state = true
            /\ AircraftAPI.state_item state 5 = VNone) raw_data ->
  (forall d,
      exists e,
        CSVStorage.add_multiple_aircraft float_repr records d = (Raise e, d))
  /\ (forall d data,
        JSONStorage._load_data d = Ok data ->
        fst (JSONStorage.add_multiple_aircraft records d)
        = Ok (List.length records)).
Proof.
  intros Hp Hc Hex. split.
  - intros d. apply add_multiple_unformattable.
    pose proof (states_records _ _ _ Hp Hc) as H.
    apply List.Exists_exists in Hex as (state & Hin & Hlong & Hlon).
    assert (Hin' : In state (List.filter long_state raw_data))
      by now apply filter_In.
    clear Hp Hc Hin. induction H as [|st r sts rs [_ Hr] _ IH];
      [destruct Hin'|].
    destruct Hin' as [->|Hin'].
    + left. apply missing_number_unformattable. left. congruence.
    + right. now apply IH.
  - intros d data Hl. unfold JSONStorage.add_multiple_aircraft.
    rewrite Hl, json_add_each. unfold JSONStorage._save_data.
    now destruct (JSONStorage.writable d).
Qed.

End CsvRefuses.

Lemma X18_csv_refuses_the_whole_batch_witness :
  exists e,
    CSVStorage.add_multiple_aircraft no_repr [AFL101; record_without_position]
      csv_one_row
    = (Raise e, csv_one_row).
Proof.
  apply (proj1 (X18_csv_refuses_the_whole_batch no_repr csv_one_row)).
  right. left. exists TypeError. reflexivity.
Defined.

Lemma X19_unknown_position_breaks_csv_witness :
  exists e,
    CSVStorage.add_multiple_aircraft no_repr [record_without_position]
      csv_one_row
    = (Raise e, csv_one_row).
Proof.
  apply (proj1 (X19_unknown_position_breaks_csv no_repr
                  [state_without_position; [VStr "short"]]
                  [processed_without_position] [record_without_position]
                  ltac:(reflexivity) ltac:(vm_compute; reflexivity)
                  ltac:(left; split; reflexivity))).
Defined.

(** ** The stores *)

(** X20. Creating a store on a path, in a directory that is there, does
    not change what is read from it: the file is only made when absent,
    and empty.  The CSV store raises [PermissionError] when the file is
    absent and cannot be made, and returns otherwise. *)
Theorem X20_opening_keeps_the_content :
  (forall d,
      JSONStorage._load_data (JSONStorage.__init__ d)
      = JSONStorage._load_data d)
  /\ (forall d,
        CSVStorage._load_data (snd (CSVStorage.__init__ d))
        = CSVStorage._load_data d)
  /\ (forall d,
        fst (CSVStorage.__init__ d)
        = if csv_absent d && negb (CSVStorage.writable d)
          then Raise PermissionError else Ok tt).
Proof.
  split; [|split]; intros [f w].
  - unfold JSONStorage.__init__, JSONStorage._ensure_file_exists,
      JSONStorage._save_data.
    destruct f; try reflexivity. now destruct w.
  - unfold CSVStorage.__init__, CSVStorage._ensure_file_exists.
    destruct f; try reflexivity. now destruct w.
  - unfold CSVStorage.__init__, CSVStorage._ensure_file_exists, csv_absent.
    destruct f; try reflexivity. now destruct w.
Qed.

Lemma rmap_length {A B} (f : A -> result B) l rs :
  rmap f l = Ok rs -> List.length rs = List.length l.
Proof.
  intros H. apply rmap_Forall2 in H. symmetry.
  exact (Forall2_length _ _ _ H).
Qed.

(** X21. Whenever [get_all] returns, [count] returns the number of
    records it returned, in both stores. *)
Theorem X21_count_is_the_length_of_get_all :
  (forall d l d',
      JSONStorage.get_all d = (Ok l, d') ->
      JSONStorage.count d = (Ok (List.length l), d))
  /\ (forall d l d',
        CSVStorage.get_all d = (Ok l, d') ->
        CSVStorage.count d = (Ok (List.length l), d)).
Proof.
  split; intros d l d'.
  - unfold JSONStorage.get_all, JSONStorage.count.
    destruct (JSONStorage._load_data d) as [data|e]; [|discriminate].
    intros [= H _]. now rewrite (rmap_length _ _ _ H).
  - unfold CSVStorage.get_all, CSVStorage.get_aircraft, CSVStorage.count.
    destruct (CSVStorage._load_data d) as [data|e]; [|discriminate].
    intros [= H _]. now rewrite (rmap_length _ _ _ H).
Qed.

Lemma X21_count_is_the_length_of_get_all_witness :
  JSONStorage.count json_twice = (Ok 2%nat, json_twice).
Proof.
  apply (proj1 X21_count_is_the_length_of_get_all json_twice
           [AFL101_slow; AFL101] json_twice).
  vm_compute. reflexivity.
Defined.

Lemma filter_none c data :
  ~ present c data -> List.filter (callsign_is c) data = [].
Proof.
  induction data as [|item rest IH]; simpl; intros H; [reflexivity|].
  destruct (callsign_is c item) eqn:E.
  - exfalso. apply H. exists item. split; [left|exact E].
  - apply IH. intros (x & Hx & Hc). apply H. exists x. split; [now right|exact Hc].
Qed.

Lemma unique_head_absent c item rest :
  unique_callsigns (item :: rest) -> callsign_is c item = true ->
  ~ present c rest.
Proof.
  unfold unique_callsigns, callsigns. rewrite fmap_cons.
  intros Hu Hc (x & Hx & Hcx). apply NoDup_cons in Hu as [Hni _].
  apply Hni. apply callsign_is_iff in Hc, Hcx. rewrite Hc, <- Hcx.
  apply list_elem_of_fmap. now exists x.
Qed.

(** After an upsert into records with distinct callsigns, one record
    has the callsign. *)
Lemma filter_upsert f c new data :
  (forall item, callsign_is c (f item) = true) ->
  callsign_is c new = true ->
  unique_callsigns data ->
  exists item,
    List.filter (callsign_is c) (upsert_with f c new data) = [item]
    /\ (item = new \/ exists existing, item = f existing).
Proof.
  intros Hf Hn. induction data as [|x rest IH]; intros Hu; cbn [upsert_with].
  - exists new. simpl. rewrite Hn. auto.
  - destruct (callsign_is c x) eqn:E.
    + exists (f x). simpl. rewrite Hf.
      rewrite (filter_none c rest) by (eapply unique_head_absent; eauto).
      eauto.
    + simpl. rewrite E. apply IH.
      unfold unique_callsigns, callsigns in *. rewrite fmap_cons in Hu.
      now apply NoDup_cons in Hu as [_ Hu].
Qed.

Lemma json_matches_callsign c item :
  json_matches [("callsign", VStr c)] item = callsign_is c item.
Proof.
  unfold json_matches, callsign_is, Py.get. simpl.
  destruct (item !! "callsign"); simpl; [apply andb_true_r|reflexivity].
Qed.

Lemma csv_matches_callsign c row :
  csv_matches [("callsign", VStr c)] row = callsign_is c row.
Proof. unfold csv_matches, callsign_is. simpl. apply andb_true_r. Qed.

Lemma filter_ext_eq {A} (p q : A -> bool) l :
  (forall x, p x = q x) -> List.filter p l = List.filter q l.
Proof.
  intros H. induction l as [|x l IH]; simpl; [reflexivity|].
  now rewrite H, IH.
Qed.

Lemma from_dict_union a existing :
  Aircraft.from_dict (Aircraft.to_dict a ∪ existing)
  = Aircraft.from_dict (Aircraft.to_dict a).
Proof.
  unfold Aircraft.from_dict, Py.get_or.
  now rewrite !header_in_to_dict
    by (apply list_elem_of_In; simpl; tauto).
Qed.

Section AddThenGet.

Variable float_repr : PyFloat.float -> string.

(** X22. After [add_aircraft] on a writable file in the layout of the
    store, with distinct callsigns, [get_aircraft] by the callsign of
    the record returns one record: in the JSON store the record added,
    when it is one that [from_dict] and [to_dict] leave as it is; in the
    CSV store the record its row reads as. *)
Theorem X22_add_then_get_by_callsign :
  (forall d data a,
      json_layout d data ->
      JSONStorage.writable d = true ->
      unique_callsigns data ->
      Aircraft.from_dict (Aircraft.to_dict a) = Ok a ->
      exists d',
        JSONStorage.add_aircraft a d = (Ok true, d')
        /\ JSONStorage.get_aircraft
             (Some [("callsign", VStr (Aircraft.callsign a))]) d'
           = (Ok [a], d'))
  /\ (forall d rows a new_row a',
        csv_layout d rows ->
        CSVStorage.writable d = true ->
        unique_callsigns (CSVStorage.read_rows rows) ->
        CSVStorage._aircraft_to_row float_repr a = Ok new_row ->
        CSVStorage._row_to_aircraft (as_text float_repr new_row) = Ok a' ->
        exists d',
          CSVStorage.add_aircraft float_repr a d = (Ok true, d')
          /\ CSVStorage.get_aircraft
               (Some [("callsign", VStr (Aircraft.callsign a))]) d'
             = (Ok [a'], d')).
Proof.
  split.
  - intros d data a Hl Hw Hu Ha.
    rewrite json_add_aircraft.
    unfold JSONStorage._load_data, JSONStorage._save_data.
    red in Hl. rewrite Hl, Hw. eexists. split; [reflexivity|].
    unfold JSONStorage.get_aircraft, JSONStorage._load_data.
    cbn [JSONStorage.file_of]. rewrite filter_items_spec.
    rewrite (filter_ext_eq _ _ _ (json_matches_callsign _)).
    unfold json_upsert.
    destruct (filter_upsert (union (Aircraft.to_dict a)) (Aircraft.callsign a)
                (Aircraft.to_dict a) data) as (item & -> & Hi).
    + intros item. apply callsign_is_iff, union_to_dict_key.
    + apply callsign_is_iff, to_dict_key.
    + exact Hu.
    + unfold Aircraft.cast_to_object_list. cbn [rmap].
      destruct Hi as [->|[existing ->]]; rewrite ?from_dict_union, Ha;
        reflexivity.
  - intros d rows a new_row a' Hl Hw Hu Hrow Hread.
    destruct (csv_add_aircraft_layout float_repr d rows a new_row Hl Hw Hrow)
      as (d' & Hadd & _ & _ & Hload).
    exists d'. split; [exact Hadd|].
    unfold CSVStorage.get_aircraft. rewrite Hload.
    rewrite select_rows_spec by (eapply csv_load_cells; exact Hload).
    rewrite (filter_ext_eq _ _ _ (csv_matches_callsign _)).
    destruct (aircraft_to_row_facts float_repr a new_row Hrow) as (_ & Hk & _).
    destruct (filter_upsert (fun _ => as_text float_repr new_row)
                (Aircraft.callsign a) (as_text float_repr new_row)
                (CSVStorage.read_rows rows)) as (item & Hf & Hi).
    + intros _. now apply callsign_is_iff, as_text_get.
    + now apply callsign_is_iff, as_text_get.
    + exact Hu.
    + unfold csv_upsert. rewrite Hf. cbn [rmap].
      destruct Hi as [->|[_ ->]]; rewrite Hread; reflexivity.
Qed.

Lemma without_added c new data :
  callsign_is c new = true -> ~ present c data ->
  without c (data ++ [new]) = data.
Proof.
  intros Hn Hp. unfold without. rewrite List.filter_app. simpl. rewrite Hn.
  simpl. rewrite app_nil_r. now apply without_absent.
Qed.

(** X23. On a file in the layout of the store that can be written and
    holds no record with the callsign of [a], [add_aircraft(a)] and
    then [delete_aircraft] of that callsign both return [True] and give
    back what the store held: the same JSON file, and, for a record
    that [_aircraft_to_row] gives a row, a CSV file that reads as the
    same rows. *)
Theorem X23_delete_undoes_add :
  (forall d data a,
      json_layout d data ->
      JSONStorage.writable d = true ->
      ~ present (Aircraft.callsign a) data ->
      exists d1,
        JSONStorage.add_aircraft a d = (Ok true, d1)
        /\ JSONStorage.delete_aircraft (Aircraft.callsign a) d1 = (Ok true, d))
  /\ (forall d rows a new_row,
        csv_layout d rows ->
        CSVStorage.writable d = true ->
        ~ present (Aircraft.callsign a) (CSVStorage.read_rows rows) ->
        CSVStorage._aircraft_to_row float_repr a = Ok new_row ->
        exists d1 d2,
          CSVStorage.add_aircraft float_repr a d = (Ok true, d1)
          /\ CSVStorage.delete_aircraft float_repr (Aircraft.callsign a) d1
             = (Ok true, d2)
          /\ CSVStorage._load_data d2 = CSVStorage._load_data d).
Proof.
  split.
  - intros [f w] data a Hl Hw Hp. red in Hl. simpl in Hl, Hw. subst f w.
    rewrite json_add_aircraft.
    unfold JSONStorage._load_data, JSONStorage._save_data.
    cbn [JSONStorage.file_of JSONStorage.writable]. unfold json_upsert.
    rewrite upsert_absent by (now apply position_None).
    eexists. split; [reflexivity|].
    rewrite (json_delete _ (data ++ [Aircraft.to_dict a])) by reflexivity.
    rewrite without_added;
      [|apply callsign_is_iff, to_dict_key|exact Hp].
    rewrite length_app. simpl.
    now rewrite (proj2 (Nat.ltb_lt _ _)) by lia.
  - intros d rows a new_row Hl Hw Hp Hrow.
    destruct (layout_load _ _ Hl) as [Hload Hdata].
    destruct (csv_add_aircraft_layout float_repr d rows a new_row Hl Hw Hrow)
      as (d1 & Hadd & Hl1 & Hw1 & Hload1).
    destruct (layout_load _ _ Hl1) as [Hload1' _].
    rewrite Hload1 in Hload1'. injection Hload1' as Hrows1.
    destruct (aircraft_to_row_facts float_repr a new_row Hrow) as (_ & Hk & _).
    assert (Hc : callsign_is (Aircraft.callsign a) (as_text float_repr new_row)
                 = true) by (now apply callsign_is_iff, as_text_get).
    assert (Hup : csv_upsert (Aircraft.callsign a) (as_text float_repr new_row)
                    (CSVStorage.read_rows rows)
                  = CSVStorage.read_rows rows ++ [as_text float_repr new_row]).
    { unfold csv_upsert. apply upsert_absent. now apply position_None. }
    destruct (csv_delete_present float_repr d1 _ (Aircraft.callsign a)
                Hl1 Hw1) as (d2 & Hdel & _ & _ & Hload2).
    { rewrite <- Hrows1, Hup. exists (as_text float_repr new_row).
      split; [|exact Hc]. apply elem_of_app. right. now left. }
    exists d1, d2. split; [exact Hadd|]. split; [exact Hdel|].
    rewrite Hload2, <- Hrows1, Hup, Hload. f_equal.
    now apply without_added.
Qed.

End AddThenGet.

Lemma X22_add_then_get_by_callsign_witness :
  exists d',
    JSONStorage.add_aircraft AFL101 json_empty = (Ok true, d')
    /\ JSONStorage.get_aircraft (Some [("callsign", VStr "AFL101")]) d'
       = (Ok [AFL101], d').
Proof.
  apply (proj1 (X22_add_then_get_by_callsign no_repr) json_empty [] AFL101).
  - reflexivity.
  - reflexivity.
  - constructor.
  - vm_compute. reflexivity.
Defined.

Lemma X23_delete_undoes_add_witness :
  exists d1,
    JSONStorage.add_aircraft AFL101 json_empty = (Ok true, d1)
    /\ JSONStorage.delete_aircraft "AFL101" d1 = (Ok true, json_empty).
Proof.
  apply (proj1 (X23_delete_undoes_add no_repr) json_empty [] AFL101).
  - reflexivity.
  - reflexivity.
  - intros (item & H & _). now apply elem_of_nil in H.
Defined.

(** ** A store reads what it wrote *)

Lemma rmap_total {A B} (f : A -> result B) l :
  Forall (fun x => exists y, f x = Ok y) l -> exists ys, rmap f l = Ok ys.
Proof.
  induction 1 as [|x l [y Hy] _ [ys IH]]; simpl; [now exists []|].
  rewrite Hy, IH. simpl. now eexists.
Qed.

Lemma validate_velocity_float x :
  exists v, Aircraft._validate_velocity (VFloat x) = Ok v.
Proof. unfold Aircraft._validate_velocity. simpl. now eexists. Qed.

Lemma validate_altitude_float x :
  exists v, Aircraft._validate_altitude (VFloat x) = Ok v.
Proof. unfold Aircraft._validate_altitude. simpl. now eexists. Qed.

Lemma init_floats callsign origin_country x y kwargs :
  exists r,
    Aircraft.__init__ callsign origin_country (VFloat x) (VFloat y) kwargs
    = Ok r.
Proof.
  unfold Aircraft.__init__.
  destruct (validate_velocity_float x) as [v ->].
  destruct (validate_altitude_float y) as [a ->].
  simpl. now eexists.
Qed.

Lemma to_dict_readable a : json_readable (Aircraft.to_dict a).
Proof. unfold json_readable, Aircraft.from_dict. apply init_floats. Qed.

Lemma json_upsert_readable data a :
  Forall json_readable data -> Forall json_readable (json_upsert data a).
Proof.
  apply upsert_Forall; [apply to_dict_readable|].
  intros item _. unfold json_readable. rewrite from_dict_union.
  apply to_dict_readable.
Qed.

Lemma fold_json_upsert_readable l data :
  Forall json_readable data ->
  Forall json_readable (fold_left json_upsert l data).
Proof.
  revert data. induction l as [|a l IH]; intros data H; [exact H|].
  simpl. apply IH. now apply json_upsert_readable.
Qed.

Lemma json_commit_sound data d :
  json_sound_store d -> Forall json_readable data ->
  json_sound_store (snd (JSONStorage._save_data data d)).
Proof.
  intros Hd H. unfold JSONStorage._save_data.
  destruct (JSONStorage.writable d); [|exact Hd].
  exists data. now split.
Qed.

Lemma json_apply_sound o d :
  json_sound_store d -> json_sound_store (json_apply o d).
Proof.
  intros Hd. pose proof Hd as (data & Hload & H).
  destruct o as [a|l|c|]; cbn [json_apply].
  - rewrite json_add_aircraft, Hload.
    pose proof (json_commit_sound (json_upsert data a) d Hd
                  (json_upsert_readable _ _ H)) as H'.
    now destruct (JSONStorage._save_data _ d).
  - unfold JSONStorage.add_multiple_aircraft. rewrite Hload, json_add_each.
    pose proof (json_commit_sound (fold_left json_upsert l data) d Hd
                  (fold_json_upsert_readable _ _ H)) as H'.
    now destruct (JSONStorage._save_data _ d).
  - unfold JSONStorage.delete_aircraft. rewrite Hload.
    change (List.filter _ data) with (without c data).
    destruct (_ <? _)%nat; [|exact Hd].
    pose proof (json_commit_sound (without c data) d Hd
                  (Forall_without _ _ _ H)) as H'.
    now destruct (JSONStorage._save_data _ d).
  - unfold JSONStorage.clear.
    pose proof (json_commit_sound [] d Hd (List.Forall_nil _)) as H'.
    now destruct (JSONStorage._save_data _ d).
Qed.

Lemma json_run_sound steps d :
  json_sound_store d -> json_sound_store (json_run steps d).
Proof.
  revert d. induction steps as [|[o w] steps IH]; intros d Hd; [exact Hd|].
  simpl. apply IH. unfold json_step. apply json_apply_sound.
  destruct Hd as (data & Hload & H). now exists data.
Qed.

(** X24. The JSON store reads what it wrote.  Starting from a file whose
    records can all be read, and so from a new store, after any
    additions, deletions and clearings, by one record or many, whether
    each could write the file or not, [get_all] returns a list and does
    not raise. *)
Theorem X24_json_store_reads_what_it_wrote steps d :
  json_sound_store d ->
  exists l,
    JSONStorage.get_all (json_run steps d) = (Ok l, json_run steps d)
    /\ JSONStorage.count (json_run steps d)
       = (Ok (List.length l), json_run steps d).
Proof.
  intros Hd. destruct (json_run_sound steps d Hd) as (data & Hload & H).
  unfold JSONStorage.get_all, JSONStorage.count. rewrite Hload.
  destruct (rmap_total Aircraft.from_dict data H) as [l Hl].
  exists l. unfold Aircraft.cast_to_object_list. rewrite Hl.
  split; [reflexivity|]. now rewrite (rmap_length _ _ _ Hl).
Qed.

Lemma X24_json_store_reads_what_it_wrote_witness :
  exists l,
    JSONStorage.get_all
      (json_run [(OpAdd AFL101, true); (OpDelete "AFL101", false)]
         (JSONStorage.__init__ json_nothing))
    = (Ok l,
       json_run [(OpAdd AFL101, true); (OpDelete "AFL101", false)]
         (JSONStorage.__init__ json_nothing))
    /\ JSONStorage.count
         (json_run [(OpAdd AFL101, true); (OpDelete "AFL101", false)]
            (JSONStorage.__init__ json_nothing))
       = (Ok (List.length l),
          json_run [(OpAdd AFL101, true); (OpDelete "AFL101", false)]
            (JSONStorage.__init__ json_nothing)).
Proof.
  apply (X24_json_store_reads_what_it_wrote
           [(OpAdd AFL101, true); (OpDelete "AFL101", false)]
           (JSONStorage.__init__ json_nothing)).
  exists []. split; [reflexivity|constructor].
Defined.

Section CsvSound.

Variable float_repr : PyFloat.float -> string.

Lemma format_f_reads nd v s :
  Py.format_f nd v = Ok s -> exists y, Py.float (VStr s) = Ok y.
Proof.
  assert (R : forall x, exists y,
             Py.float (VStr (PyFloat.format_fixed nd x)) = Ok y).
  { intros x. destruct (format_fixed_reads nd x) as [y Hy].
    exists y. simpl. now rewrite Hy. }
  destruct v as [|b|z|x|t]; simpl; try discriminate.
  - destruct (Py.float_of_int _) as [x|e]; [|discriminate].
    simpl. intros [= <-]. apply R.
  - destruct (Py.float_of_int _) as [x|e]; [|discriminate].
    simpl. intros [= <-]. apply R.
  - intros [= <-]. apply R.
Qed.

(** The row of a record, read back from the file, makes a record. *)
Lemma written_row_readable a new_row :
  CSVStorage._aircraft_to_row float_repr a = Ok new_row ->
  csv_readable (as_text float_repr new_row).
Proof.
  unfold CSVStorage._aircraft_to_row.
  destruct (Py.format_f 6 (Aircraft._longitude a)) as [lon|] eqn:Elon;
    [|discriminate].
  destruct (Py.format_f 6 (Aircraft._latitude a)) as [lat|] eqn:Elat;
    [|discriminate].
  destruct (Py.format_f 2 (Aircraft._vertical_rate a)) as [vr|] eqn:Evr;
    [|discriminate].
  cbn [rbind]. intros [= <-].
  destruct (format_f_reads _ _ _ Elon) as [xlon Hlon].
  destruct (format_f_reads _ _ _ Elat) as [xlat Hlat].
  destruct (format_f_reads _ _ _ Evr) as [xvr Hvr].
  destruct (format_f_reads 2 (VFloat (Aircraft.velocity a)) _ eq_refl)
    as [xv Hv].
  destruct (format_f_reads 2 (VFloat (Aircraft.altitude a)) _ eq_refl)
    as [xa Ha].
  unfold csv_readable, CSVStorage._row_to_aircraft.
  match goal with
  | |- context [as_text float_repr ?row] => set (R := as_text float_repr row)
  end.
  change (Py.item R "callsign") with (Ok (VStr (Aircraft.callsign a))).
  change (Py.item R "origin_country")
    with (Ok (VStr (Aircraft.origin_country a))).
  change (Py.item R "velocity")
    with (Ok (VStr (PyFloat.format_fixed 2 (Aircraft.velocity a)))).
  change (Py.item R "altitude")
    with (Ok (VStr (PyFloat.format_fixed 2 (Aircraft.altitude a)))).
  change (Py.item R "icao24")
    with (Ok (VStr (CSVStorage.csv_text float_repr (Aircraft._icao24 a)))).
  change (Py.item R "longitude") with (Ok (VStr lon)).
  change (Py.item R "latitude") with (Ok (VStr lat)).
  change (Py.item R "on_ground")
    with (Ok (VStr (Py.str float_repr (Aircraft._on_ground a)))).
  change (Py.item R "vertical_rate") with (Ok (VStr vr)).
  cbn [rbind]. rewrite Hv, Ha, Hlon, Hlat, Hvr. cbn [rbind].
  apply init_floats.
Qed.

Lemma csv_commit_sound data d :
  csv_sound_store d ->
  Forall (writable_row float_repr) data ->
  Forall (fun row => csv_readable (as_text float_repr row)) data ->
  csv_sound_store (snd (CSVStorage._save_data float_repr data d)).
Proof.
  intros Hd Hw Hr.
  destruct (CSVStorage.writable d) eqn:Hwr.
  - destruct (save_then_load float_repr data d Hw Hwr)
      as (d' & -> & _ & _ & Hld).
    cbn [snd]. eexists. split; [exact Hld|].
    now apply Forall_fmap.
  - unfold CSVStorage._save_data. now rewrite Hwr.
Qed.

Lemma loaded_readable_text data :
  Forall loaded data -> Forall csv_readable data ->
  Forall (fun row => csv_readable (as_text float_repr row)) data.
Proof.
  intros Hl Hr. apply List.Forall_forall. intros row Hin.
  destruct (proj1 (List.Forall_forall _ _) Hl row Hin) as (_ & Ht & _).
  rewrite (as_text_loaded float_repr _ Ht).
  exact (proj1 (List.Forall_forall _ _) Hr row Hin).
Qed.

Lemma Forall_and {B} (P Q : B -> Prop) l :
  Forall P l -> Forall Q l -> Forall (fun x => P x /\ Q x) l.
Proof. induction 1; intros HQ; inversion HQ; subst; constructor; auto. Qed.

Lemma csv_apply_sound o d :
  csv_keyed_store d -> csv_sound_store d ->
  csv_sound_store (csv_apply float_repr o d).
Proof.
  intros Hd Hs. pose proof Hd as (rows & Hl & Hu).
  destruct (layout_load _ _ Hl) as [Hload Hdata].
  assert (Hr : Forall csv_readable (CSVStorage.read_rows rows)).
  { destruct Hs as (data & Hload' & Hr). rewrite Hload in Hload'.
    now injection Hload' as <-. }
  assert (Hw : Forall (writable_row float_repr) (CSVStorage.read_rows rows))
    by (eapply Forall_impl; [exact Hdata|apply loaded_writable]).
  assert (Hk : Forall keyed (CSVStorage.read_rows rows))
    by (eapply Forall_impl; [exact Hdata|apply loaded_keyed]).
  pose proof (loaded_readable_text _ Hdata Hr) as Ht.
  destruct o as [a|l|c|]; cbn [csv_apply].
  - unfold CSVStorage.add_aircraft. rewrite Hload.
    destruct (CSVStorage._aircraft_to_row float_repr a) as [row|e] eqn:Hrow;
      [|exact Hs].
    pose proof (csv_scan_upsert (Aircraft.callsign a) row
                  (CSVStorage.read_rows rows)) as Hscan.
    assert (H : csv_sound_store
                  (snd (CSVStorage._save_data float_repr
                          (csv_upsert (Aircraft.callsign a) row
                             (CSVStorage.read_rows rows)) d))).
    { apply csv_commit_sound; [exact Hs| |].
      - apply upsert_Forall; [now apply (new_row_writable float_repr a)
                             |intros; now apply (new_row_writable float_repr a)
                             |exact Hw].
      - apply upsert_Forall;
          [now apply (written_row_readable a)
          |intros; now apply (written_row_readable a)|exact Ht]. }
    rewrite <- Hscan in H.
    now destruct (CSVStorage.find_existing _ _ 0).
  - unfold CSVStorage.add_multiple_aircraft.
    destruct l as [|a l]; [exact Hs|]. rewrite Hload.
    destruct (index_rows_ok [] (CSVStorage.read_rows rows) [] Hk Hu)
      as (ix & Hix & Hok); [intros q; reflexivity|].
    simpl List.length in Hix. rewrite Hix. cbn [rbind].
    destruct (CSVStorage.add_each float_repr (a :: l) _ ix 0)
      as [[data' n']|e] eqn:Hrun; [|exact Hs].
    assert (HP0 : forall a' row,
               CSVStorage._aircraft_to_row float_repr a' = Ok row ->
               writable_row float_repr row
               /\ csv_readable (as_text float_repr row)).
    { intros a' row Hrow. split; [now apply (new_row_writable float_repr a')|].
      now apply (written_row_readable a'). }
    destruct (csv_add_each_unique float_repr _ (a :: l) HP0 _ _ _ _ _
                Hrun Hok (Forall_and _ _ _ Hw Ht) Hu) as [HP _].
    assert (H : csv_sound_store
                  (snd (CSVStorage._save_data float_repr data' d))).
    { apply csv_commit_sound; [exact Hs| |].
      - eapply Forall_impl; [exact HP|]. now intros row [? _].
      - eapply Forall_impl; [exact HP|]. now intros row [_ ?]. }
    now destruct (CSVStorage._save_data float_repr data' d).
  - unfold CSVStorage.delete_aircraft. rewrite Hload.
    change (List.filter _ (CSVStorage.read_rows rows))
      with (without c (CSVStorage.read_rows rows)).
    destruct (_ <? _)%nat; [|exact Hs].
    assert (H : csv_sound_store
                  (snd (CSVStorage._save_data float_repr
                          (without c (CSVStorage.read_rows rows)) d))).
    { apply csv_commit_sound; [exact Hs| |]; now apply Forall_without. }
    now destruct (CSVStorage._save_data float_repr _ d).
  - unfold CSVStorage.clear.
    apply csv_commit_sound; [exact Hs|constructor|constructor].
Qed.

Lemma csv_run_sound steps d :
  csv_keyed_store d -> csv_sound_store d ->
  csv_keyed_store (csv_run float_repr steps d)
  /\ csv_sound_store (csv_run float_repr steps d).
Proof.
  revert d. induction steps as [|[o w] steps IH]; intros d Hd Hs;
    [now split|].
  assert (Hd' : csv_keyed_store
                  {| CSVStorage.file_of := CSVStorage.file_of d;
                     CSVStorage.writable := w |}).
  { destruct Hd as (rows & [Hf Hrows] & Hu). exists rows.
    split; [split; [exact Hf|exact Hrows]|exact Hu]. }
  assert (Hs' : csv_sound_store
                  {| CSVStorage.file_of := CSVStorage.file_of d;
                     CSVStorage.writable := w |}).
  { destruct Hs as (data & Hload & Hr). now exists data. }
  simpl. apply IH; unfold csv_step; cbn [fst snd];
    [now apply csv_apply_keeps|now apply csv_apply_sound].
Qed.

(** X25. The CSV store reads what it wrote.  Starting from a file in the
    layout of the store whose rows have distinct callsigns and can all
    be read, and so from a new store, after any additions, deletions and
    clearings, by one record or many, whether each could write the file
    or not, [get_all] returns a list and does not raise. *)
Theorem X25_csv_store_reads_what_it_wrote steps d :
  csv_keyed_store d ->
  csv_sound_store d ->
  exists l,
    CSVStorage.get_all (csv_run float_repr steps d)
    = (Ok l, csv_run float_repr steps d)
    /\ CSVStorage.count (csv_run float_repr steps d)
       = (Ok (List.length l), csv_run float_repr steps d).
Proof.
  intros Hd Hs.
  destruct (csv_run_sound steps d Hd Hs) as [_ (data & Hload & H)].
  unfold CSVStorage.get_all, CSVStorage.get_aircraft, CSVStorage.count.
  rewrite Hload.
  destruct (rmap_total CSVStorage._row_to_aircraft data H) as [l Hl].
  exists l. rewrite Hl.
  split; [reflexivity|]. now rewrite (rmap_length _ _ _ Hl).
Qed.

End CsvSound.

Lemma X25_csv_store_reads_what_it_wrote_witness :
  exists l,
    CSVStorage.get_all
      (csv_run no_repr [(OpAddMany [AFL101; AFL101_slow], true)] csv_empty)
    = (Ok l,
       csv_run no_repr [(OpAddMany [AFL101; AFL101_slow], true)] csv_empty)
    /\ CSVStorage.count
         (csv_run no_repr [(OpAddMany [AFL101; AFL101_slow], true)] csv_empty)
       = (Ok (List.length l),
          csv_run no_repr [(OpAddMany [AFL101; AFL101_slow], true)] csv_empty).
Proof.
  apply (X25_csv_store_reads_what_it_wrote no_repr
           [(OpAddMany [AFL101; AFL101_slow], true)] csv_empty).
  - exists []. split; [split; [reflexivity|constructor]|constructor].
  - exists []. split; [reflexivity|constructor].
Defined.

(** ** Deleting, and files that cannot be written *)

Lemma without_idem c data : without c (without c data) = without c data.
Proof.
  unfold without. induction data as [|item rest IH]; simpl; [reflexivity|].
  destruct (callsign_is c item) eqn:E; simpl; [exact IH|].
  now rewrite E, IH.
Qed.

Lemma without_not_present c data : ~ present c (without c data).
Proof.
  intros (item & Hin & Hc). unfold without in Hin.
  apply list_elem_of_In, filter_In in Hin as [_ Hn].
  rewrite Hc in Hn. discriminate.
Qed.

Lemma position_present c data i : position c data = Some i -> present c data.
Proof.
  intros Hp. apply position_Some in Hp as [(x & Hx & Hcx) _].
  exists x. split; [|exact Hcx]. now apply list_elem_of_lookup_2 in Hx.
Qed.

Lemma json_get_absent c d data :
  JSONStorage._load_data d = Ok data -> ~ present c data ->
  fst (JSONStorage.get_aircraft (Some [("callsign", VStr c)]) d) = Ok [].
Proof.
  intros Hload Hp. unfold JSONStorage.get_aircraft. rewrite Hload.
  rewrite filter_items_spec, (filter_ext_eq _ _ _ (json_matches_callsign _)).
  now rewrite (filter_none c) by exact Hp.
Qed.

Lemma csv_get_absent c d data :
  CSVStorage._load_data d = Ok data -> ~ present c data ->
  fst (CSVStorage.get_aircraft (Some [("callsign", VStr c)]) d) = Ok [].
Proof.
  intros Hload Hp. unfold CSVStorage.get_aircraft. rewrite Hload.
  rewrite select_rows_spec by (eapply csv_load_cells; exact Hload).
  rewrite (filter_ext_eq _ _ _ (csv_matches_callsign _)).
  now rewrite (filter_none c) by exact Hp.
Qed.

Lemma json_delete_result c data w :
  JSONStorage.delete_aircraft c
    {| JSONStorage.file_of := JSONStorage.Parsed data;
       JSONStorage.writable := w |}
  = if (List.length (without c data) <? List.length data)%nat && w
    then (Ok true,
          {| JSONStorage.file_of := JSONStorage.Parsed (without c data);
             JSONStorage.writable := true |})
    else (Ok false,
          {| JSONStorage.file_of := JSONStorage.Parsed data;
             JSONStorage.writable := w |}).
Proof.
  rewrite (json_delete _ data c) by reflexivity.
  destruct (_ <? _)%nat, w; reflexivity.
Qed.

Section DeleteTwice.

Variable float_repr : PyFloat.float -> string.

(** X26. Once [delete_aircraft] has run on a writable file, no record
    of that callsign is left: retrieval by the callsign returns the
    empty list and a second deletion answers [False].  In the JSON store
    the second deletion answers [False] on a file that cannot be written
    as well. *)
Theorem X26_delete_is_final c :
  (forall d data,
      json_layout d data ->
      fst (JSONStorage.delete_aircraft c
             (snd (JSONStorage.delete_aircraft c d))) = Ok false
      /\ (JSONStorage.writable d = true ->
          fst (JSONStorage.get_aircraft (Some [("callsign", VStr c)])
                 (snd (JSONStorage.delete_aircraft c d))) = Ok []))
  /\ (forall d rows,
        csv_layout d rows ->
        CSVStorage.writable d = true ->
        fst (CSVStorage.delete_aircraft float_repr c
               (snd (CSVStorage.delete_aircraft float_repr c d))) = Ok false
        /\ fst (CSVStorage.get_aircraft (Some [("callsign", VStr c)])
                  (snd (CSVStorage.delete_aircraft float_repr c d))) = Ok []).
Proof.
  split.
  - intros [f w] data Hl. red in Hl. simpl in Hl. subst f.
    rewrite json_delete_result.
    destruct (_ <? _)%nat eqn:Hlt; destruct w; cbn [andb snd];
      rewrite json_delete_result; rewrite ?without_idem, ?Nat.ltb_irrefl, ?Hlt;
      cbn [andb fst]; (split; [reflexivity|]); try discriminate; intros _.
    + apply (json_get_absent c _ (without c data));
        [reflexivity|apply without_not_present].
    + apply (json_get_absent c _ data); [reflexivity|].
      intros Hp. apply ltb_without in Hp. congruence.
  - intros d rows Hl Hw.
    destruct (layout_load _ _ Hl) as [Hload Hdata].
    destruct (position c (CSVStorage.read_rows rows)) as [i|] eqn:Hp.
    + apply position_present in Hp.
      destruct (csv_delete_present float_repr d rows c Hl Hw Hp)
        as (d' & -> & Hl' & Hw' & Hload').
      cbn [snd]. destruct (layout_load _ _ Hl') as [Hload'' _].
      rewrite Hload' in Hload''. injection Hload'' as Hrows'.
      split.
      * rewrite (csv_delete_absent float_repr d' _ c Hl');
          [reflexivity|].
        rewrite <- Hrows'. apply without_not_present.
      * apply (csv_get_absent c d' _ Hload'). apply without_not_present.
    + apply position_None in Hp.
      rewrite (csv_delete_absent float_repr d rows c Hl Hp). cbn [snd].
      rewrite (csv_delete_absent float_repr d rows c Hl Hp).
      split; [reflexivity|]. now apply (csv_get_absent c d _ Hload).
Qed.

End DeleteTwice.

Lemma X26_delete_is_final_witness :
  fst (JSONStorage.delete_aircraft "AFL101"
         (snd (JSONStorage.delete_aircraft "AFL101" json_twice))) = Ok false
  /\ (JSONStorage.writable json_twice = true ->
      fst (JSONStorage.get_aircraft (Some [("callsign", VStr "AFL101")])
             (snd (JSONStorage.delete_aircraft "AFL101" json_twice))) = Ok []).
Proof.
  apply (proj1 (X26_delete_is_final no_repr "AFL101") json_twice
           [Aircraft.to_dict AFL101_slow; Aircraft.to_dict AFL101]).
  reflexivity.
Defined.

Lemma cells_of_stored cs oc v a i lo la og vr :
  stored_cells (cells_of cs oc v a i lo la og vr).
Proof.
  split.
  - unfold cells_of, header_set. rewrite !dom_insert_L, dom_empty_L.
    simpl. set_solver.
  - intros k c Hk. unfold cells_of in Hk.
    repeat (apply lookup_insert_Some in Hk as [[_ <-]|[_ Hk]];
            [eexists; reflexivity|]).
    now rewrite lookup_empty in Hk.
Qed.

Section ReadOnly.

Variable float_repr : PyFloat.float -> string.

(** X27. On a file that can be read but not written the stores leave
    the file as it is.  [add_aircraft] answers [False], in the CSV
    store for a record that [_aircraft_to_row] gives a row (for any
    other record it raises what [_aircraft_to_row] raises), and [clear]
    answers [False].  [delete_aircraft] of the JSON store answers
    [False]; that of the CSV store answers [True] when a row has the
    callsign, although the row stays, and [False] when none has. *)
Theorem X27_files_that_cannot_be_written :
  (forall d data a c,
      JSONStorage._load_data d = Ok data ->
      JSONStorage.writable d = false ->
      JSONStorage.add_aircraft a d = (Ok false, d)
      /\ JSONStorage.delete_aircraft c d = (Ok false, d)
      /\ JSONStorage.clear d = (Ok false, d))
  /\ (forall d data a c,
        CSVStorage._load_data d = Ok data ->
        CSVStorage.writable d = false ->
        (forall new_row,
            CSVStorage._aircraft_to_row float_repr a = Ok new_row ->
            CSVStorage.add_aircraft float_repr a d = (Ok false, d))
        /\ (forall e,
              CSVStorage._aircraft_to_row float_repr a = Raise e ->
              CSVStorage.add_aircraft float_repr a d = (Raise e, d))
        /\ CSVStorage.clear float_repr d = (Ok false, d)
        /\ (present c data ->
            CSVStorage.delete_aircraft float_repr c d = (Ok true, d))
        /\ (~ present c data ->
            CSVStorage.delete_aircraft float_repr c d = (Ok false, d))).
Proof.
  split.
  - intros d data a c Hload Hw. split; [|split].
    + rewrite json_add_aircraft, Hload. unfold JSONStorage._save_data.
      now rewrite Hw.
    + unfold JSONStorage.delete_aircraft, JSONStorage._save_data.
      rewrite Hload, Hw. now destruct (_ <? _)%nat.
    + unfold JSONStorage.clear, JSONStorage._save_data. now rewrite Hw.
  - intros d data a c Hload Hw.
    split; [|split; [|split; [|split]]].
    + intros new_row Hrow.
      unfold CSVStorage.add_aircraft, CSVStorage._save_data.
      rewrite Hload, Hrow, Hw. now destruct (CSVStorage.find_existing _ _ 0).
    + intros e Hrow. unfold CSVStorage.add_aircraft.
      now rewrite Hload, Hrow.
    + unfold CSVStorage.clear, CSVStorage._save_data. now rewrite Hw.
    + intros Hp. unfold CSVStorage.delete_aircraft, CSVStorage._save_data.
      rewrite Hload, Hw.
      change (List.filter _ data) with (without c data).
      now rewrite (proj2 (ltb_without _ _) Hp).
    + intros Hp. unfold CSVStorage.delete_aircraft.
      rewrite Hload.
      change (List.filter _ data) with (without c data).
      destruct (_ <? _)%nat eqn:Hlt; [|reflexivity].
      now apply ltb_without in Hlt.
Qed.

End ReadOnly.

Lemma X27_files_that_cannot_be_written_witness :
  CSVStorage.delete_aircraft no_repr "AFL101" csv_read_only
  = (Ok true, csv_read_only).
Proof.
  apply (proj2 (X27_files_that_cannot_be_written no_repr)
           csv_read_only (CSVStorage.read_rows one_row) AFL101 "AFL101").
  - reflexivity.
  - reflexivity.
  - eexists. split; [left|reflexivity].
Defined.

(** ** Adding many records *)

Lemma json_add_file a data :
  snd (JSONStorage.add_aircraft a
         {| JSONStorage.file_of := JSONStorage.Parsed data;
            JSONStorage.writable := true |})
  = {| JSONStorage.file_of := JSONStorage.Parsed (json_upsert data a);
       JSONStorage.writable := true |}.
Proof. now rewrite json_add_aircraft. Qed.

(** X28. On a writable JSON file in the layout of the store,
    [add_multiple_aircraft] leaves the file that adding the records one
    by one with [add_aircraft], in the order of the list, leaves; it
    answers the length of the list. *)
Theorem X28_json_batch_is_repeated_add l d data :
  json_layout d data ->
  JSONStorage.writable d = true ->
  JSONStorage.add_multiple_aircraft l d
  = (Ok (List.length l),
     fold_left (fun d' a => snd (JSONStorage.add_aircraft a d')) l d).
Proof.
  destruct d as [f w]. intros Hl Hw. red in Hl. simpl in Hl, Hw. subst f w.
  unfold JSONStorage.add_multiple_aircraft, JSONStorage._load_data,
    JSONStorage._save_data.
  cbn [JSONStorage.file_of JSONStorage.writable].
  rewrite json_add_each. f_equal.
  revert data. induction l as [|a l IH]; intros data; [reflexivity|].
  cbn [fold_left]. now rewrite json_add_file, <- IH.
Qed.

Lemma X28_json_batch_is_repeated_add_witness :
  JSONStorage.add_multiple_aircraft [AFL101_slow; AFL101] json_empty
  = (Ok 2%nat,
     fold_left (fun d' a => snd (JSONStorage.add_aircraft a d'))
       [AFL101_slow; AFL101] json_empty).
Proof.
  apply (X28_json_batch_is_repeated_add [AFL101_slow; AFL101] json_empty []);
    reflexivity.
Defined.

(** ** A save that fails half way *)

Section FailedSave.

Variable float_repr : PyFloat.float -> string.

Lemma write_rows_stops K pre row post :
  Forall (fun r : dict => dom r ⊆ K) pre ->
  ~ dom row ⊆ K ->
  CSVStorage.write_rows float_repr K (pre ++ row :: post)
  = (CSVStorage.write_row float_repr K <$> pre, Some ValueError).
Proof.
  intros Hpre Hrow. induction Hpre as [|r pre Hr _ IH]; simpl.
  - now rewrite bool_decide_eq_false_2.
  - rewrite bool_decide_eq_true_2 by exact Hr. now rewrite IH.
Qed.

Lemma save_stops d first pre row post :
  CSVStorage.writable d = true ->
  Forall (fun r : dict => dom r ⊆ dom first) pre ->
  ~ dom row ⊆ dom first ->
  CSVStorage._save_data float_repr (first :: pre ++ row :: post) d
  = (Raise ValueError,
     {| CSVStorage.file_of :=
          CSVStorage.Parsed
            (CSVStorage.write_row float_repr (dom first) <$> first :: pre);
        CSVStorage.writable := true |}).
Proof.
  intros Hw Hpre Hrow. unfold CSVStorage._save_data. rewrite Hw.
  rewrite (write_rows_stops (dom first) (first :: pre) row post);
    [reflexivity| |exact Hrow].
  constructor; [reflexivity|exact Hpre].
Qed.

Lemma read_rows_dom K rows :
  Forall (fun r : CSVStorage.cells => dom r = K) rows ->
  Forall (fun r : dict => dom r = K) (CSVStorage.read_rows rows).
Proof.
  induction 1 as [|r rows Hr _ IH]; simpl; [constructor|].
  destruct (CSVStorage.any_value _); [|exact IH].
  constructor; [|exact IH]. now rewrite dom_fmap_L.
Qed.

(** X29. When a row to be written has a key that the first row does not
    have, [_save_data] of the CSV store raises [ValueError] after it has
    written the rows before that one: the rows after them are no longer
    in the file.  So [add_aircraft], updating a row other than the first
    of a file whose header lacks one of the nine columns, raises
    [ValueError] and leaves a file that ends before that row. *)
Theorem X29_failed_save_truncates_the_file d :
  CSVStorage.writable d = true ->
  (forall first pre row post,
      Forall (fun r : dict => dom r ⊆ dom first) pre ->
      ~ dom row ⊆ dom first ->
      CSVStorage._save_data float_repr (first :: pre ++ row :: post) d
      = (Raise ValueError,
         {| CSVStorage.file_of :=
              CSVStorage.Parsed
                (CSVStorage.write_row float_repr (dom first)
                 <$> first :: pre);
            CSVStorage.writable := true |}))
  /\ (forall rows K a new_row i,
        CSVStorage.file_of d = CSVStorage.Parsed rows ->
        Forall (fun r : CSVStorage.cells => dom r = K) rows ->
        ~ header_set ⊆ K ->
        CSVStorage._aircraft_to_row float_repr a = Ok new_row ->
        position (Aircraft.callsign a) (CSVStorage.read_rows rows)
        = Some (S i) ->
        CSVStorage.add_aircraft float_repr a d
        = (Raise ValueError,
           {| CSVStorage.file_of :=
                CSVStorage.Parsed
                  (CSVStorage.write_row float_repr K
                   <$> take (S i) (CSVStorage.read_rows rows));
              CSVStorage.writable := true |})).
Proof.
  intros Hw. split.
  - intros first pre row post. now apply save_stops.
  - intros rows K a new_row i Hf HK Hh Hrow Hp.
    unfold CSVStorage.add_aircraft, CSVStorage._load_data.
    rewrite Hf, Hrow, find_existing_position, Hp. cbn [fmap option_fmap option_map].
    pose proof (read_rows_dom K rows HK) as Hdom.
    pose proof (position_lt _ _ _ Hp) as Hlt.
    destruct (CSVStorage.read_rows rows) as [|first rest]; [simpl in Hlt; lia|].
    simpl in Hlt. inversion Hdom as [|? ? Hfirst Hrest]; subst.
    assert (Hi : (i < List.length rest)%nat) by lia.
    change (<[(0 + S i)%nat := new_row]> (first :: rest))
      with (first :: <[i := new_row]> rest).
    rewrite (insert_take_drop rest i new_row Hi).
    rewrite save_stops; [reflexivity|exact Hw| |].
    + apply Forall_take. eapply Forall_impl; [exact Hrest|].
      intros r Hr. simpl in Hr. now rewrite Hr.
    + destruct (aircraft_to_row_facts float_repr a new_row Hrow) as (-> & _).
      exact Hh.
Qed.

End FailedSave.

Lemma X29_failed_save_truncates_the_file_witness :
  CSVStorage.add_aircraft no_repr AFL101 csv_without_a_column
  = (Raise ValueError,
     {| CSVStorage.file_of :=
          CSVStorage.Parsed
            (CSVStorage.write_row no_repr eight_columns
             <$> take 1 (CSVStorage.read_rows rows_without_a_column));
        CSVStorage.writable := true |}).
Proof.
  destruct (CSVStorage._aircraft_to_row no_repr AFL101) as [new_row|] eqn:Hrow;
    [|discriminate Hrow].
  apply (proj2 (X29_failed_save_truncates_the_file no_repr
                  csv_without_a_column eq_refl)
           rows_without_a_column eight_columns AFL101 new_row 0%nat).
  - reflexivity.
  - repeat constructor; vm_compute; reflexivity.
  - apply (bool_decide_eq_false_1 (header_set ⊆ eight_columns)).
    vm_compute. reflexivity.
  - exact Hrow.
  - vm_compute. reflexivity.
Defined.

Section CsvBatch.

Variable float_repr : PyFloat.float -> string.

Lemma row_of_formattable a :
  formattable float_repr a ->
  CSVStorage._aircraft_to_row float_repr a = Ok (row_of float_repr a)
  /\ Py.get (row_of float_repr a) "callsign" = VStr (Aircraft.callsign a)
  /\ writable_row float_repr (row_of float_repr a).
Proof.
  intros [row Hrow]. unfold row_of. rewrite Hrow.
  split; [reflexivity|].
  split; [apply (aircraft_to_row_facts float_repr a row Hrow)|].
  now apply (new_row_writable float_repr a).
Qed.

Lemma float_fields_formattable a lo la vr :
  Aircraft._longitude a = VFloat lo ->
  Aircraft._latitude a = VFloat la ->
  Aircraft._vertical_rate a = VFloat vr ->
  formattable float_repr a.
Proof.
  intros H1 H2 H3. unfold formattable, CSVStorage._aircraft_to_row.
  rewrite H1, H2, H3. cbn [Py.format_f rbind]. now eexists.
Qed.

(** The loop of [add_multiple_aircraft] upserts the rows one by one. *)
Lemma add_each_fold l :
  Forall (formattable float_repr) l ->
  forall data ix n,
    index_ok ix data ->
    unique_callsigns data ->
    CSVStorage.add_each float_repr l data ix n
    = Ok (fold_left
            (fun data a =>
               csv_upsert (Aircraft.callsign a) (row_of float_repr a) data)
            l data,
          (n + List.length l)%nat).
Proof.
  induction 1 as [|a l Ha _ IH]; intros data ix n Hix Hu;
    cbn [CSVStorage.add_each fold_left].
  - do 2 f_equal. simpl. lia.
  - destruct (row_of_formattable a Ha) as (Hrow & Hkey & _).
    rewrite Hrow. cbn [rbind]. set (row := row_of float_repr a) in *.
    assert (Hf : forall item : dict,
               callsign_is (Aircraft.callsign a) item = true ->
               Py.get ((fun _ : dict => row) item) "callsign"
               = VStr (Aircraft.callsign a)) by (intros; exact Hkey).
    pose proof (upsert_unique (fun _ => row) _ row Hf Hkey data Hu) as Hu'.
    rewrite (Hix (Aircraft.callsign a)).
    destruct (position (Aircraft.callsign a) data) as [i|] eqn:Hp.
    + unfold CSVStorage.set_row.
      rewrite (proj2 (Nat.ltb_lt _ _) (position_lt _ _ _ Hp)).
      cbn [rbind].
      destruct (upsert_present (fun _ => row) _ row _ _ Hp) as (e & _ & Hup).
      pose proof (upsert_callsigns (fun _ => row) _ row Hf Hkey data) as Hcs.
      rewrite Hp in Hcs. unfold csv_upsert. rewrite Hup.
      rewrite Hup in Hcs, Hu'.
      rewrite IH; [do 2 f_equal; simpl; lia| |exact Hu'].
      intros q. rewrite (Hix q). symmetry. now apply position_callsigns.
    + unfold csv_upsert. rewrite (upsert_absent _ _ _ _ Hp).
      rewrite (upsert_absent _ _ _ _ Hp) in Hu'.
      rewrite IH; [do 2 f_equal; simpl; lia| |exact Hu'].
      intros q. rewrite index_get_set, position_app, (Hix q).
      rewrite length_app. simpl. fold (callsign_is q row).
      unfold callsign_is. rewrite Hkey, str_eq_refl.
      destruct (bool_decide_reflect (Aircraft.callsign a = q)) as [<-|Hne].
      * rewrite Hp. simpl. f_equal. lia.
      * now destruct (position q data).
Qed.

Lemma as_text_keyed c row :
  keyed row -> callsign_is c (as_text float_repr row) = callsign_is c row.
Proof.
  intros [q Hq]. apply callsign_is_key.
  now rewrite (as_text_get float_repr row "callsign" q Hq).
Qed.

Lemma as_text_upsert_keyed c row data :
  Forall keyed data ->
  as_text float_repr <$> csv_upsert c row data
  = csv_upsert c (as_text float_repr row) (as_text float_repr <$> data).
Proof.
  unfold csv_upsert.
  induction 1 as [|x data Hx _ IH]; [reflexivity|].
  rewrite fmap_cons. cbn [upsert_with]. rewrite (as_text_keyed c x Hx).
  destruct (callsign_is c x); rewrite fmap_cons; [reflexivity|].
  now rewrite IH.
Qed.

Lemma fold_upsert_Forall (P : dict -> Prop) l data :
  Forall (fun a => P (row_of float_repr a)) l -> Forall P data ->
  Forall P (fold_left
              (fun data a =>
                 csv_upsert (Aircraft.callsign a) (row_of float_repr a) data)
              l data).
Proof.
  intros Hl. revert data.
  induction Hl as [|a l Ha _ IH]; intros data Hd; [exact Hd|].
  cbn [fold_left]. apply IH. now apply upsert_Forall.
Qed.

Lemma as_text_fold l data :
  Forall (formattable float_repr) l -> Forall keyed data ->
  as_text float_repr
  <$> fold_left
        (fun data a =>
           csv_upsert (Aircraft.callsign a) (row_of float_repr a) data)
        l data
  = fold_left
      (fun data a =>
         csv_upsert (Aircraft.callsign a)
           (as_text float_repr (row_of float_repr a)) data)
      l (as_text float_repr <$> data).
Proof.
  intros Hl. revert data.
  induction Hl as [|a l Ha _ IH]; intros data Hd; [reflexivity|].
  assert (Hk : keyed (row_of float_repr a)).
  { destruct (row_of_formattable a Ha) as (_ & Hk & _). eexists; exact Hk. }
  cbn [fold_left]. rewrite IH.
  - now rewrite as_text_upsert_keyed.
  - now apply upsert_Forall.
Qed.

(** Adding the records one by one. *)
Lemma csv_add_one_by_one l :
  Forall (formattable float_repr) l ->
  forall d rows,
    csv_layout d rows ->
    CSVStorage.writable d = true ->
    CSVStorage._load_data
      (fold_left (fun d' a => snd (CSVStorage.add_aircraft float_repr a d'))
         l d)
    = Ok (fold_left
            (fun data a =>
               csv_upsert (Aircraft.callsign a)
                 (as_text float_repr (row_of float_repr a)) data)
            l (CSVStorage.read_rows rows)).
Proof.
  induction 1 as [|a l Ha _ IH]; intros d rows Hl Hw; cbn [fold_left].
  - apply (layout_load _ _ Hl).
  - destruct (row_of_formattable a Ha) as (Hrow & _ & _).
    destruct (csv_add_aircraft_layout float_repr d rows a _ Hl Hw Hrow)
      as (d1 & Hadd & Hl1 & Hw1 & Hload1).
    rewrite Hadd. cbn [snd].
    destruct (layout_load _ _ Hl1) as [Hload1' _].
    rewrite Hload1 in Hload1'. injection Hload1' as ->.
    now apply IH.
Qed.

(** X30. On a writable CSV file in the layout of the store, with
    distinct callsigns, [add_multiple_aircraft] of records that all have
    a row answers the length of the list and leaves a file that reads as
    the file that adding them one by one with [add_aircraft] leaves:
    the lookup by a dictionary of positions and the scan of the rows
    agree. *)
Theorem X30_csv_batch_is_repeated_add l d rows :
  csv_layout d rows ->
  CSVStorage.writable d = true ->
  unique_callsigns (CSVStorage.read_rows rows) ->
  Forall (formattable float_repr) l ->
  fst (CSVStorage.add_multiple_aircraft float_repr l d) = Ok (List.length l)
  /\ CSVStorage._load_data
       (snd (CSVStorage.add_multiple_aircraft float_repr l d))
     = CSVStorage._load_data
         (fold_left
            (fun d' a => snd (CSVStorage.add_aircraft float_repr a d')) l d).
Proof.
  intros Hl Hw Hu Hf.
  rewrite (csv_add_one_by_one l Hf d rows Hl Hw).
  destruct (layout_load _ _ Hl) as [Hload Hdata].
  assert (Hk : Forall keyed (CSVStorage.read_rows rows))
    by (eapply Forall_impl; [exact Hdata|apply loaded_keyed]).
  unfold CSVStorage.add_multiple_aircraft.
  destruct l as [|a l]; [split; [reflexivity|exact Hload]|].
  rewrite Hload.
  destruct (index_rows_ok [] (CSVStorage.read_rows rows) [] Hk Hu)
    as (ix & Hix & Hok); [intros q; reflexivity|].
  simpl List.length in Hix. rewrite Hix. cbn [rbind].
  rewrite (add_each_fold (a :: l) Hf (CSVStorage.read_rows rows) ix 0 Hok Hu).
  set (data' := fold_left _ (a :: l) (CSVStorage.read_rows rows)).
  destruct (save_then_load float_repr data' d) as (d' & -> & _ & _ & Hld);
    [|exact Hw|].
  - apply fold_upsert_Forall.
    + eapply Forall_impl; [exact Hf|]. intros b Hb.
      now destruct (row_of_formattable b Hb) as (_ & _ & ?).
    + eapply Forall_impl; [exact Hdata|apply loaded_writable].
  - cbn [rbind fst snd]. split; [reflexivity|].
    rewrite Hld. f_equal. unfold data'.
    now rewrite (as_text_fold (a :: l) _ Hf Hk),
      (as_text_loaded_list float_repr _ Hdata).
Qed.

End CsvBatch.

Lemma X30_csv_batch_is_repeated_add_witness :
  fst (CSVStorage.add_multiple_aircraft no_repr [AFL101_slow; AFL101]
         csv_empty) = Ok 2%nat
  /\ CSVStorage._load_data
       (snd (CSVStorage.add_multiple_aircraft no_repr [AFL101_slow; AFL101]
               csv_empty))
     = CSVStorage._load_data
         (fold_left (fun d' a => snd (CSVStorage.add_aircraft no_repr a d'))
            [AFL101_slow; AFL101] csv_empty).
Proof.
  apply (X30_csv_batch_is_repeated_add no_repr [AFL101_slow; AFL101]
           csv_empty []).
  - split; [reflexivity|constructor].
  - reflexivity.
  - constructor.
  - repeat constructor; eapply float_fields_formattable; reflexivity.
Defined.
